(** * Classroom simulator: session lifecycle, slide orchestration and
      team-data reconciliation

    A shallow embedding of
    - the [GameSessionManager] class of [src/core/game/GameSessionManager.ts],
    - the [useGameController] hook of [src/core/game/useGameController.ts],
    - the [useTeamDataManager] hook that ends
      [src/shared/components/Video/HostVideoControls.tsx].

    JavaScript numbers that index slides or count teams are integers [Z];
    objects used as dictionaries are [gmap]s; the [Set<number>] held in a
    ref is a [gset Z]; a nullable field is an [option].  Effects on the
    Supabase tables are explicit state passing over [World.t]; every call
    that leaves the hooks is recorded in a log, so that statements can
    count them.  What the environment decides (whether a call fails, the
    random draws, the date) is a variable of the section. *)

From Stdlib Require Import ZArith QArith Qround String Ascii List Lia.
From stdpp Require Import base gmap strings list fin_maps pretty.

Local Open Scope string_scope.
Local Open Scope Z_scope.

(** ** JavaScript values and control flow *)

(** A thrown value: either an [Error] instance carrying its [message], or
    any other value (for which [error instanceof Error] is false). *)
Inductive Thrown : Type :=
| ErrorObj (message : string)
| NonError.

(** How an awaited promise settles. *)
Inductive Outcome : Type :=
| Resolved
| Rejected (e : Thrown).

(** The value of an [async] function that may throw. *)
Inductive Result (A : Type) : Type :=
| Ok (a : A)
| Throw (e : Thrown).
Arguments Ok {A} a.
Arguments Throw {A} e.

(** [error instanceof Error ? error.message : dflt] *)
Definition message_or (e : Thrown) (dflt : string) : string :=
  match e with
  | ErrorObj m => m
  | NonError => dflt
  end.

(** Truthiness of a [string | null | undefined] value. *)
Definition truthy (s : option string) : bool :=
  match s with
  | Some s => negb (String.eqb s "")
  | None => false
  end.

(** [a || b] on strings. *)
Definition or_else (a b : string) : string :=
  if String.eqb a "" then b else a.

(** [a || null] on a [string | null | undefined] value. *)
Definition or_null (a : option string) : option string :=
  if truthy a then a else None.

(** [String.prototype.trim], on the ASCII white space characters. *)
Definition is_space (c : ascii) : bool :=
  let n := nat_of_ascii c in
  orb (Nat.eqb n 32) (andb (Nat.leb 9 n) (Nat.leb n 13)).

Fixpoint trimStart (s : string) : string :=
  match s with
  | String c s' => if is_space c then trimStart s' else s
  | EmptyString => EmptyString
  end.

Fixpoint trimEnd (s : string) : string :=
  match s with
  | String c s' =>
      match trimEnd s' with
      | EmptyString => if is_space c then EmptyString else String c EmptyString
      | t => String c t
      end
  | EmptyString => EmptyString
  end.

Definition trim (s : string) : string := trimEnd (trimStart s).

(** [String.fromCharCode(n)] for a code unit below 256. *)
Definition fromCharCode (n : Z) : string :=
  String (ascii_of_nat (Z.to_nat n)) EmptyString.

(** [Number.prototype.toString] on an integer. *)
Definition toString (n : Z) : string := pretty n.

(** [Array.from({length: n}).map((_, i) => f i)] for an integer [n]:
    the indices [0 .. n-1] in order, none when [n <= 0]. *)
Definition array_from_length_map {A} (n : Z) (f : Z -> A) : list A :=
  map (fun i : nat => f (Z.of_nat i)) (seq 0 (Z.to_nat n)).

Definition is_digit (c : ascii) : bool :=
  let n := nat_of_ascii c in andb (Nat.leb 48 n) (Nat.leb n 57).

Fixpoint all_digits (s : string) : bool :=
  match s with
  | String c s' => andb (is_digit c) (all_digits s')
  | EmptyString => true
  end.

(** ** Shared types ([@shared/types]) *)

Module Slide.
Record t : Type := mk {
  id : Z;
  type : string;
  interactive_data_key : option string;
  source_path : option string
}.
End Slide.

Module GameStructure.
Record t : Type := mk { slides : list Slide.t }.
End GameStructure.

Inductive SessionStatus : Type := draft | active | completed.

(** An opaque JSON object (wizard payload, host notes): string keys to
    JSON text. *)
Abbreviation JsonObject := (gmap string string).

Module GameSession.
Record t : Type := mk {
  id : string;
  name : string;
  host_id : string;
  status : SessionStatus;
  game_version : string;
  current_slide_index : option Z;
  is_playing : bool;
  is_complete : bool;
  host_notes : JsonObject;
  wizard_state : option JsonObject;
  class_name : option string;
  grade_level : option string
}.

Definition with_current_slide_index (i : option Z) (s : t) : t :=
  mk (id s) (name s) (host_id s) (status s) (game_version s) i
     (is_playing s) (is_complete s) (host_notes s) (wizard_state s)
     (class_name s) (grade_level s).
End GameSession.

(** [Partial<GameSessionInsert>]: a field is [None] when the key is absent
    from the object literal; a nullable column set to [null] is
    [Some None]. *)
Module Updates.
Record t : Type := mk {
  name : option string;
  status : option SessionStatus;
  game_version : option string;
  current_slide_index : option Z;
  is_playing : option bool;
  is_complete : option bool;
  host_notes : option JsonObject;
  wizard_state : option (option JsonObject);
  class_name : option (option string);
  grade_level : option (option string)
}.

(** [{current_slide_index: i}] *)
Definition only_index (i : Z) : t :=
  mk None None None (Some i) None None None None None None.
End Updates.

Module TeamInsert.
Record t : Type := mk {
  session_id : string;
  name : string;
  passcode : string
}.
End TeamInsert.

Module TeamConfig.
Record t : Type := mk { name : string; passcode : string }.
End TeamConfig.

Module NewGameData.
Record t : Type := mk {
  name : string;
  class_name : option string;
  grade_level : option string;
  game_version : string;
  teams_config : option (list TeamConfig.t);
  num_teams : Z
}.
End NewGameData.

Module TeamDecision.
Record t : Type := mk {
  session_id : string;
  team_id : string;
  phase_id : string;
  payload : string
}.
End TeamDecision.

Module TeamRoundData.
Record t : Type := mk {
  team_id : string;
  round_number : Z;
  kpis : string
}.
End TeamRoundData.

(** ** The external world: Supabase tables and collaborator calls *)

(** Modelled from the spec: the Session Store of section 6 ([sessions]
    keyed by identifier, [teams] and [decisions] as row lists).  The
    adapter object [db] of [@shared/services/supabase] is not part of the
    sources; only its call sites are. *)
Module Db.
Record t : Type := mk {
  sessions : gmap string GameSession.t;
  teams : list TeamInsert.t;
  decisions : list TeamDecision.t
}.

Definition with_sessions (m : gmap string GameSession.t) (d : t) : t :=
  mk m (teams d) (decisions d).

Definition with_teams (l : list TeamInsert.t) (d : t) : t :=
  mk (sessions d) l (decisions d).

Definition with_decisions (l : list TeamDecision.t) (d : t) : t :=
  mk (sessions d) (teams d) l.
End Db.

(** Every call that leaves the hooks, in the order it is issued. *)
Inductive Call : Type :=
| SessionsUpdate (sessionId : string) (updates : Updates.t)
| TeamsCreate (row : TeamInsert.t)
| DecisionsDelete (sessionId teamId phaseId : string)
| DecisionsGetBySession (sessionId : string)
| ProcessInteractiveSlide (slide : Slide.t)
| ProcessConsequenceSlide (slide : Slide.t).

Module World.
Record t : Type := mk {
  db : Db.t;
  calls : list Call;
  draws : nat
}.

Definition with_db (d : Db.t) (w : t) : t := mk d (calls w) (draws w).

Definition log (c : Call) (w : t) : t := mk (db w) (calls w ++ [c]) (draws w).
End World.

(** Where an object literal of [updateSession] names a field, the stored
    record takes it; the other columns keep their value. *)
Definition apply_updates (u : Updates.t) (s : GameSession.t) : GameSession.t :=
  GameSession.mk
    (GameSession.id s)
    (default (GameSession.name s) (Updates.name u))
    (GameSession.host_id s)
    (default (GameSession.status s) (Updates.status u))
    (default (GameSession.game_version s) (Updates.game_version u))
    (match Updates.current_slide_index u with
     | Some i => Some i
     | None => GameSession.current_slide_index s
     end)
    (default (GameSession.is_playing s) (Updates.is_playing u))
    (default (GameSession.is_complete s) (Updates.is_complete u))
    (default (GameSession.host_notes s) (Updates.host_notes u))
    (default (GameSession.wizard_state s) (Updates.wizard_state u))
    (default (GameSession.class_name s) (Updates.class_name u))
    (default (GameSession.grade_level s) (Updates.grade_level u)).

Module HostAlert.
Record t : Type := mk { title : string; message : string }.
End HostAlert.

(** The state the [useGameController] hook keeps between renders: its
    [useState] cells, the [Set] in [processedConsequenceSlidesRef], and the
    slide identifiers whose [processConsequenceSlide] call has not settled
    yet (the suspended halves of the auto-processing effect). *)
Module Controller.
Record t : Type := mk {
  dbSession : option GameSession.t;
  currentHostAlertState : option HostAlert.t;
  allTeamsSubmittedState : bool;
  allTeamsAlertDismissed : bool;
  processedConsequenceSlidesRef : gset Z;
  awaiting : list Z
}.

Definition with_dbSession (s : option GameSession.t) (c : t) : t :=
  mk s (currentHostAlertState c) (allTeamsSubmittedState c)
     (allTeamsAlertDismissed c) (processedConsequenceSlidesRef c) (awaiting c).

Definition with_alert (a : option HostAlert.t) (c : t) : t :=
  mk (dbSession c) a (allTeamsSubmittedState c)
     (allTeamsAlertDismissed c) (processedConsequenceSlidesRef c) (awaiting c).

Definition with_submitted (b : bool) (c : t) : t :=
  mk (dbSession c) (currentHostAlertState c) b
     (allTeamsAlertDismissed c) (processedConsequenceSlidesRef c) (awaiting c).

Definition with_dismissed (b : bool) (c : t) : t :=
  mk (dbSession c) (currentHostAlertState c) (allTeamsSubmittedState c)
     b (processedConsequenceSlidesRef c) (awaiting c).

Definition with_processed (p : gset Z) (c : t) : t :=
  mk (dbSession c) (currentHostAlertState c) (allTeamsSubmittedState c)
     (allTeamsAlertDismissed c) p (awaiting c).

Definition with_awaiting (l : list Z) (c : t) : t :=
  mk (dbSession c) (currentHostAlertState c) (allTeamsSubmittedState c)
     (allTeamsAlertDismissed c) (processedConsequenceSlidesRef c) l.

(** The hook as first rendered with [initialDbSession]. *)
Definition init (initialDbSession : option GameSession.t) : t :=
  mk initialDbSession None false false ∅ [].
End Controller.

(** Drop the first occurrence of [x]. *)
Fixpoint list_remove_one (x : Z) (l : list Z) : list Z :=
  match l with
  | [] => []
  | y :: l' => if decide (x = y) then l' else y :: list_remove_one x l'
  end.

(** What a change-feed event carries of the old row: any column may be
    missing. *)
Module PartialRoundData.
Record t : Type := mk {
  team_id : option string;
  round_number : option Z
}.
End PartialRoundData.

(** The payload of a [team_round_data] change event, by [eventType]. *)
Inductive RoundDataPayload : Type :=
| INSERT (new : TeamRoundData.t)
| UPDATE (new : TeamRoundData.t) (old : PartialRoundData.t)
| DELETE (old : PartialRoundData.t).

(** The [useState] cells of [useTeamDataManager] that the decisions and
    round-data paths touch. *)
Module TeamData.
Record t : Type := mk {
  teamDecisions : gmap string (gmap string TeamDecision.t);
  teamRoundData : gmap string (gmap Z TeamRoundData.t);
  isLoadingDecisions : bool;
  error : option string
}.

Definition with_teamDecisions (m : gmap string (gmap string TeamDecision.t))
    (d : t) : t :=
  mk m (teamRoundData d) (isLoadingDecisions d) (error d).

Definition with_isLoadingDecisions (b : bool) (d : t) : t :=
  mk (teamDecisions d) (teamRoundData d) b (error d).

Definition with_error (e : option string) (d : t) : t :=
  mk (teamDecisions d) (teamRoundData d) (isLoadingDecisions d) e.
End TeamData.

(** [JSON.parse(JSON.stringify(x))] on a projection built from JSON rows:
    a structurally equal copy. *)
Definition deep_clone {A : Type} (x : A) : A := x.

(** A session row as the store returns it: the session with its
    time stamps. *)
Module SessionRow.
Record t : Type := mk {
  session : GameSession.t;
  created_at : string;
  updated_at : string
}.
End SessionRow.

(** The result of [getCategorizedSessionsForHost]. *)
Module Categorized.
Record t : Type := mk {
  draft : list SessionRow.t;
  active : list SessionRow.t;
  completed : list SessionRow.t
}.
End Categorized.

#[global] Instance SessionStatus_eq_dec : EqDecision SessionStatus.
Proof. solve_decision. Defined.

(** [Array.prototype.sort]: a stable sort; with a comparator that orders
    consistently its result is the one of this insertion sort, in which an
    element goes before the first element it does not have to follow. *)
Fixpoint insert_sorted {A : Type} (cmp : A → A → Z) (x : A) (l : list A)
    : list A :=
  match l with
  | [] => [x]
  | y :: l' => if cmp x y <=? 0 then x :: l else y :: insert_sorted cmp x l'
  end.

Definition js_sort {A : Type} (cmp : A → A → Z) (l : list A) : list A :=
  foldr (insert_sorted cmp) [] l.

Section Simulator.

(** What the environment decides: whether an external call fails (given
    the whole call history, the call itself last), how the Supabase error
    formatter renders a thrown value, the successive values of
    [Math.random()], and [new Date().toLocaleDateString()]. *)
Variable failure : list Call -> option Thrown.
Variable formatSupabaseError : Thrown -> string.
Variable random : nat -> Q.
Variable today : string.

(** Issue an external call: it is logged, and the environment tells
    whether it fails. *)
Definition issue (c : Call) (w : World.t) : World.t * option Thrown :=
  let w' := World.log c w in (w', failure (World.calls w')).

(** Modelled from the spec: [db.sessions.update(id, partialFields)]
    yields the updated record or fails; no record is returned when the
    row is missing. *)
Definition db_sessions_update (sessionId : string) (updates : Updates.t)
    (w : World.t) : World.t * Result (option GameSession.t) :=
  match issue (SessionsUpdate sessionId updates) w with
  | (w1, Some e) => (w1, Throw e)
  | (w1, None) =>
      match Db.sessions (World.db w1) !! sessionId with
      | Some s =>
          let s' := apply_updates updates s in
          (World.with_db
             (Db.with_sessions (<[sessionId := s']> (Db.sessions (World.db w1)))
                (World.db w1)) w1,
           Ok (Some s'))
      | None => (w1, Ok None)
      end
  end.

(** Modelled from the spec: [db.teams.create({sessionId, name, passcode})]
    adds the row or fails. *)
Definition db_teams_create (row : TeamInsert.t) (w : World.t)
    : World.t * Outcome :=
  match issue (TeamsCreate row) w with
  | (w1, Some e) => (w1, Rejected e)
  | (w1, None) =>
      (World.with_db
         (Db.with_teams (Db.teams (World.db w1) ++ [row]) (World.db w1)) w1,
       Resolved)
  end.

(** ** [GameSessionManager] *)

Definition updateSession (sessionId : string) (updates : Updates.t)
    (w : World.t) : World.t * Result GameSession.t :=
  if orb (String.eqb sessionId "") (String.eqb sessionId "new") then
    (w, Throw (ErrorObj "Cannot update session: Invalid session ID"))
  else
    match db_sessions_update sessionId updates w with
    | (w1, Ok (Some updatedSession)) => (w1, Ok updatedSession)
    | (w1, Ok None) =>
        (w1, Throw (ErrorObj ("Failed to save session progress: " ++
           formatSupabaseError
             (ErrorObj ("Failed to update session with ID '" ++ sessionId ++ "'.")))))
    | (w1, Throw error) =>
        (w1, Throw (ErrorObj ("Failed to save session progress: " ++
           formatSupabaseError error)))
    end.

Definition resetSessionProgress (sessionId : string) (w : World.t)
    : World.t * Result GameSession.t :=
  updateSession sessionId
    (Updates.mk None (Some active) None (Some 0) (Some false) (Some false)
       (Some ∅) (Some None) None None) w.

Definition completeSession (sessionId : string) (w : World.t)
    : World.t * Result GameSession.t :=
  updateSession sessionId
    (Updates.mk None (Some completed) None None (Some false) (Some true)
       None None None None) w.

(** [Math.floor(1000 + Math.random() * 9000).toString()], the product and
    the sum taken exactly. *)
Definition random_passcode (r : Q) : string :=
  toString (Qfloor (inject_Z 1000 + r * inject_Z 9000)).

(** The teams synthesised when no explicit list is given: the rows are
    built (and the creations started) in index order, one draw each. *)
Definition default_team (sessionId : string) (first_draw : nat) (i : Z)
    : TeamInsert.t :=
  TeamInsert.mk sessionId
    ("Team " ++ fromCharCode (65 + i))
    (random_passcode (random (first_draw + Z.to_nat i))).

(** [Promise.all(rows.map(row => db.teams.create(row)))]: every creation
    is started; the batch rejects with the first rejection, if any. *)
Fixpoint create_all (rows : list TeamInsert.t) (w : World.t)
    : World.t * Outcome :=
  match rows with
  | [] => (w, Resolved)
  | row :: rest =>
      match db_teams_create row w with
      | (w1, o) =>
          match create_all rest w1 with
          | (w2, o') =>
              (w2, match o with Resolved => o' | Rejected e => Rejected e end)
          end
      end
  end.

Definition draw_n (n : nat) (w : World.t) : World.t :=
  World.mk (World.db w) (World.calls w) (World.draws w + n).

Definition finalize_error (error : Thrown) : Thrown :=
  ErrorObj ("Failed to finalize game session: " ++ formatSupabaseError error).

Definition finalizeDraftSession (sessionId : string)
    (finalGameData : NewGameData.t) (w : World.t)
    : World.t * Result GameSession.t :=
  match updateSession sessionId
          (Updates.mk
             (Some (or_else (trim (NewGameData.name finalGameData))
                      ("Game Session - " ++ today)))
             (Some active)
             (Some (NewGameData.game_version finalGameData))
             None None None None
             (Some None)
             (Some (or_null (trim <$> NewGameData.class_name finalGameData)))
             (Some (or_null (NewGameData.grade_level finalGameData))))
          w with
  | (w1, Throw error) => (w1, Throw (finalize_error error))
  | (w1, Ok updatedSession) =>
      let teamsToCreate := default [] (NewGameData.teams_config finalGameData) in
      if (0 <? Z.of_nat (length teamsToCreate)) then
        match create_all
                (map (fun teamConfig =>
                        TeamInsert.mk sessionId (TeamConfig.name teamConfig)
                          (TeamConfig.passcode teamConfig)) teamsToCreate) w1 with
        | (w2, Resolved) => (w2, Ok updatedSession)
        | (w2, Rejected error) => (w2, Throw (finalize_error error))
        end
      else if (0 <? NewGameData.num_teams finalGameData) then
        let rows := array_from_length_map (NewGameData.num_teams finalGameData)
                      (default_team sessionId (World.draws w1)) in
        match create_all rows (draw_n (length rows) w1) with
        | (w2, Resolved) => (w2, Ok updatedSession)
        | (w2, Rejected error) => (w2, Throw (finalize_error error))
        end
      else (w1, Ok updatedSession)
  end.

(** ** [useGameController] *)

Definition ALL_SUBMIT_ALERT_TITLE : string := "All Teams Have Submitted!".

Definition ALL_SUBMIT_ALERT_MESSAGE : string :=
  "All teams have submitted their decisions for this challenge. Click OK to proceed to the next slide, then click Next to proceed.".

(** [dbSession?.current_slide_index ?? null] *)
Definition currentSlideIndex (c : Controller.t) : option Z :=
  Controller.dbSession c ≫= GameSession.current_slide_index.

(** [slides[i]], [undefined] out of range. *)
Definition slide_at (slides : list Slide.t) (i : Z) : option Slide.t :=
  if i <? 0 then None else slides !! Z.to_nat i.

Definition currentSlideData (gameStructure : option GameStructure.t)
    (c : Controller.t) : option Slide.t :=
  match gameStructure, currentSlideIndex c with
  | Some g, Some i => slide_at (GameStructure.slides g) i
  | _, _ => None
  end.

(** [gameStructure?.slides.length ?? dflt] *)
Definition slides_length (gameStructure : option GameStructure.t) (dflt : Z)
    : Z :=
  match gameStructure with
  | Some g => Z.of_nat (length (GameStructure.slides g))
  | None => dflt
  end.

(** The effect of lines 30-34. *)
Definition adoptInitialSession (initialDbSession : option GameSession.t)
    (c : Controller.t) : Controller.t :=
  match initialDbSession, Controller.dbSession c with
  | Some s, None => Controller.with_dbSession (Some s) c
  | _, _ => c
  end.

(** The effect of lines 37-42: the processed set is emptied when the
    identifier of the session passed in differs from the cached one. *)
Definition resetProcessedOnSessionChange
    (initialDbSession : option GameSession.t) (c : Controller.t)
    : Controller.t :=
  if decide (GameSession.id <$> initialDbSession
             ≠ GameSession.id <$> Controller.dbSession c)
  then Controller.with_processed ∅ c
  else c.

(** The effect of lines 73-84. *)
Definition showAllSubmittedAlert (gameStructure : option GameStructure.t)
    (c : Controller.t) : Controller.t :=
  if Controller.allTeamsSubmittedState c
     && truthy (currentSlideData gameStructure c ≫= Slide.interactive_data_key)
     && negb (bool_decide (is_Some (Controller.currentHostAlertState c)))
     && negb (Controller.allTeamsAlertDismissed c)
  then Controller.with_alert
         (Some (HostAlert.mk ALL_SUBMIT_ALERT_TITLE ALL_SUBMIT_ALERT_MESSAGE)) c
  else c.

(** The effect of lines 87-122, up to its [await]: the guard, the mark,
    and the start of the processor call.  The mark precedes the call. *)
Definition processConsequenceSlideAuto_begin
    (currentSlideData : option Slide.t)
    (gameStructure : option GameStructure.t)
    (c : Controller.t) (w : World.t) : Controller.t * World.t :=
  match currentSlideData, gameStructure with
  | Some slide, Some _ =>
      if String.eqb (Slide.type slide) "consequence_reveal" then
        if decide (Slide.id slide ∈ Controller.processedConsequenceSlidesRef c)
        then (c, w)
        else
          let c1 := Controller.with_processed
                      ({[Slide.id slide]} ∪ Controller.processedConsequenceSlidesRef c) c in
          (Controller.with_awaiting (Slide.id slide :: Controller.awaiting c1) c1,
           World.log (ProcessConsequenceSlide slide) w)
      else (c, w)
  | _, _ => (c, w)
  end.

(** The rest of the effect, run when the awaited call of slide [slideId]
    settles; nothing runs when no such call is in flight. *)
Definition processConsequenceSlideAuto_settle (slideId : Z) (o : Outcome)
    (c : Controller.t) : Controller.t :=
  if decide (slideId ∈ Controller.awaiting c) then
    let c1 := Controller.with_awaiting
                (list_remove_one slideId (Controller.awaiting c)) c in
    match o with
    | Resolved => c1
    | Rejected error =>
        Controller.with_alert
          (Some (HostAlert.mk "Processing Error"
                   ("Failed to process consequence slide: " ++
                    message_or error "Unknown error")))
          (Controller.with_processed
             (Controller.processedConsequenceSlidesRef c1 ∖ {[slideId]}) c1)
    end
  else c.

(** The whole effect when nothing interleaves with the awaited call. *)
Definition processConsequenceSlideAuto
    (currentSlideData : option Slide.t)
    (gameStructure : option GameStructure.t)
    (c : Controller.t) (w : World.t) : Controller.t * World.t :=
  match currentSlideData, gameStructure with
  | Some slide, Some _ =>
      if String.eqb (Slide.type slide) "consequence_reveal" then
        if decide (Slide.id slide ∈ Controller.processedConsequenceSlidesRef c)
        then (c, w)
        else
          let c1 := Controller.with_processed
                      ({[Slide.id slide]} ∪ Controller.processedConsequenceSlidesRef c) c in
          match issue (ProcessConsequenceSlide slide) w with
          | (w1, None) => (c1, w1)
          | (w1, Some error) =>
              (Controller.with_alert
                 (Some (HostAlert.mk "Processing Error"
                          ("Failed to process consequence slide: " ++
                           message_or error "Unknown error")))
                 (Controller.with_processed
                    (Controller.processedConsequenceSlidesRef c1 ∖ {[Slide.id slide]})
                    c1), w1)
          end
      else (c, w)
  | _, _ => (c, w)
  end.

Definition clearHostAlert (gameStructure : option GameStructure.t)
    (c : Controller.t) (w : World.t) : Controller.t * World.t :=
  match Controller.currentHostAlertState c, Controller.dbSession c with
  | Some alert, Some dbSession =>
      let isAllSubmitAlert :=
        String.eqb (HostAlert.title alert) ALL_SUBMIT_ALERT_TITLE in
      let c1 := Controller.with_alert None c in
      if isAllSubmitAlert then
        let c2 := Controller.with_dismissed true c1 in
        let nextSlideIndex :=
          Z.min (default 0 (GameSession.current_slide_index dbSession) + 1)
                (slides_length gameStructure 1 - 1) in
        match updateSession (GameSession.id dbSession)
                (Updates.only_index nextSlideIndex) w with
        | (w1, Ok _) =>
            (Controller.with_dbSession
               (GameSession.with_current_slide_index (Some nextSlideIndex)
                  <$> Controller.dbSession c2) c2, w1)
        | (w1, Throw error) =>
            (Controller.with_alert
               (Some (HostAlert.mk "Navigation Error"
                        (message_or error "Failed to change slide."))) c2, w1)
        end
      else (c1, w)
  | _, _ => (c, w)
  end.

(** The navigation half of [nextSlide] (lines 173-194). *)
Definition navigateNext (gameStructure : option GameStructure.t)
    (dbSession : GameSession.t) (currentSlideIndex : Z)
    (c : Controller.t) (w : World.t) : Controller.t * World.t :=
  let nextIndex := currentSlideIndex + 1 in
  let maxIndex := slides_length gameStructure 1 - 1 in
  if nextIndex <=? maxIndex then
    match updateSession (GameSession.id dbSession)
            (Updates.only_index nextIndex) w with
    | (w1, Ok _) =>
        (Controller.with_dismissed false
           (Controller.with_dbSession
              (GameSession.with_current_slide_index (Some nextIndex)
                 <$> Controller.dbSession c) c), w1)
    | (w1, Throw error) =>
        (Controller.with_alert
           (Some (HostAlert.mk "Navigation Error"
                    (message_or error "Failed to advance slide."))) c, w1)
    end
  else (c, w).

Definition nextSlide (gameStructure : option GameStructure.t)
    (c : Controller.t) (w : World.t) : Controller.t * World.t :=
  match Controller.dbSession c with
  | None => (c, w)
  | Some dbSession =>
      match GameSession.current_slide_index dbSession,
            currentSlideData gameStructure c with
      | Some currentSlideIndex, Some currentSlideData =>
          if truthy (Slide.interactive_data_key currentSlideData)
             && String.prefix "interactive_" (Slide.type currentSlideData)
          then
            match issue (ProcessInteractiveSlide currentSlideData) w with
            | (w1, Some error) =>
                (Controller.with_alert
                   (Some (HostAlert.mk "Processing Error"
                            ("Failed to process slide: " ++
                             message_or error "Unknown error"))) c, w1)
            | (w1, None) =>
                navigateNext gameStructure dbSession currentSlideIndex c w1
            end
          else navigateNext gameStructure dbSession currentSlideIndex c w
      | _, _ => (c, w)
      end
  end.

Definition previousSlide (c : Controller.t) (w : World.t)
    : Controller.t * World.t :=
  match Controller.dbSession c with
  | None => (c, w)
  | Some dbSession =>
      match GameSession.current_slide_index dbSession with
      | None => (c, w)
      | Some currentSlideIndex =>
          let prevIndex := Z.max (currentSlideIndex - 1) 0 in
          match updateSession (GameSession.id dbSession)
                  (Updates.only_index prevIndex) w with
          | (w1, Ok _) =>
              (Controller.with_dismissed false
                 (Controller.with_dbSession
                    (GameSession.with_current_slide_index (Some prevIndex)
                       <$> Controller.dbSession c) c), w1)
          | (w1, Throw error) =>
              (Controller.with_alert
                 (Some (HostAlert.mk "Navigation Error"
                          (message_or error "Failed to go to previous slide."))) c,
               w1)
          end
      end
  end.

Definition selectSlideByIndex (gameStructure : option GameStructure.t)
    (targetIndex : Z) (c : Controller.t) (w : World.t)
    : Controller.t * World.t :=
  match Controller.dbSession c with
  | None => (c, w)
  | Some dbSession =>
      if (targetIndex <? 0) || (slides_length gameStructure 0 <=? targetIndex)
      then (c, w)
      else
        match updateSession (GameSession.id dbSession)
                (Updates.only_index targetIndex) w with
        | (w1, Ok _) =>
            (Controller.with_dismissed false
               (Controller.with_dbSession
                  (GameSession.with_current_slide_index (Some targetIndex)
                     <$> Controller.dbSession c) c), w1)
        | (w1, Throw error) =>
            (Controller.with_alert
               (Some (HostAlert.mk "Navigation Error"
                        (message_or error "Failed to jump to slide."))) c, w1)
        end
  end.

(** ** [useTeamDataManager] *)

(** Modelled from the spec: [db.decisions.delete(sessionId, teamId,
    phaseId)] is scoped by phase: it removes the rows stored under exactly
    that (session, team, phase) key, or fails. *)
Definition db_decisions_delete (sessionId teamId phaseId : string)
    (w : World.t) : World.t * Outcome :=
  match issue (DecisionsDelete sessionId teamId phaseId) w with
  | (w1, Some e) => (w1, Rejected e)
  | (w1, None) =>
      (World.with_db
         (Db.with_decisions
            (filter (fun d => ¬ (TeamDecision.session_id d = sessionId
                                 ∧ TeamDecision.team_id d = teamId
                                 ∧ TeamDecision.phase_id d = phaseId))
               (Db.decisions (World.db w1)))
            (World.db w1)) w1,
       Resolved)
  end.

(** Modelled from the spec: [db.decisions.getBySession(sessionId)] yields
    the rows of that session, or fails. *)
Definition db_decisions_getBySession (sessionId : string) (w : World.t)
    : World.t * Result (list TeamDecision.t) :=
  match issue (DecisionsGetBySession sessionId) w with
  | (w1, Some e) => (w1, Throw e)
  | (w1, None) =>
      (w1, Ok (filter (fun d => TeamDecision.session_id d = sessionId)
                 (Db.decisions (World.db w1))))
  end.

(** The callback of the [forEach] in [fetchTeamDecisionsForSession]. *)
Definition addDecision (structuredDecisions : gmap string (gmap string TeamDecision.t))
    (decision : TeamDecision.t) : gmap string (gmap string TeamDecision.t) :=
  let s1 :=
    match structuredDecisions !! TeamDecision.team_id decision with
    | Some _ => structuredDecisions
    | None => <[TeamDecision.team_id decision := ∅]> structuredDecisions
    end in
  alter (insert (TeamDecision.phase_id decision) decision)
    (TeamDecision.team_id decision) s1.

(** The projection built from the rows: a later row of the same
    (team, phase) overwrites an earlier one. *)
Definition structureDecisions (data : list TeamDecision.t)
    : gmap string (gmap string TeamDecision.t) :=
  fold_left addDecision data ∅.

Definition fetchTeamDecisionsForSession (sessionId : string)
    (t : TeamData.t) (w : World.t) : TeamData.t * World.t :=
  if String.eqb sessionId "" || String.eqb sessionId "new" then
    (TeamData.with_teamDecisions ∅ t, w)
  else
    let t1 := TeamData.with_error None
                (TeamData.with_isLoadingDecisions true t) in
    match db_decisions_getBySession sessionId w with
    | (w1, Ok data) =>
        (TeamData.with_isLoadingDecisions false
           (TeamData.with_teamDecisions (structureDecisions data) t1), w1)
    | (w1, Throw err) =>
        (TeamData.with_isLoadingDecisions false
           (TeamData.with_teamDecisions ∅
              (TeamData.with_error
                 (Some ("Failed to load team decisions: " ++
                        formatSupabaseError err)) t1)), w1)
    end.

(** The updater passed to [setTeamDecisions] by [resetTeamDecisionInDb]
    (lines 476-487). *)
Definition removeDecision (teamId phaseId : string)
    (prev : gmap string (gmap string TeamDecision.t))
    : gmap string (gmap string TeamDecision.t) :=
  let updated := deep_clone prev in
  match updated !! teamId with
  | Some phases =>
      match phases !! phaseId with
      | Some _ =>
          let updated1 := alter (delete phaseId) teamId updated in
          if decide (size (default ∅ (updated1 !! teamId)) = 0%nat)
          then delete teamId updated1
          else updated1
      | None => updated
      end
  | None => updated
  end.

(** [resetTeamDecisionInDb] up to its call of the reload (lines 455-487):
    the identifier guard, the store's delete and, once the delete has
    succeeded, the updater passed to [setTeamDecisions].  The projection it
    leaves is the one the hook shows until the reload of line 490 is
    answered. *)
Definition resetTeamDecisionInDb_begin (sessionId teamId phaseId : string)
    (t : TeamData.t) (w : World.t) : TeamData.t * World.t * Result unit :=
  if String.eqb sessionId "" || String.eqb teamId "" || String.eqb phaseId ""
  then (t, w, Throw (ErrorObj "Missing session, team, or phase ID for reset."))
  else
    match db_decisions_delete sessionId teamId phaseId w with
    | (w1, Rejected err) =>
        (t, w1, Throw (ErrorObj ("Failed to reset decision: " ++
                                 formatSupabaseError err)))
    | (w1, Resolved) =>
        (TeamData.with_teamDecisions
           (removeDecision teamId phaseId (TeamData.teamDecisions t)) t,
         w1, Ok tt)
    end.

(** The whole operation: the steps above, then the reload (line 490),
    which does not throw. *)
Definition resetTeamDecisionInDb (sessionId teamId phaseId : string)
    (t : TeamData.t) (w : World.t) : TeamData.t * World.t * Result unit :=
  match resetTeamDecisionInDb_begin sessionId teamId phaseId t w with
  | (t1, w1, Throw error) => (t1, w1, Throw error)
  | (t1, w1, Ok _) =>
      match fetchTeamDecisionsForSession sessionId t1 w1 with
      | (t2, w2) => (t2, w2, Ok tt)
      end
  end.

(** The insert/update branch of the handler below. *)
Definition upsertRoundData (newKpiData : TeamRoundData.t)
    (updated : gmap string (gmap Z TeamRoundData.t))
    : gmap string (gmap Z TeamRoundData.t) :=
  let updated1 :=
    match updated !! TeamRoundData.team_id newKpiData with
    | Some _ => updated
    | None => <[TeamRoundData.team_id newKpiData := ∅]> updated
    end in
  alter (insert (TeamRoundData.round_number newKpiData) newKpiData)
    (TeamRoundData.team_id newKpiData) updated1.

(** The [onchange] handler of the [team_round_data] subscription
    (lines 535-554), as the updater it passes to [setTeamRoundData]. *)
Definition onRoundDataChange (payload : RoundDataPayload)
    (prev : gmap string (gmap Z TeamRoundData.t))
    : gmap string (gmap Z TeamRoundData.t) :=
  let updated := deep_clone prev in
  match payload with
  | INSERT newKpiData => upsertRoundData newKpiData updated
  | UPDATE newKpiData _ => upsertRoundData newKpiData updated
  | DELETE oldKpiData =>
      match PartialRoundData.team_id oldKpiData,
            PartialRoundData.round_number oldKpiData with
      | Some team_id, Some round_number =>
          if negb (String.eqb team_id "") && negb (round_number =? 0) then
            match updated !! team_id with
            | Some _ =>
                let updated1 := alter (delete round_number) team_id updated in
                if decide (size (default ∅ (updated1 !! team_id)) = 0%nat)
                then delete team_id updated1
                else updated1
            | None => updated
            end
          else updated
      | _, _ => updated
      end
  end.

(** ** Observations on the call log *)

(** The rows of the [db.teams.create] calls in a log, in order. *)
Definition team_creations (calls : list Call) : list TeamInsert.t :=
  omap (fun c => match c with TeamsCreate row => Some row | _ => None end) calls.

(** The session updates in a log, in order. *)
Definition session_updates (calls : list Call) : list (string * Updates.t) :=
  omap (fun c => match c with
                 | SessionsUpdate sessionId u => Some (sessionId, u)
                 | _ => None
                 end) calls.

(** The slides the consequence processor was started on, in order. *)
Definition consequence_calls (calls : list Call) : list Z :=
  omap (fun c => match c with
                 | ProcessConsequenceSlide slide => Some (Slide.id slide)
                 | _ => None
                 end) calls.

(** How often the consequence processor was started on slide [slideId]. *)
Definition consequence_invocations (slideId : Z) (calls : list Call) : nat :=
  length (filter (eq slideId) (consequence_calls calls)).

(** A passcode as the spec describes it: the decimal rendering, four
    digits long, of an integer between 1000 and 9999. *)
Definition four_digit_passcode (p : string) : Prop :=
  ∃ n : Z, 1000 ≤ n ≤ 9999 ∧ p = toString n
           ∧ String.length p = 4%nat ∧ all_digits p = true.

(** ** Navigation as one operation, and its footprint *)

(** The four ways the host moves the slide pointer. *)
Inductive NavOp : Type :=
| OpNextSlide
| OpPreviousSlide
| OpSelectSlideByIndex (targetIndex : Z)
| OpClearHostAlert.

Definition navigate (op : NavOp) (gameStructure : option GameStructure.t)
    (c : Controller.t) (w : World.t) : Controller.t * World.t :=
  match op with
  | OpNextSlide => nextSlide gameStructure c w
  | OpPreviousSlide => previousSlide c w
  | OpSelectSlideByIndex targetIndex =>
      selectSlideByIndex gameStructure targetIndex c w
  | OpClearHostAlert => clearHostAlert gameStructure c w
  end.

(** [s'] is [s] except, possibly, for [current_slide_index]. *)
Definition same_but_index (s s' : GameSession.t) : Prop :=
  GameSession.id s' = GameSession.id s
  ∧ GameSession.name s' = GameSession.name s
  ∧ GameSession.host_id s' = GameSession.host_id s
  ∧ GameSession.status s' = GameSession.status s
  ∧ GameSession.game_version s' = GameSession.game_version s
  ∧ GameSession.is_playing s' = GameSession.is_playing s
  ∧ GameSession.is_complete s' = GameSession.is_complete s
  ∧ GameSession.host_notes s' = GameSession.host_notes s
  ∧ GameSession.wizard_state s' = GameSession.wizard_state s
  ∧ GameSession.class_name s' = GameSession.class_name s
  ∧ GameSession.grade_level s' = GameSession.grade_level s.

(** The same, for a session that may be absent. *)
Definition same_but_index_opt (o o' : option GameSession.t) : Prop :=
  match o, o' with
  | Some s, Some s' => same_but_index s s'
  | None, None => True
  | _, _ => False
  end.

(** The object literal names [current_slide_index] and nothing else. *)
Definition names_only_index (u : Updates.t) : Prop :=
  ∃ i, u = Updates.only_index i.

(** What a navigation may do to the hook and the world: the cached session
    and every stored session keep all fields but the index, and the session
    updates issued name the index only. *)
Definition index_only_step (c : Controller.t) (w : World.t)
    (cw' : Controller.t * World.t) : Prop :=
  same_but_index_opt (Controller.dbSession c) (Controller.dbSession cw'.1)
  ∧ (∀ sessionId,
       same_but_index_opt (Db.sessions (World.db w) !! sessionId)
                          (Db.sessions (World.db cw'.2) !! sessionId))
  ∧ (∃ more,
       session_updates (World.calls cw'.2)
       = (session_updates (World.calls w) ++ more)%list
       ∧ Forall (fun '(_, u) => names_only_index u) more)
  ∧ Db.teams (World.db cw'.2) = Db.teams (World.db w)
  ∧ Db.decisions (World.db cw'.2) = Db.decisions (World.db w).

(** Advance as the spec words it: whenever finalization is not required
    or succeeds, the next index, clamped to the last slide, is persisted
    and the dismissal flag is cleared. *)
Definition advance_persists_and_clears
    (gameStructure : option GameStructure.t) (c : Controller.t) (w : World.t)
    : Prop :=
  ∀ dbSession i slide,
    Controller.dbSession c = Some dbSession →
    GameSession.current_slide_index dbSession = Some i →
    currentSlideData gameStructure c = Some slide →
    (truthy (Slide.interactive_data_key slide)
     && String.prefix "interactive_" (Slide.type slide) = true →
     failure (World.calls w ++ [ProcessInteractiveSlide slide]) = None) →
    let c' := (nextSlide gameStructure c w).1 in
    let w' := (nextSlide gameStructure c w).2 in
    let next := Z.min (i + 1) (slides_length gameStructure 1 - 1) in
    currentSlideIndex c' = Some next
    ∧ session_updates (World.calls w') =
        (session_updates (World.calls w)
         ++ [(GameSession.id dbSession, Updates.only_index next)])%list
    ∧ Controller.allTeamsAlertDismissed c' = false.

(** ** The hook as an event system *)

(** What can happen to the hook, one event at a time: the auto-processing
    effect runs for the slide then current; an awaited processor call
    settles; the component renders with the [initialDbSession] prop and
    its two session effects run; the host navigates. *)
Inductive Event : Type :=
| Evaluate (currentSlideData : option Slide.t)
           (gameStructure : option GameStructure.t)
| Settle (slideId : Z) (o : Outcome)
| Render (initialDbSession : option GameSession.t)
| Navigate (op : NavOp) (gameStructure : option GameStructure.t).

Definition step (ev : Event) (cw : Controller.t * World.t)
    : Controller.t * World.t :=
  match ev with
  | Evaluate currentSlideData gameStructure =>
      processConsequenceSlideAuto_begin currentSlideData gameStructure cw.1 cw.2
  | Settle slideId o =>
      (processConsequenceSlideAuto_settle slideId o cw.1, cw.2)
  | Render initialDbSession =>
      (adoptInitialSession initialDbSession
         (resetProcessedOnSessionChange initialDbSession cw.1), cw.2)
  | Navigate op gameStructure => navigate op gameStructure cw.1 cw.2
  end.

Definition run (evs : list Event) (cw : Controller.t * World.t)
    : Controller.t * World.t :=
  fold_left (fun cw ev => step ev cw) evs cw.

(** An event that stays within the session load of [sessionId] and is not
    a failure of slide [slideId]'s processing. *)
Definition within_load (slideId : Z) (sessionId : option string)
    (ev : Event) : Prop :=
  match ev with
  | Render initialDbSession => GameSession.id <$> initialDbSession = sessionId
  | Settle sl (Rejected _) => sl ≠ slideId
  | _ => True
  end.

(** The guard's invariant for slide [slideId] during one load. *)
Definition guarded (slideId : Z) (sessionId : option string)
    (cw : Controller.t * World.t) : Prop :=
  GameSession.id <$> Controller.dbSession cw.1 = sessionId
  ∧ (consequence_invocations slideId (World.calls cw.2) ≤ 1)%nat
  ∧ ((1 ≤ consequence_invocations slideId (World.calls cw.2))%nat →
     slideId ∈ Controller.processedConsequenceSlidesRef cw.1).

(** ** Reading the projections *)

(** The record a projection shows for a (team, key) pair. *)
Definition at_key `{Countable K} {V : Type}
    (m : gmap string (gmap K V)) (teamId : string) (k : K) : option V :=
  m !! teamId ≫= (fun inner => inner !! k).

(** The row an insert/update event carries. *)
Definition upserted (payload : RoundDataPayload) : option TeamRoundData.t :=
  match payload with
  | INSERT new => Some new
  | UPDATE new _ => Some new
  | DELETE _ => None
  end.

(** The (team, round) slot of a row. *)
Definition slot (r : TeamRoundData.t) : string * Z :=
  (TeamRoundData.team_id r, TeamRoundData.round_number r).

(** The last row of [data] stored under (team [t], phase [q]), or [r]. *)
Definition latest (t q : string) (data : list TeamDecision.t)
    (r : option TeamDecision.t) : option TeamDecision.t :=
  fold_left
    (fun r d =>
       if decide (t = TeamDecision.team_id d ∧ q = TeamDecision.phase_id d)
       then Some d else r)
    data r.

(** ** Concrete data *)

(** An environment in which no external call fails, errors are rendered by
    their message, and every random draw is one half. *)
Definition no_failure : list Call → option Thrown := fun _ => None.

Definition message_format (e : Thrown) : string := message_or e "Unknown error".

Definition draw_half : nat → Q := fun _ => (1 # 2)%Q.

(** An environment in which the interactive-slide finalizer fails. *)
Definition finalizer_fails : list Call → option Thrown :=
  fun calls =>
    match last calls with
    | Some (ProcessInteractiveSlide _) => Some (ErrorObj "scoring failed")
    | _ => None
    end.

Definition intro_slide : Slide.t :=
  Slide.mk 1 "content_page" None None.

Definition invest_slide : Slide.t :=
  Slide.mk 2 "interactive_invest" (Some "rd1-invest") None.

Definition reveal_slide : Slide.t :=
  Slide.mk 3 "consequence_reveal" None None.

Definition demo_structure : GameStructure.t :=
  GameStructure.mk [intro_slide; invest_slide; reveal_slide].

Definition demo_session (i : Z) : GameSession.t :=
  GameSession.mk "s1" "Period 3" "host-1" completed "2.0_dd" (Some i)
    true true {["0" := "welcome"]} (Some ∅) (Some "Economics") None.

Definition invest_decision : TeamDecision.t :=
  TeamDecision.mk "s1" "team-a" "rd1-invest" "A,B".

Definition immediate_decision : TeamDecision.t :=
  TeamDecision.mk "s1" "team-a" "rd1-invest-immediate" "C".

Definition demo_world (i : Z) : World.t :=
  World.mk
    (Db.mk {["s1" := demo_session i]} []
       [invest_decision; immediate_decision])
    [] 0.

(** The hook on slide [i], with the all-submitted alert already
    dismissed. *)
Definition demo_controller (i : Z) : Controller.t :=
  Controller.mk (Some (demo_session i)) None false true ∅ [].

Definition demo_decisions : gmap string (gmap string TeamDecision.t) :=
  {["team-a" := {["rd1-invest" := invest_decision;
                  "rd1-invest-immediate" := immediate_decision]}]}.

Definition draft_session : GameSession.t :=
  GameSession.mk "d1" "Draft Game - 11/2/2026" "host-1" draft "2.0_dd" (Some 0)
    false false ∅ (Some {["step" := "3"]}) None None.

Definition draft_world : World.t :=
  World.mk (Db.mk {["d1" := draft_session]} [] []) [] 0.

Definition three_teams : NewGameData.t :=
  NewGameData.mk " Period 3 " None None "2.0_dd" None 3.
(** ** Host notes and slide position ([useGameController], continued) *)

(** The effect of lines 66-70: the notes of the cached session, when there
    is one, replace the notes held by the hook. *)
Definition initHostNotes (c : Controller.t) (hostNotesState : JsonObject)
    : JsonObject :=
  match Controller.dbSession c with
  | Some dbSession => GameSession.host_notes dbSession
  | None => hostNotesState
  end.

(** [updateHostNotesForCurrentSlide]: the notes object is keyed by the
    slide index (as a property name, its decimal rendering); the update is
    sent to the store and a failure is only logged. *)
Definition updateHostNotesForCurrentSlide (notes : string)
    (hostNotesState : JsonObject) (c : Controller.t) (w : World.t)
    : JsonObject * World.t :=
  match currentSlideIndex c with
  | None => (hostNotesState, w)
  | Some currentSlideIndex =>
      let updatedNotes := <[toString currentSlideIndex := notes]> hostNotesState in
      match Controller.dbSession c with
      | Some dbSession =>
          if truthy (Some (GameSession.id dbSession)) then
            (updatedNotes,
             (updateSession (GameSession.id dbSession)
                (Updates.mk None None None None None None (Some updatedNotes)
                   None None None) w).1)
          else (updatedNotes, w)
      | None => (updatedNotes, w)
      end
  end.

(** The [hostNotes] the hook returns. *)
Definition hostNotes (hostNotesState : JsonObject) (c : Controller.t)
    : string :=
  match currentSlideIndex c with
  | None => ""
  | Some currentSlideIndex =>
      or_else (default "" (hostNotesState !! toString currentSlideIndex)) ""
  end.

Definition isFirstSlide (c : Controller.t) : bool :=
  bool_decide (currentSlideIndex c = Some 0).

Definition isLastSlide (gameStructure : option GameStructure.t)
    (c : Controller.t) : bool :=
  bool_decide (currentSlideIndex c = Some (slides_length gameStructure 0 - 1)).

(** An event that does not change the session identity. *)
Definition keeps_session (sessionId : option string) (ev : Event) : Prop :=
  match ev with
  | Render initialDbSession => GameSession.id <$> initialDbSession = sessionId
  | _ => True
  end.

(** No slide has two processor calls in flight, and every slide with a
    call in flight is marked. *)
Definition one_in_flight (cw : Controller.t * World.t) : Prop :=
  NoDup (Controller.awaiting cw.1)
  ∧ ∀ x, x ∈ Controller.awaiting cw.1 →
         x ∈ Controller.processedConsequenceSlidesRef cw.1.

(** An environment in which the store rejects every session update. *)
Definition store_down : list Call → option Thrown :=
  fun calls =>
    match last calls with
    | Some (SessionsUpdate _ _) => Some (ErrorObj "offline")
    | _ => None
    end.

(** ** Round-data reload and feed replay ([useTeamDataManager], continued) *)

(** The callback of the [forEach] in [fetchTeamRoundDataForSession]
    (lines 438-443). *)
Definition addRoundData
    (structuredRoundData : gmap string (gmap Z TeamRoundData.t))
    (rd : TeamRoundData.t) : gmap string (gmap Z TeamRoundData.t) :=
  let s1 :=
    match structuredRoundData !! TeamRoundData.team_id rd with
    | Some _ => structuredRoundData
    | None => <[TeamRoundData.team_id rd := ∅]> structuredRoundData
    end in
  alter (insert (TeamRoundData.round_number rd) rd)
    (TeamRoundData.team_id rd) s1.

(** The projection [fetchTeamRoundDataForSession] builds from the rows. *)
Definition structureRoundData (data : list TeamRoundData.t)
    : gmap string (gmap Z TeamRoundData.t) :=
  fold_left addRoundData data ∅.

(** The feed handler run on a sequence of events, first to last. *)
Definition replay (events : list RoundDataPayload)
    (prev : gmap string (gmap Z TeamRoundData.t))
    : gmap string (gmap Z TeamRoundData.t) :=
  fold_left (fun m payload => onRoundDataChange payload m) events prev.

(** The slot an event acts on; none for a delete event the handler
    ignores (old row without a team or round, or with a falsy one). *)
Definition slot_of (payload : RoundDataPayload) : option (string * Z) :=
  match payload with
  | INSERT new => Some (slot new)
  | UPDATE new _ => Some (slot new)
  | DELETE old =>
      match PartialRoundData.team_id old, PartialRoundData.round_number old with
      | Some team_id, Some round_number =>
          if negb (String.eqb team_id "") && negb (round_number =? 0)
          then Some (team_id, round_number)
          else None
      | _, _ => None
      end
  end.

(** What an event does inside the entry of its team. *)
Definition inner_change (payload : RoundDataPayload)
    (inner : gmap Z TeamRoundData.t) : gmap Z TeamRoundData.t :=
  match payload with
  | INSERT new => <[TeamRoundData.round_number new := new]> inner
  | UPDATE new _ => <[TeamRoundData.round_number new := new]> inner
  | DELETE old =>
      match PartialRoundData.round_number old with
      | Some r => delete r inner
      | None => inner
      end
  end.

(** An entry is kept only while it has a key. *)
Definition nonempty `{Countable K} {V : Type} (inner : gmap K V)
    : option (gmap K V) :=
  if decide (inner = ∅) then None else Some inner.

(** No team of the projection has an entry without keys. *)
Definition no_empty_entry `{Countable K} {V : Type}
    (m : gmap string (gmap K V)) : Prop :=
  ∀ t, m !! t ≠ Some ∅.

(** ** Creating and listing sessions ([GameSessionManager], continued) *)

(** Modelled from the spec: [db.sessions.create(fields)] yields the stored
    record or fails.  The store's answer is an input: it throws, returns
    nothing, or returns the record under the identifier it chose. *)
Definition db_sessions_create (created : Result (option string))
    (record : string → GameSession.t) (w : World.t)
    : World.t * Result (option GameSession.t) :=
  match created with
  | Throw e => (w, Throw e)
  | Ok None => (w, Ok None)
  | Ok (Some newId) =>
      (World.with_db
         (Db.with_sessions
            (<[newId := record newId]> (Db.sessions (World.db w))) (World.db w))
         w,
       Ok (Some (record newId)))
  end.

Definition createDraftSession (created : Result (option string))
    (hostId : string) (fullGameStructure : GameStructure.t) (w : World.t)
    : World.t * Result GameSession.t :=
  match GameStructure.slides fullGameStructure !! 0%nat with
  | None =>
      (w, Throw (ErrorObj
                   "Game structure is missing slides, cannot create draft session."))
  | Some firstSlide =>
      let wrap error :=
        Throw (ErrorObj ("Failed to create draft session: " ++
                         formatSupabaseError error)) in
      match db_sessions_create created
              (fun newId =>
                 GameSession.mk newId ("Draft Game - " ++ today) hostId draft
                   "2.0_dd" (Some 0) false false ∅ (Some ∅) None None) w with
      | (w1, Throw error) => (w1, wrap error)
      | (w1, Ok None) =>
          (w1, wrap (ErrorObj
                       "Failed to create draft session record or retrieve its ID."))
      | (w1, Ok (Some newDraftSession)) =>
          if String.eqb (GameSession.id newDraftSession) "" then
            (w1, wrap (ErrorObj
                         "Failed to create draft session record or retrieve its ID."))
          else (w1, Ok newDraftSession)
      end
  end.

Definition createSession (created : Result (option string))
    (gameCreationData : NewGameData.t) (hostId : string)
    (fullGameStructure : GameStructure.t) (w : World.t)
    : World.t * Result GameSession.t :=
  match GameStructure.slides fullGameStructure !! 0%nat with
  | None =>
      (w, Throw (ErrorObj
                   "Game structure is missing slides, cannot create session."))
  | Some firstSlide =>
      let wrap error :=
        Throw (ErrorObj ("Failed to create game session: " ++
                         formatSupabaseError error)) in
      match db_sessions_create created
              (fun newId =>
                 GameSession.mk newId
                   (or_else (trim (NewGameData.name gameCreationData))
                      ("Game Session - " ++ today))
                   hostId active
                   (NewGameData.game_version gameCreationData)
                   (Some 0) false false ∅ None
                   (or_null (trim <$> NewGameData.class_name gameCreationData))
                   (or_null (NewGameData.grade_level gameCreationData))) w with
      | (w1, Throw error) => (w1, wrap error)
      | (w1, Ok None) =>
          (w1, wrap (ErrorObj
                       "Failed to create game session record or retrieve its ID."))
      | (w1, Ok (Some newSession)) =>
          if String.eqb (GameSession.id newSession) "" then
            (w1, wrap (ErrorObj
                         "Failed to create game session record or retrieve its ID."))
          else
            let teamsToCreate :=
              default [] (NewGameData.teams_config gameCreationData) in
            if (0 <? Z.of_nat (length teamsToCreate)) then
              match create_all
                      (map (fun teamConfig =>
                              TeamInsert.mk (GameSession.id newSession)
                                (TeamConfig.name teamConfig)
                                (TeamConfig.passcode teamConfig)) teamsToCreate)
                      w1 with
              | (w2, Resolved) => (w2, Ok newSession)
              | (w2, Rejected error) => (w2, wrap error)
              end
            else if (0 <? NewGameData.num_teams gameCreationData) then
              let rows :=
                array_from_length_map (NewGameData.num_teams gameCreationData)
                  (default_team (GameSession.id newSession) (World.draws w1)) in
              match create_all rows (draw_n (length rows) w1) with
              | (w2, Resolved) => (w2, Ok newSession)
              | (w2, Rejected error) => (w2, wrap error)
              end
            else (w1, Ok newSession)
      end
  end.

(** [getCategorizedSessionsForHost], given what [db.sessions.getByHost]
    answered. *)
Definition getCategorizedSessionsForHost
    (fetched : Result (list SessionRow.t)) : Result Categorized.t :=
  match fetched with
  | Ok allSessions =>
      Ok (Categorized.mk
            (filter (fun s => GameSession.status (SessionRow.session s) = draft)
               allSessions)
            (filter (fun s =>
                       GameSession.status (SessionRow.session s) = active
                       ∧ GameSession.is_complete (SessionRow.session s) = false)
               allSessions)
            (filter (fun s =>
                       GameSession.status (SessionRow.session s) = completed
                       ∨ GameSession.is_complete (SessionRow.session s) = true)
               allSessions))
  | Throw error =>
      Throw (ErrorObj ("Failed to fetch sessions: " ++ formatSupabaseError error))
  end.

(** [checkForExistingDraft], given what [db.sessions.getByHost] answered. *)
Definition checkForExistingDraft (fetched : Result (list SessionRow.t))
    : Result (option SessionRow.t) :=
  match fetched with
  | Ok sessions =>
      Ok (head (filter (fun s => GameSession.status (SessionRow.session s) = draft)
                  sessions))
  | Throw error =>
      Throw (ErrorObj ("Failed to check for existing drafts: " ++
                       formatSupabaseError error))
  end.

(** [getLatestDraftForHost], given what [db.sessions.getByHost] answered
    and [getTime], the reading [new Date(s).getTime()] of a time stamp. *)
Definition getLatestDraftForHost (getTime : string → Z)
    (fetched : Result (list SessionRow.t)) : Result (option SessionRow.t) :=
  match fetched with
  | Ok sessions =>
      let draftSessions :=
        filter (fun s => GameSession.status (SessionRow.session s) = draft)
          sessions in
      Ok (head (js_sort
                  (fun a b => getTime (SessionRow.created_at b)
                              - getTime (SessionRow.created_at a))
                  draftSessions))
  | Throw error =>
      Throw (ErrorObj ("Failed to get latest draft: " ++
                       formatSupabaseError error))
  end.

(** The rows the team provisioning of [finalizeDraftSession] and
    [createSession] hands to [db.teams.create] for an explicit list. *)
Definition configured_teams (sessionId : string) (config : list TeamConfig.t)
    : list TeamInsert.t :=
  map (fun teamConfig =>
         TeamInsert.mk sessionId (TeamConfig.name teamConfig)
           (TeamConfig.passcode teamConfig)) config.

(** The object literal [finalizeDraftSession] passes to [updateSession]. *)
Definition finalize_updates (finalGameData : NewGameData.t) : Updates.t :=
  Updates.mk
    (Some (or_else (trim (NewGameData.name finalGameData))
             ("Game Session - " ++ today)))
    (Some active)
    (Some (NewGameData.game_version finalGameData))
    None None None None
    (Some None)
    (Some (or_null (trim <$> NewGameData.class_name finalGameData)))
    (Some (or_null (NewGameData.grade_level finalGameData))).

(** The rows the team provisioning hands to [db.teams.create]: the
    explicit list when it is not empty, else [num_teams] synthesized teams
    when that is positive, else none. *)
Definition provision_rows (sessionId : string) (data : NewGameData.t)
    (first_draw : nat) : list TeamInsert.t :=
  let teamsToCreate := default [] (NewGameData.teams_config data) in
  if 0 <? Z.of_nat (length teamsToCreate) then
    configured_teams sessionId teamsToCreate
  else if 0 <? NewGameData.num_teams data then
    array_from_length_map (NewGameData.num_teams data)
      (default_team sessionId first_draw)
  else [].

(** A payload with an explicit team list, and a team count that the list
    overrides. *)
Definition explicit_teams : NewGameData.t :=
  NewGameData.mk "Period 4" (Some " Economics ") None "2.0_dd"
    (Some [TeamConfig.mk "Red" "1234"; TeamConfig.mk "Blue" "5678"]) 5.

(** A payload that asks for no team. *)
Definition no_teams : NewGameData.t :=
  NewGameData.mk "Period 5" None None "2.0_dd" None 0.

(** An environment in which the creation of 'Team B' fails. *)
Definition team_b_fails : list Call → option Thrown :=
  fun calls =>
    match last calls with
    | Some (TeamsCreate row) =>
        if String.eqb (TeamInsert.name row) "Team B"
        then Some (ErrorObj "duplicate key") else None
    | _ => None
    end.

(** ** The reset of one phase, read against the store *)

(** The decisions projection is what a reload of the session would show. *)
Definition reflects_store (sessionId : string) (t : TeamData.t) (w : World.t)
    : Prop :=
  TeamData.teamDecisions t
  = structureDecisions
      (filter (fun d => TeamDecision.session_id d = sessionId)
         (Db.decisions (World.db w))).

(** Phase-exactness of one reset call, read on the projection the call
    leaves when it returns normally: the record keyed (team, [q]) is what
    it was and nothing is left under (team, [p]). *)
Definition reset_keeps_other_phases (sessionId teamId p q : string)
    (t : TeamData.t) (w : World.t) : Prop :=
  p ≠ q →
  (resetTeamDecisionInDb sessionId teamId p t w).2 = Ok tt →
  let t' := (resetTeamDecisionInDb sessionId teamId p t w).1.1 in
  at_key (TeamData.teamDecisions t') teamId q
  = at_key (TeamData.teamDecisions t) teamId q
  ∧ at_key (TeamData.teamDecisions t') teamId p = None.

(** An environment in which the reload of the decisions fails. *)
Definition reload_fails : list Call → option Thrown :=
  fun calls =>
    match last calls with
    | Some (DecisionsGetBySession _) => Some (ErrorObj "network down")
    | _ => None
    end.

(** The hook showing the two decisions of team-a. *)
Definition demo_team_data : TeamData.t :=
  TeamData.mk demo_decisions ∅ false None.

(** * Properties *)

(** ** [updateSession] *)

Lemma updateSession_succeeds sessionId updates w s :
  sessionId ≠ "" → sessionId ≠ "new" →
  Db.sessions (World.db w) !! sessionId = Some s →
  failure (World.calls w ++ [SessionsUpdate sessionId updates]) = None →
  updateSession sessionId updates w =
    (World.with_db
       (Db.with_sessions
          (<[sessionId := apply_updates updates s]> (Db.sessions (World.db w)))
          (World.db w))
       (World.log (SessionsUpdate sessionId updates) w),
     Ok (apply_updates updates s)).
Proof.
  intros Hne1 Hne2 Hs Hf. unfold updateSession.
  apply String.eqb_neq in Hne1. apply String.eqb_neq in Hne2.
  rewrite Hne1, Hne2. simpl.
  unfold db_sessions_update, issue. simpl. rewrite Hf, Hs. reflexivity.
Qed.

Lemma updateSession_Ok sessionId updates w w' s' :
  updateSession sessionId updates w = (w', Ok s') →
  ∃ s, Db.sessions (World.db w) !! sessionId = Some s
       ∧ s' = apply_updates updates s
       ∧ w' = World.with_db
                (Db.with_sessions
                   (<[sessionId := s']> (Db.sessions (World.db w))) (World.db w))
                (World.log (SessionsUpdate sessionId updates) w).
Proof.
  unfold updateSession, db_sessions_update, issue.
  destruct (String.eqb sessionId "" || String.eqb sessionId "new")%bool;
    [discriminate|].
  simpl. destruct (failure _); [discriminate|].
  destruct (Db.sessions (World.db w) !! sessionId) as [s|] eqn:Hs;
    [|discriminate].
  intros [= <- <-]. exists s. auto.
Qed.

Lemma updateSession_Throw sessionId updates w w' e :
  updateSession sessionId updates w = (w', Throw e) →
  World.db w' = World.db w
  ∧ (w' = w ∨ w' = World.log (SessionsUpdate sessionId updates) w).
Proof.
  unfold updateSession, db_sessions_update, issue.
  destruct (String.eqb sessionId "" || String.eqb sessionId "new")%bool.
  { intros [= <- _]. auto. }
  simpl. destruct (failure _).
  { intros [= <- _]. auto. }
  destruct (Db.sessions (World.db w) !! sessionId); [discriminate|].
  intros [= <- _]. auto.
Qed.

(** Whatever its outcome, [updateSession] leaves the team and decision
    tables and every other session row alone. *)
Lemma updateSession_frame sessionId updates w :
  let w' := (updateSession sessionId updates w).1 in
  Db.teams (World.db w') = Db.teams (World.db w)
  ∧ Db.decisions (World.db w') = Db.decisions (World.db w)
  ∧ (∀ other, other ≠ sessionId →
       Db.sessions (World.db w') !! other = Db.sessions (World.db w) !! other)
  ∧ World.draws w' = World.draws w.
Proof.
  destruct (updateSession sessionId updates w) as [w' [s'|e]] eqn:E; simpl.
  - apply updateSession_Ok in E as (s & _ & _ & ->). simpl.
    repeat split; auto. intros other Hne. by rewrite lookup_insert_ne.
  - apply updateSession_Throw in E as [Hdb [-> | ->]]; simpl; auto.
Qed.

(** ** [resetSessionProgress] *)

(** C5. Whatever the session held before, [resetSessionProgress] returns
    (and stores) a session with [current_slide_index = 0],
    [is_playing = false], [is_complete = false], empty [host_notes],
    [wizard_state = null] and [status = 'active'], and it does so whenever
    the session exists and the store accepts the update; the team and
    decision tables are never touched. *)
Theorem resetSessionProgress_resets (sessionId : string) (w : World.t) :
  let w' := (resetSessionProgress sessionId w).1 in
  let r := (resetSessionProgress sessionId w).2 in
  (Db.teams (World.db w') = Db.teams (World.db w)
   ∧ Db.decisions (World.db w') = Db.decisions (World.db w)
   ∧ team_creations (World.calls w') = team_creations (World.calls w))
  ∧ (∀ s', r = Ok s' →
       GameSession.current_slide_index s' = Some 0
       ∧ GameSession.is_playing s' = false
       ∧ GameSession.is_complete s' = false
       ∧ GameSession.host_notes s' = ∅
       ∧ GameSession.wizard_state s' = None
       ∧ GameSession.status s' = active
       ∧ Db.sessions (World.db w') !! sessionId = Some s')
  ∧ (∀ s, sessionId ≠ "" → sessionId ≠ "new" →
       Db.sessions (World.db w) !! sessionId = Some s →
       (∀ u, failure (World.calls w ++ [SessionsUpdate sessionId u]) = None) →
       ∃ s', r = Ok s').
Proof.
  unfold resetSessionProgress.
  set (u := Updates.mk _ _ _ _ _ _ _ _ _ _).
  destruct (updateSession_frame sessionId u w) as (Ht & Hd & _ & _).
  split; [|split].
  - repeat split; auto.
    destruct (updateSession sessionId u w) as [w' [s'|e]] eqn:E; simpl.
    + apply updateSession_Ok in E as (s & _ & _ & ->). simpl.
      unfold team_creations. by rewrite omap_app, app_nil_r.
    + apply updateSession_Throw in E as [_ [-> | ->]]; simpl; auto.
      unfold team_creations. by rewrite omap_app, app_nil_r.
  - intros s' Hr.
    destruct (updateSession sessionId u w) as [w' r] eqn:E. simpl in Hr. subst r.
    apply updateSession_Ok in E as (s & Hs & -> & ->). simpl.
    repeat split; auto. by rewrite lookup_insert_eq.
  - intros s Hne1 Hne2 Hs Hf.
    rewrite (updateSession_succeeds _ _ _ _ Hne1 Hne2 Hs (Hf u)). simpl. eauto.
Qed.

(** ** [finalizeDraftSession] *)

Lemma Qfloor_passcode_range (r : Q) :
  (0 <= r)%Q → (r < 1)%Q →
  1000 ≤ Qfloor (inject_Z 1000 + r * inject_Z 9000) ≤ 9999.
Proof.
  intros H0 H1. split.
  - rewrite <- (Qfloor_Z 1000) at 1. apply Qfloor_resp_le.
    rewrite <- (Qplus_0_r (inject_Z 1000)) at 1.
    apply Qplus_le_r. apply Qmult_le_0_compat; [assumption | discriminate].
  - assert (Hlt : (inject_Z (Qfloor (inject_Z 1000 + r * inject_Z 9000))
                   < inject_Z 10000)%Q).
    { eapply Qle_lt_trans; [apply Qfloor_le|].
      apply Qlt_le_trans with (inject_Z 1000 + 1 * inject_Z 9000)%Q;
        [|discriminate].
      apply Qplus_lt_r. apply Qmult_lt_compat_r; [reflexivity | assumption]. }
    rewrite <- Zlt_Qlt in Hlt. lia.
Qed.

Lemma toString_four_digits (n : Z) :
  1000 ≤ n ≤ 9999 →
  String.length (toString n) = 4%nat ∧ all_digits (toString n) = true.
Proof.
  intros Hn.
  assert (Hall : forallb
            (fun k => Nat.eqb (String.length (toString k)) 4
                      && all_digits (toString k))
            (seqZ 1000 9000) = true) by (vm_compute; reflexivity).
  rewrite forallb_forall in Hall.
  specialize (Hall n). rewrite <- list_elem_of_In, elem_of_seqZ in Hall.
  specialize (Hall ltac:(lia)).
  apply andb_prop in Hall as [Hlen Hdig].
  apply Nat.eqb_eq in Hlen. auto.
Qed.

Lemma random_passcode_four_digit (r : Q) :
  (0 <= r)%Q → (r < 1)%Q → four_digit_passcode (random_passcode r).
Proof.
  intros H0 H1. unfold four_digit_passcode, random_passcode.
  pose proof (Qfloor_passcode_range r H0 H1) as Hr.
  exists (Qfloor (inject_Z 1000 + r * inject_Z 9000)).
  destruct (toString_four_digits _ Hr). auto.
Qed.

Lemma db_teams_create_effect row w :
  World.calls (db_teams_create row w).1 = (World.calls w ++ [TeamsCreate row])%list
  ∧ Db.sessions (World.db (db_teams_create row w).1) = Db.sessions (World.db w)
  ∧ Db.decisions (World.db (db_teams_create row w).1) = Db.decisions (World.db w).
Proof.
  unfold db_teams_create, issue. destruct (failure _); simpl; auto.
Qed.

(** Every creation of the batch is issued, in order, whether or not an
    earlier one fails; session rows are not touched. *)
Lemma create_all_effect rows w :
  World.calls (create_all rows w).1 = (World.calls w ++ map TeamsCreate rows)%list
  ∧ Db.sessions (World.db (create_all rows w).1) = Db.sessions (World.db w)
  ∧ Db.decisions (World.db (create_all rows w).1) = Db.decisions (World.db w).
Proof.
  revert w. induction rows as [|row rows IH]; intros w; simpl.
  - by rewrite app_nil_r.
  - destruct (db_teams_create_effect row w) as (Hc & Hs & Hd).
    destruct (db_teams_create row w) as [w1 o]. simpl in *.
    destruct (IH w1) as (Hc' & Hs' & Hd').
    destruct (create_all rows w1) as [w2 o']. simpl in *.
    rewrite Hc', Hc, Hs', Hs, Hd', Hd, <- app_assoc. auto.
Qed.

(** When no creation fails, the batch resolves and the rows are stored. *)
Lemma create_all_resolves rows w :
  (∀ done_, done_ `prefix_of` rows → done_ ≠ [] →
     failure (World.calls w ++ map TeamsCreate done_) = None) →
  (create_all rows w).2 = Resolved
  ∧ Db.teams (World.db (create_all rows w).1) = (Db.teams (World.db w) ++ rows)%list.
Proof.
  revert w. induction rows as [|row rows IH]; intros w Hok; simpl.
  - by rewrite app_nil_r.
  - assert (Hrow : failure (World.calls w ++ [TeamsCreate row]) = None).
    { apply (Hok [row]); [|done]. by apply prefix_cons, prefix_nil. }
    unfold db_teams_create, issue. simpl. rewrite Hrow.
    set (w1 := World.with_db _ _).
    destruct (IH w1) as [Ho Ht].
    { intros done_ Hp Hne. subst w1. simpl. rewrite <- app_assoc. simpl.
      apply (Hok (row :: done_)); [by apply prefix_cons | done]. }
    destruct (create_all rows w1) as [w2 o']. simpl in *.
    subst o'. split; [done|]. rewrite Ht. subst w1. simpl.
    by rewrite <- app_assoc.
Qed.

Lemma team_creations_app l1 l2 :
  team_creations (l1 ++ l2) = (team_creations l1 ++ team_creations l2)%list.
Proof. apply omap_app. Qed.

Lemma team_creations_map rows : team_creations (map TeamsCreate rows) = rows.
Proof. induction rows as [|row rows IH]; simpl; [done | by rewrite IH]. Qed.

(** C6. Finalizing with no explicit team list and [num_teams = 3], on a
    session the store updates successfully: exactly three team creations
    are issued, for 'Team A', 'Team B', 'Team C' in this order, each with a
    four-digit numeric passcode, and the stored session has
    [status = 'active'] and [wizard_state = null]; when no creation fails,
    that session is returned and the three rows are in the team table. *)
Theorem finalizeDraftSession_three_default_teams
    (sessionId : string) (finalGameData : NewGameData.t) (w : World.t)
    (s : GameSession.t) :
  default [] (NewGameData.teams_config finalGameData) = [] →
  NewGameData.num_teams finalGameData = 3 →
  sessionId ≠ "" → sessionId ≠ "new" →
  Db.sessions (World.db w) !! sessionId = Some s →
  (∀ u, failure (World.calls w ++ [SessionsUpdate sessionId u]) = None) →
  (∀ i, (0 <= random i)%Q ∧ (random i < 1)%Q) →
  let w' := (finalizeDraftSession sessionId finalGameData w).1 in
  let r := (finalizeDraftSession sessionId finalGameData w).2 in
  ∃ (p0 p1 p2 : string) (s' : GameSession.t),
    let rows := [TeamInsert.mk sessionId "Team A" p0;
                 TeamInsert.mk sessionId "Team B" p1;
                 TeamInsert.mk sessionId "Team C" p2] in
    team_creations (World.calls w') = (team_creations (World.calls w) ++ rows)%list
    ∧ four_digit_passcode p0 ∧ four_digit_passcode p1 ∧ four_digit_passcode p2
    ∧ Db.sessions (World.db w') !! sessionId = Some s'
    ∧ GameSession.status s' = active
    ∧ GameSession.wizard_state s' = None
    ∧ ((∀ calls row, failure (calls ++ [TeamsCreate row]) = None) →
         r = Ok s'
         ∧ Db.teams (World.db w') = (Db.teams (World.db w) ++ rows)%list).
Proof.
  intros Hcfg Hnum Hne1 Hne2 Hs Hupd Hrand.
  unfold finalizeDraftSession.
  rewrite (updateSession_succeeds _ _ _ _ Hne1 Hne2 Hs (Hupd _)).
  rewrite Hcfg, Hnum.
  change (0 <? Z.of_nat (length [])) with false. change (0 <? 3) with true.
  cbv iota.
  set (u := Updates.mk _ _ _ _ _ _ _ _ _ _).
  set (w1 := World.with_db _ _).
  set (rows := array_from_length_map 3 (default_team sessionId (World.draws w1))).
  destruct (create_all_effect rows (draw_n (length rows) w1)) as (Hc & Hss & _).
  exists (random_passcode (random (World.draws w + 0))),
         (random_passcode (random (World.draws w + 1))),
         (random_passcode (random (World.draws w + 2))),
         (apply_updates u s).
  assert (Hfst :
    (match create_all rows (draw_n (length rows) w1) with
     | (w2, Resolved) => (w2, Ok (apply_updates u s))
     | (w2, Rejected error) => (w2, Throw (finalize_error error))
     end).1 = (create_all rows (draw_n (length rows) w1)).1).
  { destruct (create_all rows (draw_n (length rows) w1)) as [w2 [|e]]; reflexivity. }
  cbv zeta. rewrite Hfst.
  split; [|split; [|split; [|split; [|split; [|split; [|split]]]]]].
  - rewrite Hc, team_creations_app, team_creations_map.
    change (World.calls (draw_n (length rows) w1))
      with (World.calls w ++ [SessionsUpdate sessionId u])%list.
    rewrite team_creations_app. simpl team_creations at 2.
    rewrite app_nil_r. reflexivity.
  - apply random_passcode_four_digit; apply Hrand.
  - apply random_passcode_four_digit; apply Hrand.
  - apply random_passcode_four_digit; apply Hrand.
  - rewrite Hss. subst w1. simpl. by rewrite lookup_insert_eq.
  - reflexivity.
  - reflexivity.
  - intros Hcreate.
    destruct (create_all_resolves rows (draw_n (length rows) w1)) as [Ho Ht].
    { intros done_ _ Hne. destruct done_ as [|x done_] using rev_ind; [done|].
      rewrite map_app, app_assoc. simpl. apply Hcreate. }
    destruct (create_all rows (draw_n (length rows) w1)) as [w2 o]. simpl in *.
    subst o. split; [reflexivity|]. rewrite Ht. subst w1. reflexivity.
Qed.

(** ** Navigation *)

Lemma session_updates_app l1 l2 :
  session_updates (l1 ++ l2) = (session_updates l1 ++ session_updates l2)%list.
Proof. apply omap_app. Qed.

Lemma currentSlideData_Some gameStructure c slide :
  currentSlideData gameStructure c = Some slide →
  ∃ g dbSession i,
    gameStructure = Some g
    ∧ Controller.dbSession c = Some dbSession
    ∧ GameSession.current_slide_index dbSession = Some i
    ∧ 0 ≤ i < Z.of_nat (length (GameStructure.slides g))
    ∧ GameStructure.slides g !! Z.to_nat i = Some slide.
Proof.
  unfold currentSlideData, currentSlideIndex, slide_at.
  destruct gameStructure as [g|]; [|discriminate].
  destruct (Controller.dbSession c) as [dbSession|]; simpl; [|discriminate].
  destruct (GameSession.current_slide_index dbSession) as [i|] eqn:Hi;
    [|discriminate].
  destruct (Z.ltb_spec i 0); [discriminate|].
  intros Hl. exists g, dbSession, i. repeat split; auto.
  apply lookup_lt_Some in Hl. lia.
Qed.

(** C9. A jump to an index below zero or not below the slide count is
    rejected: the hook state (the cached session with its
    [current_slide_index] included) and the world (the store and the call
    log, hence no persistence call) come back as they were. *)
Theorem selectSlideByIndex_rejects_out_of_range
    (gameStructure : option GameStructure.t) (targetIndex : Z)
    (c : Controller.t) (w : World.t) :
  targetIndex < 0 ∨ slides_length gameStructure 0 ≤ targetIndex →
  selectSlideByIndex gameStructure targetIndex c w = (c, w).
Proof.
  intros Hout. unfold selectSlideByIndex.
  destruct (Controller.dbSession c); [|reflexivity].
  destruct (Z.ltb_spec targetIndex 0),
           (Z.leb_spec (slides_length gameStructure 0) targetIndex);
    try reflexivity; lia.
Qed.

(** C2. On an interactive slide carrying a decision key, when the
    finalizer fails, [nextSlide] stops: the cached session and the store
    are as before, no session update is issued, and the alert
    'Processing Error' is shown. *)
Theorem nextSlide_finalizer_failure_aborts
    (gameStructure : option GameStructure.t) (c : Controller.t) (w : World.t)
    (slide : Slide.t) (error : Thrown) :
  currentSlideData gameStructure c = Some slide →
  truthy (Slide.interactive_data_key slide) = true →
  String.prefix "interactive_" (Slide.type slide) = true →
  failure (World.calls w ++ [ProcessInteractiveSlide slide]) = Some error →
  let c' := (nextSlide gameStructure c w).1 in
  let w' := (nextSlide gameStructure c w).2 in
  Controller.dbSession c' = Controller.dbSession c
  ∧ currentSlideIndex c' = currentSlideIndex c
  ∧ World.db w' = World.db w
  ∧ session_updates (World.calls w') = session_updates (World.calls w)
  ∧ Controller.currentHostAlertState c' =
      Some (HostAlert.mk "Processing Error"
              ("Failed to process slide: " ++ message_or error "Unknown error")).
Proof.
  intros Hslide Hkey Htype Hfail.
  pose proof Hslide as Hs.
  apply currentSlideData_Some in Hs as (g & dbSession & i & -> & Hdb & Hi & _ & _).
  unfold nextSlide. rewrite Hdb, Hi, Hslide, Hkey, Htype. simpl.
  unfold issue. simpl. rewrite Hfail. simpl.
  repeat split; auto.
  rewrite session_updates_app. simpl. by rewrite app_nil_r.
Qed.

Lemma navigateNext_at_last gameStructure dbSession i c w :
  slides_length gameStructure 1 - 1 < i + 1 →
  navigateNext gameStructure dbSession i c w = (c, w).
Proof.
  intros Hlast. unfold navigateNext.
  destruct (Z.leb_spec (i + 1) (slides_length gameStructure 1 - 1));
    [lia | reflexivity].
Qed.

Lemma navigateNext_below_last gameStructure dbSession i c w s :
  i + 1 ≤ slides_length gameStructure 1 - 1 →
  Controller.dbSession c = Some dbSession →
  GameSession.id dbSession ≠ "" → GameSession.id dbSession ≠ "new" →
  Db.sessions (World.db w) !! GameSession.id dbSession = Some s →
  failure (World.calls w
           ++ [SessionsUpdate (GameSession.id dbSession)
                 (Updates.only_index (i + 1))]) = None →
  let c' := (navigateNext gameStructure dbSession i c w).1 in
  let w' := (navigateNext gameStructure dbSession i c w).2 in
  Controller.dbSession c' =
    Some (GameSession.with_current_slide_index (Some (i + 1)) dbSession)
  ∧ currentSlideIndex c' = Some (i + 1)
  ∧ Controller.allTeamsAlertDismissed c' = false
  ∧ World.calls w' =
      (World.calls w
       ++ [SessionsUpdate (GameSession.id dbSession) (Updates.only_index (i + 1))])%list
  ∧ Db.sessions (World.db w') !! GameSession.id dbSession =
      Some (GameSession.with_current_slide_index (Some (i + 1)) s).
Proof.
  intros Hlt Hdb Hne1 Hne2 Hs Hf. unfold navigateNext.
  destruct (Z.leb_spec (i + 1) (slides_length gameStructure 1 - 1)); [|lia].
  rewrite (updateSession_succeeds _ _ _ _ Hne1 Hne2 Hs Hf). simpl.
  unfold currentSlideIndex. simpl. rewrite Hdb. simpl.
  repeat split; auto. by rewrite lookup_insert_eq.
Qed.

(** C7. When finalization is not required or succeeds: below the last
    slide, and with the store accepting the update, the index goes up by
    one, that index is what is sent to and kept by the store, and the
    dismissal flag is cleared; on the last slide [nextSlide] changes
    nothing in the hook state, and issues no session update. *)
Theorem nextSlide_advances_below_last
    (gameStructure : option GameStructure.t) (c : Controller.t) (w : World.t)
    (dbSession : GameSession.t) (i : Z) (slide : Slide.t) :
  Controller.dbSession c = Some dbSession →
  GameSession.current_slide_index dbSession = Some i →
  currentSlideData gameStructure c = Some slide →
  (truthy (Slide.interactive_data_key slide)
   && String.prefix "interactive_" (Slide.type slide) = true →
   failure (World.calls w ++ [ProcessInteractiveSlide slide]) = None) →
  let c' := (nextSlide gameStructure c w).1 in
  let w' := (nextSlide gameStructure c w).2 in
  let maxIndex := slides_length gameStructure 1 - 1 in
  (i + 1 ≤ maxIndex →
   ∀ s, GameSession.id dbSession ≠ "" → GameSession.id dbSession ≠ "new" →
     Db.sessions (World.db w) !! GameSession.id dbSession = Some s →
     (∀ calls u, failure (calls ++ [SessionsUpdate (GameSession.id dbSession) u])
                 = None) →
     currentSlideIndex c' = Some (i + 1)
     ∧ session_updates (World.calls w') =
         (session_updates (World.calls w)
          ++ [(GameSession.id dbSession, Updates.only_index (i + 1))])%list
     ∧ (GameSession.current_slide_index
          <$> Db.sessions (World.db w') !! GameSession.id dbSession)
        = Some (Some (i + 1))
     ∧ Controller.allTeamsAlertDismissed c' = false)
  ∧ (maxIndex < i + 1 →
     i = maxIndex
     ∧ c' = c
     ∧ session_updates (World.calls w') = session_updates (World.calls w)
     ∧ World.db w' = World.db w).
Proof.
  intros Hdb Hi Hslide Hfin. unfold nextSlide. rewrite Hdb, Hi, Hslide.
  pose proof Hslide as Hs.
  apply currentSlideData_Some in Hs as (g & d & j & -> & Hdb' & Hj & Hr & _).
  assert (d = dbSession) by congruence. subst d.
  assert (j = i) by congruence. subst j. clear Hdb' Hj.
  destruct (truthy (Slide.interactive_data_key slide)
            && String.prefix "interactive_" (Slide.type slide)) eqn:Hint.
  - unfold issue. simpl World.calls. rewrite (Hfin eq_refl). split.
    + intros Hlt s Hne1 Hne2 Hs Hf.
      destruct (navigateNext_below_last (Some g) dbSession i c
                  (World.log (ProcessInteractiveSlide slide) w) s)
        as (_ & Hidx & Hdis & Hcalls & Hst); auto.
      rewrite Hcalls, Hst. simpl.
      rewrite !session_updates_app. simpl. rewrite app_nil_r. auto.
    + intros Hlast. rewrite navigateNext_at_last by assumption. simpl in *.
      rewrite session_updates_app. simpl. rewrite app_nil_r.
      repeat split; auto. lia.
  - split.
    + intros Hlt s Hne1 Hne2 Hs Hf.
      destruct (navigateNext_below_last (Some g) dbSession i c w s)
        as (_ & Hidx & Hdis & Hcalls & Hst); auto.
      rewrite Hcalls, Hst. simpl.
      rewrite !session_updates_app. simpl. auto.
    + intros Hlast. rewrite navigateNext_at_last by assumption. simpl in *.
      repeat split; auto. lia.
Qed.

Lemma same_but_index_refl s : same_but_index s s.
Proof. unfold same_but_index. repeat split. Qed.

Lemma same_but_index_opt_refl o : same_but_index_opt o o.
Proof. destruct o; simpl; [apply same_but_index_refl | done]. Qed.

Lemma same_but_index_with i s :
  same_but_index s (GameSession.with_current_slide_index i s).
Proof. unfold same_but_index. repeat split. Qed.

Lemma index_only_step_refl c w : index_only_step c w (c, w).
Proof.
  unfold index_only_step. simpl.
  split; [apply same_but_index_opt_refl|].
  split; [intros; apply same_but_index_opt_refl|].
  split; [|done]. exists []. by rewrite app_nil_r.
Qed.

(** The shape shared by the four operations: one [updateSession] naming
    the index, then either the cached index is patched (and flags set), or
    an alert is raised. *)
Lemma persist_index_step c w w0 sessionId i (k_ok k_err : Controller.t) r w1 :
  World.db w0 = World.db w →
  session_updates (World.calls w0) = session_updates (World.calls w) →
  updateSession sessionId (Updates.only_index i) w0 = (w1, r) →
  same_but_index_opt (Controller.dbSession c) (Controller.dbSession k_ok) →
  same_but_index_opt (Controller.dbSession c) (Controller.dbSession k_err) →
  index_only_step c w
    (match r with Ok _ => k_ok | Throw _ => k_err end, w1).
Proof.
  intros Hdb Hcalls Hupd Hok Herr. destruct r as [s'|e].
  - apply updateSession_Ok in Hupd as (s & Hs & -> & ->).
    unfold index_only_step. simpl. rewrite Hdb in *.
    split; [done|]. split; [|split].
    + intros sid. destruct (decide (sid = sessionId)) as [->|Hne].
      * rewrite lookup_insert_eq, Hs. simpl. apply same_but_index_with.
      * rewrite lookup_insert_ne by done. apply same_but_index_opt_refl.
    + exists [(sessionId, Updates.only_index i)].
      rewrite session_updates_app, Hcalls. split; [done|].
      constructor; [by exists i | constructor].
    + done.
  - apply updateSession_Throw in Hupd as [Hdb' Hw].
    unfold index_only_step. simpl. rewrite Hdb', Hdb.
    split; [done|]. split; [intros; apply same_but_index_opt_refl|].
    split; [|done].
    destruct Hw as [-> | ->].
    + exists []. by rewrite app_nil_r.
    + exists [(sessionId, Updates.only_index i)]. simpl.
      rewrite session_updates_app, Hcalls. split; [done|].
      constructor; [by exists i | constructor].
Qed.

Lemma same_but_index_opt_patch i o :
  same_but_index_opt o (GameSession.with_current_slide_index i <$> o).
Proof. destruct o; simpl; [apply same_but_index_with | done]. Qed.

Lemma navigateNext_index_only gameStructure dbSession i c w w0 :
  World.db w0 = World.db w →
  session_updates (World.calls w0) = session_updates (World.calls w) →
  index_only_step c w (navigateNext gameStructure dbSession i c w0).
Proof.
  intros Hdb Hcalls. unfold navigateNext.
  destruct (i + 1 <=? slides_length gameStructure 1 - 1).
  - destruct (updateSession _ _ w0) as [w1 r] eqn:E.
    pose proof (persist_index_step c w w0 _ _
      (Controller.with_dismissed false
         (Controller.with_dbSession
            (GameSession.with_current_slide_index (Some (i + 1))
               <$> Controller.dbSession c) c))
      (Controller.with_alert
         (Some (HostAlert.mk "Navigation Error"
                  (message_or (match r with Throw e => e | _ => NonError end)
                     "Failed to advance slide."))) c)
      r w1 Hdb Hcalls E (same_but_index_opt_patch _ _)
      (same_but_index_opt_refl _)) as H.
    destruct r; exact H.
  - unfold index_only_step. simpl. rewrite Hdb, Hcalls.
    split; [apply same_but_index_opt_refl|].
    split; [intros; apply same_but_index_opt_refl|].
    split; [|done]. exists []. by rewrite app_nil_r.
Qed.

(** C10. [nextSlide], [previousSlide], [selectSlideByIndex] and the
    auto-advance of [clearHostAlert] change no session field other than
    [current_slide_index]: not in the cached session, not in any stored
    session, and every update they send to the store names the index
    only. *)
Theorem navigation_changes_only_index
    (op : NavOp) (gameStructure : option GameStructure.t)
    (c : Controller.t) (w : World.t) :
  index_only_step c w (navigate op gameStructure c w).
Proof.
  destruct op as [| |targetIndex|]; simpl.
  - unfold nextSlide.
    destruct (Controller.dbSession c) as [dbSession|] eqn:Hdb;
      [|apply index_only_step_refl].
    destruct (GameSession.current_slide_index dbSession) as [i|];
      [|apply index_only_step_refl].
    destruct (currentSlideData gameStructure c) as [slide|];
      [|apply index_only_step_refl].
    destruct (truthy (Slide.interactive_data_key slide)
              && String.prefix "interactive_" (Slide.type slide)).
    + unfold issue. destruct (failure _) as [error|].
      * unfold index_only_step. simpl. rewrite Hdb.
        split; [apply same_but_index_refl|].
        split; [intros; apply same_but_index_opt_refl|].
        split; [|done]. exists [].
        rewrite session_updates_app. simpl. by rewrite !app_nil_r.
      * apply navigateNext_index_only; simpl; [done|].
        rewrite session_updates_app. simpl. by rewrite app_nil_r.
    + by apply navigateNext_index_only.
  - unfold previousSlide.
    destruct (Controller.dbSession c) as [dbSession|] eqn:Hdb;
      [|apply index_only_step_refl].
    destruct (GameSession.current_slide_index dbSession) as [i|];
      [|apply index_only_step_refl].
    destruct (updateSession _ _ w) as [w1 r] eqn:E.
    pose proof (persist_index_step c w w _ _
      (Controller.with_dismissed false
         (Controller.with_dbSession
            (GameSession.with_current_slide_index (Some (Z.max (i - 1) 0))
               <$> Controller.dbSession c) c))
      (Controller.with_alert
         (Some (HostAlert.mk "Navigation Error"
                  (message_or (match r with Throw e => e | _ => NonError end)
                     "Failed to go to previous slide."))) c)
      r w1 eq_refl eq_refl E (same_but_index_opt_patch _ _)
      (same_but_index_opt_refl _)) as H.
    rewrite Hdb in H. destruct r; exact H.
  - unfold selectSlideByIndex.
    destruct (Controller.dbSession c) as [dbSession|] eqn:Hdb;
      [|apply index_only_step_refl].
    destruct ((targetIndex <? 0) || (slides_length gameStructure 0 <=? targetIndex));
      [apply index_only_step_refl|].
    destruct (updateSession _ _ w) as [w1 r] eqn:E.
    pose proof (persist_index_step c w w _ _
      (Controller.with_dismissed false
         (Controller.with_dbSession
            (GameSession.with_current_slide_index (Some targetIndex)
               <$> Controller.dbSession c) c))
      (Controller.with_alert
         (Some (HostAlert.mk "Navigation Error"
                  (message_or (match r with Throw e => e | _ => NonError end)
                     "Failed to jump to slide."))) c)
      r w1 eq_refl eq_refl E (same_but_index_opt_patch _ _)
      (same_but_index_opt_refl _)) as H.
    rewrite Hdb in H. destruct r; exact H.
  - unfold clearHostAlert.
    destruct (Controller.currentHostAlertState c) as [alert|];
      [|apply index_only_step_refl].
    destruct (Controller.dbSession c) as [dbSession|] eqn:Hdb;
      [|apply index_only_step_refl].
    destruct (String.eqb (HostAlert.title alert) ALL_SUBMIT_ALERT_TITLE).
    + destruct (updateSession _ _ w) as [w1 r] eqn:E.
      set (next := Z.min _ _) in *.
      pose proof (persist_index_step c w w _ _
        (Controller.with_dbSession
           (GameSession.with_current_slide_index (Some next)
              <$> Controller.dbSession
                    (Controller.with_dismissed true (Controller.with_alert None c)))
           (Controller.with_dismissed true (Controller.with_alert None c)))
        (Controller.with_alert
           (Some (HostAlert.mk "Navigation Error"
                    (message_or (match r with Throw e => e | _ => NonError end)
                       "Failed to change slide.")))
           (Controller.with_dismissed true (Controller.with_alert None c)))
        r w1 eq_refl eq_refl E (same_but_index_opt_patch _ _)
        (same_but_index_opt_refl _)) as H.
      destruct r; exact H.
    + unfold index_only_step. simpl. rewrite Hdb.
      split; [apply same_but_index_refl|].
      split; [intros; apply same_but_index_opt_refl|].
      split; [|done]. exists []. by rewrite app_nil_r.
Qed.

(** ** Consequence auto-processing under interleaving *)

Lemma consequence_calls_app l1 l2 :
  consequence_calls (l1 ++ l2)
  = (consequence_calls l1 ++ consequence_calls l2)%list.
Proof. apply omap_app. Qed.

Lemma consequence_invocations_log slideId slide calls :
  consequence_invocations slideId (calls ++ [ProcessConsequenceSlide slide])
  = (consequence_invocations slideId calls
     + (if decide (slideId = Slide.id slide) then 1 else 0))%nat.
Proof.
  unfold consequence_invocations.
  rewrite consequence_calls_app, filter_app, length_app. simpl.
  rewrite filter_cons, filter_nil. by destruct (decide _).
Qed.

Lemma updateSession_consequence_calls sessionId updates w :
  consequence_calls (World.calls (updateSession sessionId updates w).1)
  = consequence_calls (World.calls w).
Proof.
  destruct (updateSession sessionId updates w) as [w' [s'|e]] eqn:E; simpl.
  - apply updateSession_Ok in E as (s & _ & _ & ->). simpl.
    rewrite consequence_calls_app. simpl. by rewrite app_nil_r.
  - apply updateSession_Throw in E as [_ [-> | ->]]; simpl; [done|].
    rewrite consequence_calls_app. simpl. by rewrite app_nil_r.
Qed.

(** Navigation leaves the guard's state alone: the processed set, the
    calls in flight, the consequence calls made so far, and the identity
    of the cached session. *)
Lemma navigate_keeps_guard_state op gameStructure c w :
  let cw' := navigate op gameStructure c w in
  Controller.processedConsequenceSlidesRef cw'.1
  = Controller.processedConsequenceSlidesRef c
  ∧ Controller.awaiting cw'.1 = Controller.awaiting c
  ∧ consequence_calls (World.calls cw'.2) = consequence_calls (World.calls w)
  ∧ GameSession.id <$> Controller.dbSession cw'.1
    = GameSession.id <$> Controller.dbSession c.
Proof.
  assert (Hnav : ∀ dbSession i w0,
            consequence_calls (World.calls w0) = consequence_calls (World.calls w) →
            let cw' := navigateNext gameStructure dbSession i c w0 in
            Controller.processedConsequenceSlidesRef cw'.1
            = Controller.processedConsequenceSlidesRef c
            ∧ Controller.awaiting cw'.1 = Controller.awaiting c
            ∧ consequence_calls (World.calls cw'.2) = consequence_calls (World.calls w)
            ∧ GameSession.id <$> Controller.dbSession cw'.1
              = GameSession.id <$> Controller.dbSession c).
  { intros dbSession i w0 Hw0. unfold navigateNext.
    destruct (i + 1 <=? slides_length gameStructure 1 - 1); [|by simpl].
    pose proof (updateSession_consequence_calls (GameSession.id dbSession)
                  (Updates.only_index (i + 1)) w0) as Hc.
    destruct (updateSession _ _ w0) as [w1 [s'|e]]; simpl in *;
      rewrite Hc, Hw0; repeat split; auto.
    by destruct (Controller.dbSession c). }
  destruct op as [| |targetIndex|]; simpl.
  - unfold nextSlide.
    destruct (Controller.dbSession c) as [dbSession|] eqn:Hdb; [|by simpl; rewrite ?Hdb].
    destruct (GameSession.current_slide_index dbSession) as [i|]; [|by simpl; rewrite ?Hdb].
    destruct (currentSlideData gameStructure c) as [slide|]; [|by simpl; rewrite ?Hdb].
    destruct (truthy (Slide.interactive_data_key slide)
              && String.prefix "interactive_" (Slide.type slide)).
    + unfold issue. destruct (failure _) as [error|].
      * simpl. rewrite consequence_calls_app. simpl.
        by rewrite app_nil_r, Hdb.
      * apply Hnav. simpl. rewrite consequence_calls_app. simpl.
        by rewrite app_nil_r.
    + by apply Hnav.
  - unfold previousSlide.
    destruct (Controller.dbSession c) as [dbSession|] eqn:Hdb; [|by simpl; rewrite ?Hdb].
    destruct (GameSession.current_slide_index dbSession) as [i|]; [|by simpl; rewrite ?Hdb].
    pose proof (updateSession_consequence_calls (GameSession.id dbSession)
                  (Updates.only_index (Z.max (i - 1) 0)) w) as Hc.
    destruct (updateSession _ _ w) as [w1 [s'|e]]; simpl in *;
      rewrite Hc; by rewrite ?Hdb.
  - unfold selectSlideByIndex.
    destruct (Controller.dbSession c) as [dbSession|] eqn:Hdb; [|by simpl; rewrite ?Hdb].
    destruct ((targetIndex <? 0) || (slides_length gameStructure 0 <=? targetIndex));
      [by simpl; rewrite ?Hdb|].
    pose proof (updateSession_consequence_calls (GameSession.id dbSession)
                  (Updates.only_index targetIndex) w) as Hc.
    destruct (updateSession _ _ w) as [w1 [s'|e]]; simpl in *;
      rewrite Hc; by rewrite ?Hdb.
  - unfold clearHostAlert.
    destruct (Controller.currentHostAlertState c) as [alert|]; [|done].
    destruct (Controller.dbSession c) as [dbSession|] eqn:Hdb; [|by simpl; rewrite ?Hdb].
    destruct (String.eqb (HostAlert.title alert) ALL_SUBMIT_ALERT_TITLE);
      [|by simpl; rewrite ?Hdb].
    set (next := Z.min _ _).
    pose proof (updateSession_consequence_calls (GameSession.id dbSession)
                  (Updates.only_index next) w) as Hc.
    destruct (updateSession _ _ w) as [w1 [s'|e]]; simpl in *;
      rewrite Hc; by rewrite ?Hdb.
Qed.

Lemma step_guarded slideId sessionId ev cw :
  within_load slideId sessionId ev →
  guarded slideId sessionId cw →
  guarded slideId sessionId (step ev cw).
Proof.
  destruct cw as [c w]. unfold guarded. simpl.
  intros Hev (Hid & Hle & Hin).
  destruct ev as [cs gs | sl o | init | op gs]; simpl in *.
  - unfold processConsequenceSlideAuto_begin.
    destruct cs as [slide|]; [|done]. destruct gs as [g|]; [|done].
    destruct (String.eqb (Slide.type slide) "consequence_reveal"); [|done].
    destruct (decide (Slide.id slide ∈ Controller.processedConsequenceSlidesRef c))
      as [Hproc|Hfresh]; [done|]. simpl.
    rewrite consequence_invocations_log.
    destruct (decide (slideId = Slide.id slide)) as [->|Hne].
    + assert (consequence_invocations (Slide.id slide) (World.calls w) = 0)%nat
        by (destruct (consequence_invocations (Slide.id slide) (World.calls w));
            [done | exfalso; apply Hfresh, Hin; lia]).
      split; [done|]. split; [lia|]. intros _. set_solver.
    + rewrite Nat.add_0_r. split; [done|]. split; [done|].
      intros H. set_solver.
  - unfold processConsequenceSlideAuto_settle.
    destruct (decide (sl ∈ Controller.awaiting c)); [|done].
    destruct o as [|error]; simpl; [done|].
    split; [done|]. split; [done|]. intros H. specialize (Hin H). set_solver.
  - unfold resetProcessedOnSessionChange, adoptInitialSession.
    destruct (decide (GameSession.id <$> init ≠ GameSession.id <$> Controller.dbSession c))
      as [Hdiff|Hsame]; [congruence|].
    destruct init as [s0|]; [|done].
    destruct (Controller.dbSession c) eqn:Hdb; [by rewrite Hdb|].
    exfalso. by apply Hsame.
  - destruct (navigate_keeps_guard_state op gs c w) as (Hp & _ & Hc & Hi).
    unfold consequence_invocations in *. rewrite Hp, Hc, Hi. done.
Qed.

Lemma run_guarded slideId sessionId evs cw :
  Forall (within_load slideId sessionId) evs →
  guarded slideId sessionId cw →
  guarded slideId sessionId (run evs cw).
Proof.
  intros Hevs. revert cw.
  induction Hevs as [|ev evs Hev _ IH]; intros cw Hg; simpl; [done|].
  apply IH. by apply step_guarded.
Qed.

Lemma marked (x : Z) (s : gset Z) : x ∈ {[x]} ∪ s.
Proof. apply elem_of_union. left. by apply elem_of_singleton. Qed.

Lemma released (x : Z) (s : gset Z) : x ∉ ({[x]} ∪ s) ∖ {[x]}.
Proof.
  rewrite elem_of_difference, elem_of_singleton. intros [_ Hne]. by apply Hne.
Qed.

Lemma evaluate_processed_noop slide gameStructure c w :
  Slide.id slide ∈ Controller.processedConsequenceSlidesRef c →
  step (Evaluate (Some slide) gameStructure) (c, w) = (c, w).
Proof.
  intros Hin. simpl. unfold processConsequenceSlideAuto_begin.
  destruct gameStructure; [|done].
  destruct (String.eqb _ _); [|done].
  by destruct (decide _).
Qed.

(** C1. Within one session load (no render in which the session identity
    differs from the cached one) and as long as no processing of slide
    [slideId] fails, however evaluations, settlements, renders and
    navigations interleave: the consequence processor is started at most
    once on [slideId]; once it has been started, a further evaluation for a
    slide with that identifier changes nothing and starts nothing; and an
    evaluation leaves a consequence slide marked in the very step that
    starts the call.  The set is emptied by the session effect only when
    the two identities differ. *)
Theorem consequence_processor_at_most_once_per_load
    (slideId : Z) (evs : list Event) (c0 : Controller.t) (w0 : World.t) :
  consequence_invocations slideId (World.calls w0) = 0%nat →
  Forall (within_load slideId (GameSession.id <$> Controller.dbSession c0)) evs →
  let cw := run evs (c0, w0) in
  (consequence_invocations slideId (World.calls cw.2) ≤ 1)%nat
  ∧ (∀ slide gameStructure,
       Slide.id slide = slideId →
       (1 ≤ consequence_invocations slideId (World.calls cw.2))%nat →
       step (Evaluate (Some slide) gameStructure) cw = cw)
  ∧ (∀ slide g,
       Slide.id slide = slideId →
       Slide.type slide = "consequence_reveal" →
       slideId ∈ Controller.processedConsequenceSlidesRef
                   (step (Evaluate (Some slide) (Some g)) cw).1)
  ∧ (∀ initialDbSession,
       GameSession.id <$> initialDbSession
       = GameSession.id <$> Controller.dbSession cw.1 →
       resetProcessedOnSessionChange initialDbSession cw.1 = cw.1).
Proof.
  intros Hzero Hevs cw.
  assert (Hg : guarded slideId (GameSession.id <$> Controller.dbSession c0) cw).
  { apply run_guarded; [done|]. unfold guarded. simpl. rewrite Hzero.
    split; [done|]. split; lia. }
  destruct Hg as (_ & Hle & Hin).
  split; [done|]. split; [|split].
  - intros slide gs Hid Hone. destruct cw as [c w].
    apply evaluate_processed_noop. rewrite Hid. by apply Hin.
  - intros slide g Hid Htype. simpl. unfold processConsequenceSlideAuto_begin.
    rewrite Htype. simpl. rewrite Hid.
    destruct (decide (slideId ∈ _)); simpl; [done | set_solver].
  - intros init Hsame. unfold resetProcessedOnSessionChange.
    by destruct (decide _).
Qed.

(** C4. A consequence slide not yet marked is marked and its processing
    started.  If that processing fails, the mark is removed, the alert
    'Processing Error' is shown, and the next evaluation of the slide
    starts the processor again; if it succeeds, the mark stays and the next
    evaluation starts nothing.  The same holds of the effect run without
    interleaving. *)
Theorem consequence_failure_releases_mark
    (slide : Slide.t) (g : GameStructure.t) (c : Controller.t) (w : World.t) :
  Slide.type slide = "consequence_reveal" →
  Slide.id slide ∉ Controller.processedConsequenceSlidesRef c →
  let alert_of error :=
    Some (HostAlert.mk "Processing Error"
            ("Failed to process consequence slide: " ++
             message_or error "Unknown error")) in
  let cw1 := step (Evaluate (Some slide) (Some g)) (c, w) in
  World.calls cw1.2 = (World.calls w ++ [ProcessConsequenceSlide slide])%list
  ∧ Slide.id slide ∈ Controller.processedConsequenceSlidesRef cw1.1
  ∧ (∀ error,
       let cw2 := step (Settle (Slide.id slide) (Rejected error)) cw1 in
       ((Slide.id slide ∉ Controller.processedConsequenceSlidesRef cw2.1)
        ∧ Controller.currentHostAlertState cw2.1 = alert_of error
        ∧ World.calls (step (Evaluate (Some slide) (Some g)) cw2).2
          = (World.calls cw2.2 ++ [ProcessConsequenceSlide slide])%list))
  ∧ (let cw2 := step (Settle (Slide.id slide) Resolved) cw1 in
     (Slide.id slide ∈ Controller.processedConsequenceSlidesRef cw2.1
      ∧ step (Evaluate (Some slide) (Some g)) cw2 = cw2))
  ∧ (let cw' := processConsequenceSlideAuto (Some slide) (Some g) c w in
     match failure (World.calls w ++ [ProcessConsequenceSlide slide]) with
     | Some error =>
         (Slide.id slide ∉ Controller.processedConsequenceSlidesRef cw'.1)
         ∧ Controller.currentHostAlertState cw'.1 = alert_of error
     | None =>
         Slide.id slide ∈ Controller.processedConsequenceSlidesRef cw'.1
         ∧ Controller.currentHostAlertState cw'.1
           = Controller.currentHostAlertState c
     end).
Proof.
  intros Htype Hfresh alert_of cw1.
  assert (Hcw1 : cw1 =
    (Controller.with_awaiting (Slide.id slide :: Controller.awaiting c)
       (Controller.with_processed
          ({[Slide.id slide]} ∪ Controller.processedConsequenceSlidesRef c) c),
     World.log (ProcessConsequenceSlide slide) w)).
  { subst cw1. simpl. unfold processConsequenceSlideAuto_begin.
    rewrite Htype. simpl. by destruct (decide _). }
  rewrite Hcw1. simpl.
  split; [done|]. split; [apply marked|]. split; [|split].
  - intros error. unfold processConsequenceSlideAuto_settle. simpl.
    destruct (decide (Slide.id slide ∈ Slide.id slide :: Controller.awaiting c))
      as [_|Hn]; [|exfalso; apply Hn; left].
    simpl. split; [apply released|]. split; [done|].
    unfold processConsequenceSlideAuto_begin. rewrite Htype. simpl.
    destruct (decide _) as [Hin|_]; [by apply released in Hin | done].
  - unfold processConsequenceSlideAuto_settle. simpl.
    destruct (decide (Slide.id slide ∈ Slide.id slide :: Controller.awaiting c))
      as [_|Hn]; [|exfalso; apply Hn; left].
    simpl. split; [apply marked|].
    unfold processConsequenceSlideAuto_begin. rewrite Htype. simpl.
    destruct (decide _) as [_|Hn]; [done | exfalso; apply Hn, marked].
  - unfold processConsequenceSlideAuto, issue. rewrite Htype. simpl.
    destruct (decide _) as [Hin|_]; [done|].
    destruct (failure _); simpl; [split; [apply released | done] |].
    split; [apply marked | done].
Qed.

(** ** Team data: round-data feed *)

(** "Create the team entry if missing, then write the slot" is one insert
    of the extended inner map. *)
Lemma ensure_then_alter `{Countable K} {V : Type}
    (m : gmap string (gmap K V)) (t : string) (k : K) (v : V) :
  alter (insert k v) t
    (match m !! t with Some _ => m | None => <[t := ∅]> m end)
  = <[t := <[k := v]> (default ∅ (m !! t))]> m.
Proof.
  apply map_eq. intros j.
  destruct (m !! t) as [inner|] eqn:E; simpl.
  - rewrite lookup_alter, lookup_insert.
    destruct (decide (t = j)); [by rewrite E | done].
  - rewrite lookup_alter, !lookup_insert.
    destruct (decide (t = j)); [by rewrite decide_True | done].
Qed.

Lemma upsertRoundData_insert n prev :
  upsertRoundData n prev
  = <[TeamRoundData.team_id n :=
        <[TeamRoundData.round_number n := n]>
          (default ∅ (prev !! TeamRoundData.team_id n))]> prev.
Proof. apply ensure_then_alter. Qed.

Lemma onRoundDataChange_upsert payload n prev :
  upserted payload = Some n →
  onRoundDataChange payload prev = upsertRoundData n prev.
Proof. destruct payload; simpl; intros [= ->]; reflexivity. Qed.

Lemma at_key_upsert n prev t r :
  at_key (upsertRoundData n prev) t r
  = if decide ((t, r) = slot n) then Some n else at_key prev t r.
Proof.
  rewrite upsertRoundData_insert. unfold at_key, slot.
  rewrite lookup_insert.
  destruct (decide (TeamRoundData.team_id n = t)) as [<-|Hne]; simpl.
  - rewrite lookup_insert.
    destruct (decide (TeamRoundData.round_number n = r)) as [<-|Hr].
    + by rewrite decide_True.
    + rewrite decide_False by congruence.
      by destruct (prev !! TeamRoundData.team_id n).
  - by rewrite decide_False by congruence.
Qed.

Lemma upsertRoundData_commute n1 n2 prev :
  slot n1 ≠ slot n2 →
  upsertRoundData n1 (upsertRoundData n2 prev)
  = upsertRoundData n2 (upsertRoundData n1 prev).
Proof.
  intros Hslot. rewrite !upsertRoundData_insert. unfold slot in Hslot.
  destruct (decide (TeamRoundData.team_id n1 = TeamRoundData.team_id n2))
    as [Ht|Ht].
  - rewrite Ht, !lookup_insert_eq, !insert_insert_eq. simpl.
    f_equal. apply insert_insert_ne. congruence.
  - rewrite !lookup_insert_ne by congruence.
    by apply insert_insert_ne.
Qed.

(** C8. Two insert/update events of the round-data feed on distinct
    (team, round) slots commute: either order gives the same projection,
    in which each slot holds the row of its own event and every other slot
    is as before; the rows come from the payloads, nothing is reloaded. *)
Theorem round_data_upserts_commute
    (p1 p2 : RoundDataPayload) (n1 n2 : TeamRoundData.t)
    (prev : gmap string (gmap Z TeamRoundData.t)) :
  upserted p1 = Some n1 →
  upserted p2 = Some n2 →
  slot n1 ≠ slot n2 →
  let final := onRoundDataChange p2 (onRoundDataChange p1 prev) in
  onRoundDataChange p1 (onRoundDataChange p2 prev) = final
  ∧ at_key final (TeamRoundData.team_id n1) (TeamRoundData.round_number n1)
    = Some n1
  ∧ at_key final (TeamRoundData.team_id n2) (TeamRoundData.round_number n2)
    = Some n2
  ∧ (∀ t r, (t, r) ≠ slot n1 → (t, r) ≠ slot n2 →
       at_key final t r = at_key prev t r).
Proof.
  intros H1 H2 Hslot final. subst final.
  rewrite !(onRoundDataChange_upsert p1 n1) by done.
  rewrite !(onRoundDataChange_upsert p2 n2) by done.
  split; [by apply upsertRoundData_commute|].
  split; [|split].
  - rewrite !at_key_upsert.
    rewrite decide_False by done. by rewrite decide_True.
  - rewrite at_key_upsert. by rewrite decide_True.
  - intros t r Hn1 Hn2. rewrite !at_key_upsert.
    by rewrite !decide_False.
Qed.

(** ** Team data: resetting a decision *)

(** What the updater does to the team's own entry. *)
Lemma removeDecision_team teamId phaseId prev phases :
  prev !! teamId = Some phases →
  removeDecision teamId phaseId prev !! teamId
  = if decide (is_Some (phases !! phaseId) ∧ delete phaseId phases = ∅)
    then None
    else Some (delete phaseId phases).
Proof.
  intros Hp. unfold removeDecision, deep_clone. rewrite Hp.
  destruct (phases !! phaseId) as [d|] eqn:Hd.
  - rewrite lookup_alter_eq, Hp. simpl.
    destruct (decide (size (delete phaseId phases) = 0%nat)) as [Hz|Hnz].
    + apply map_size_empty_iff in Hz.
      rewrite lookup_delete_eq. rewrite decide_True; [done | by split].
    + rewrite lookup_alter_eq, Hp. simpl.
      rewrite decide_False; [done|].
      intros [_ He]. apply Hnz. by apply map_size_empty_iff.
  - rewrite Hp. rewrite decide_False.
    + f_equal. symmetry. by apply delete_id.
    + intros [[x Hx] _]. discriminate.
Qed.

(** Other teams' entries are not touched. *)
Lemma removeDecision_other_team teamId phaseId prev t :
  t ≠ teamId →
  removeDecision teamId phaseId prev !! t = prev !! t.
Proof.
  intros Hne. unfold removeDecision, deep_clone.
  destruct (prev !! teamId) as [phases|] eqn:Hp; [|done].
  destruct (phases !! phaseId); [|done].
  destruct (decide _).
  - rewrite lookup_delete_ne by done. by rewrite lookup_alter_ne.
  - by rewrite lookup_alter_ne.
Qed.

(** The updater, key by key. *)
Lemma at_key_removeDecision teamId phaseId prev t q :
  at_key (removeDecision teamId phaseId prev) t q
  = if decide (t = teamId ∧ q = phaseId) then None else at_key prev t q.
Proof.
  unfold at_key.
  destruct (decide (t = teamId)) as [->|Hne].
  - destruct (prev !! teamId) as [phases|] eqn:Hp.
    + rewrite (removeDecision_team _ _ _ _ Hp). simpl.
      destruct (decide (is_Some (phases !! phaseId) ∧ delete phaseId phases = ∅))
        as [[_ He]|_]; simpl.
      * destruct (decide (teamId = teamId ∧ q = phaseId)) as [_|Hn]; [done|].
        assert (q ≠ phaseId) by (intros ->; by apply Hn).
        by rewrite <- (lookup_delete_ne phases phaseId q), He, lookup_empty.
      * rewrite lookup_delete.
        destruct (decide (phaseId = q)) as [->|Hq].
        -- by rewrite decide_True.
        -- rewrite decide_False; [done|]. intros [_ ->]. by apply Hq.
    + unfold removeDecision, deep_clone. rewrite Hp. simpl. rewrite Hp.
      by destruct (decide _).
  - rewrite removeDecision_other_team by done.
    rewrite decide_False; [done|]. intros [-> _]. by apply Hne.
Qed.

(** *** The reload that follows *)

Lemma at_key_addDecision acc d t q :
  at_key (addDecision acc d) t q
  = if decide (t = TeamDecision.team_id d ∧ q = TeamDecision.phase_id d)
    then Some d
    else at_key acc t q.
Proof.
  unfold addDecision. rewrite ensure_then_alter. unfold at_key.
  rewrite lookup_insert.
  destruct (decide (TeamDecision.team_id d = t)) as [<-|Hne]; simpl.
  - rewrite lookup_insert.
    destruct (decide (TeamDecision.phase_id d = q)) as [<-|Hq].
    + by rewrite decide_True.
    + rewrite decide_False; [|intros [_ ->]; by apply Hq].
      by destruct (acc !! TeamDecision.team_id d).
  - rewrite decide_False; [done|]. intros [-> _]. by apply Hne.
Qed.

Lemma at_key_fold_addDecision data acc t q :
  at_key (fold_left addDecision data acc) t q
  = latest t q data (at_key acc t q).
Proof.
  revert acc. induction data as [|d data IH]; intros acc; simpl; [done|].
  rewrite IH. unfold latest at 2. simpl. by rewrite at_key_addDecision.
Qed.

Lemma latest_filter (P : TeamDecision.t → Prop) `{∀ d, Decision (P d)}
    t q data r :
  (∀ d, TeamDecision.team_id d = t → TeamDecision.phase_id d = q → d ∈ data → P d) →
  latest t q (filter P data) r = latest t q data r.
Proof.
  revert r. induction data as [|d data IH]; intros r Hkeep; [done|].
  rewrite filter_cons. destruct (decide (P d)) as [Hp|Hnp]; simpl.
  - apply IH. intros d' ? ? ?. apply Hkeep; auto. by right.
  - rewrite decide_False.
    + apply IH. intros d' ? ? ?. apply Hkeep; auto. by right.
    + intros [-> ->]. apply Hnp, Hkeep; auto. by left.
Qed.

Lemma latest_absent t q data r :
  (∀ d, d ∈ data → ¬ (TeamDecision.team_id d = t ∧ TeamDecision.phase_id d = q)) →
  latest t q data r = r.
Proof.
  revert r. induction data as [|d data IH]; intros r Hno; simpl; [done|].
  rewrite decide_False.
  - apply IH. intros d' ?. apply Hno. by right.
  - intros [-> ->]. by apply (Hno d); [left|].
Qed.

Lemma filter_comm {A : Type} (P Q : A → Prop)
    `{∀ x, Decision (P x)} `{∀ x, Decision (Q x)} (l : list A) :
  filter P (filter Q l) = filter Q (filter P l).
Proof.
  induction l as [|x l IH]; [done|].
  rewrite !filter_cons.
  destruct (decide (Q x)), (decide (P x));
    rewrite ?filter_cons, ?decide_True, ?decide_False by done;
    by rewrite IH.
Qed.

(** The reset from end to end, when the store performs the delete and the
    reload: the projection is rebuilt from the remaining rows of the
    session. *)
Lemma resetTeamDecisionInDb_reloaded sessionId teamId phaseId t w :
  sessionId ≠ "" → sessionId ≠ "new" → teamId ≠ "" → phaseId ≠ "" →
  failure (World.calls w ++ [DecisionsDelete sessionId teamId phaseId]) = None →
  failure (World.calls w ++ [DecisionsDelete sessionId teamId phaseId]
           ++ [DecisionsGetBySession sessionId]) = None →
  ∃ t' w',
    resetTeamDecisionInDb sessionId teamId phaseId t w = (t', w', Ok tt)
    ∧ TeamData.teamDecisions t' =
        structureDecisions
          (filter (fun d => TeamDecision.session_id d = sessionId)
             (filter (fun d => ¬ (TeamDecision.session_id d = sessionId
                                  ∧ TeamDecision.team_id d = teamId
                                  ∧ TeamDecision.phase_id d = phaseId))
                (Db.decisions (World.db w)))).
Proof.
  intros Hs Hnew Ht Hp Hdel Hget.
  unfold resetTeamDecisionInDb, resetTeamDecisionInDb_begin.
  apply String.eqb_neq in Hs, Hnew, Ht, Hp. rewrite Hs, Ht, Hp. simpl.
  unfold db_decisions_delete, issue. simpl. rewrite Hdel.
  unfold fetchTeamDecisionsForSession. rewrite Hs, Hnew. simpl.
  unfold db_decisions_getBySession, issue. simpl.
  rewrite <- app_assoc. rewrite Hget. simpl.
  eexists _, _. split; reflexivity.
Qed.

(** When the reload itself fails, the load path leaves an empty
    projection and an error string; the reset still returns normally. *)
Lemma resetTeamDecisionInDb_reload_fails sessionId teamId phaseId t w err :
  sessionId ≠ "" → sessionId ≠ "new" → teamId ≠ "" → phaseId ≠ "" →
  failure (World.calls w ++ [DecisionsDelete sessionId teamId phaseId]) = None →
  failure (World.calls w ++ [DecisionsDelete sessionId teamId phaseId]
           ++ [DecisionsGetBySession sessionId]) = Some err →
  ∃ t' w',
    resetTeamDecisionInDb sessionId teamId phaseId t w = (t', w', Ok tt)
    ∧ TeamData.teamDecisions t' = ∅
    ∧ TeamData.error t' =
        Some ("Failed to load team decisions: " ++ formatSupabaseError err).
Proof.
  intros Hs Hnew Ht Hp Hdel Hget.
  unfold resetTeamDecisionInDb, resetTeamDecisionInDb_begin.
  apply String.eqb_neq in Hs, Hnew, Ht, Hp. rewrite Hs, Ht, Hp. simpl.
  unfold db_decisions_delete, issue. simpl. rewrite Hdel.
  unfold fetchTeamDecisionsForSession. rewrite Hs, Hnew. simpl.
  unfold db_decisions_getBySession, issue. simpl.
  rewrite <- app_assoc. rewrite Hget. simpl.
  eexists _, _. repeat split; reflexivity.
Qed.

(** ** Further properties of navigation *)

Lemma updateSession_store_fails sessionId updates w e :
  sessionId ≠ "" → sessionId ≠ "new" →
  failure (World.calls w ++ [SessionsUpdate sessionId updates]) = Some e →
  updateSession sessionId updates w =
    (World.log (SessionsUpdate sessionId updates) w,
     Throw (ErrorObj ("Failed to save session progress: " ++
                      formatSupabaseError e))).
Proof.
  intros Hne1 Hne2 Hf. unfold updateSession.
  apply String.eqb_neq in Hne1, Hne2. rewrite Hne1, Hne2. simpl.
  unfold db_sessions_update, issue. simpl. by rewrite Hf.
Qed.

(** X1. Going back: with the store accepting the update, [previousSlide]
    sets the index to [max (i - 1) 0], sends exactly one call (that index
    update, so the finalizer is never invoked), stores the index and clears
    the dismissal flag; on slide 0 it still sends the update, for index 0. *)
Theorem previousSlide_steps_back
    (c : Controller.t) (w : World.t) (dbSession s : GameSession.t) (i : Z) :
  Controller.dbSession c = Some dbSession →
  GameSession.current_slide_index dbSession = Some i →
  GameSession.id dbSession ≠ "" → GameSession.id dbSession ≠ "new" →
  Db.sessions (World.db w) !! GameSession.id dbSession = Some s →
  failure (World.calls w
           ++ [SessionsUpdate (GameSession.id dbSession)
                 (Updates.only_index (Z.max (i - 1) 0))]) = None →
  let cw' := previousSlide c w in
  currentSlideIndex cw'.1 = Some (Z.max (i - 1) 0)
  ∧ World.calls cw'.2
    = (World.calls w
       ++ [SessionsUpdate (GameSession.id dbSession)
             (Updates.only_index (Z.max (i - 1) 0))])%list
  ∧ Db.sessions (World.db cw'.2) !! GameSession.id dbSession
    = Some (GameSession.with_current_slide_index (Some (Z.max (i - 1) 0)) s)
  ∧ Controller.allTeamsAlertDismissed cw'.1 = false
  ∧ Controller.currentHostAlertState cw'.1 = Controller.currentHostAlertState c.
Proof.
  intros Hdb Hi Hne1 Hne2 Hs Hf. unfold previousSlide. rewrite Hdb, Hi.
  rewrite (updateSession_succeeds _ _ _ _ Hne1 Hne2 Hs Hf). simpl.
  unfold currentSlideIndex. simpl. rewrite ?Hdb. simpl.
  repeat split; auto. by rewrite lookup_insert_eq.
Qed.

(** X2. Jumping: for [0 ≤ targetIndex < slide count] and the store
    accepting the update, [selectSlideByIndex] sets and stores the target
    index with exactly one call (the update: no finalization, whatever the
    current slide is) and clears the dismissal flag. *)
Theorem selectSlideByIndex_jumps_in_range
    (gameStructure : option GameStructure.t) (targetIndex : Z)
    (c : Controller.t) (w : World.t) (dbSession s : GameSession.t) :
  Controller.dbSession c = Some dbSession →
  0 ≤ targetIndex < slides_length gameStructure 0 →
  GameSession.id dbSession ≠ "" → GameSession.id dbSession ≠ "new" →
  Db.sessions (World.db w) !! GameSession.id dbSession = Some s →
  failure (World.calls w
           ++ [SessionsUpdate (GameSession.id dbSession)
                 (Updates.only_index targetIndex)]) = None →
  let cw' := selectSlideByIndex gameStructure targetIndex c w in
  currentSlideIndex cw'.1 = Some targetIndex
  ∧ World.calls cw'.2
    = (World.calls w
       ++ [SessionsUpdate (GameSession.id dbSession)
             (Updates.only_index targetIndex)])%list
  ∧ Db.sessions (World.db cw'.2) !! GameSession.id dbSession
    = Some (GameSession.with_current_slide_index (Some targetIndex) s)
  ∧ Controller.allTeamsAlertDismissed cw'.1 = false.
Proof.
  intros Hdb Hrange Hne1 Hne2 Hs Hf. unfold selectSlideByIndex. rewrite Hdb.
  destruct (Z.ltb_spec targetIndex 0); [lia|].
  destruct (Z.leb_spec (slides_length gameStructure 0) targetIndex); [lia|].
  simpl. rewrite (updateSession_succeeds _ _ _ _ Hne1 Hne2 Hs Hf). simpl.
  unfold currentSlideIndex. simpl. rewrite ?Hdb. simpl.
  repeat split; auto. by rewrite lookup_insert_eq.
Qed.

(** X3. When the store rejects the index update, each of [previousSlide],
    an in-range [selectSlideByIndex] and a [nextSlide] that gets as far as
    persisting leaves the cached session, the dismissal flag and the store
    as they were, and shows 'Navigation Error' with the message of
    [updateSession]'s error (the fallback texts of the hook never show). *)
Theorem navigation_store_failure_keeps_position
    (gameStructure : option GameStructure.t) (c : Controller.t) (w : World.t)
    (dbSession : GameSession.t) (i : Z) (e : Thrown) :
  Controller.dbSession c = Some dbSession →
  GameSession.current_slide_index dbSession = Some i →
  GameSession.id dbSession ≠ "" → GameSession.id dbSession ≠ "new" →
  (∀ calls k,
     failure (calls ++ [SessionsUpdate (GameSession.id dbSession)
                          (Updates.only_index k)]) = Some e) →
  let unmoved (cw' : Controller.t * World.t) :=
    Controller.dbSession cw'.1 = Controller.dbSession c
    ∧ Controller.allTeamsAlertDismissed cw'.1
      = Controller.allTeamsAlertDismissed c
    ∧ World.db cw'.2 = World.db w
    ∧ Controller.currentHostAlertState cw'.1
      = Some (HostAlert.mk "Navigation Error"
                ("Failed to save session progress: " ++ formatSupabaseError e)) in
  unmoved (previousSlide c w)
  ∧ (∀ targetIndex,
       0 ≤ targetIndex < slides_length gameStructure 0 →
       unmoved (selectSlideByIndex gameStructure targetIndex c w))
  ∧ (∀ slide,
       currentSlideData gameStructure c = Some slide →
       i + 1 ≤ slides_length gameStructure 1 - 1 →
       (truthy (Slide.interactive_data_key slide)
        && String.prefix "interactive_" (Slide.type slide) = true →
        failure (World.calls w ++ [ProcessInteractiveSlide slide]) = None) →
       unmoved (nextSlide gameStructure c w)).
Proof.
  intros Hdb Hi Hne1 Hne2 Hf unmoved. subst unmoved. cbv beta.
  split; [|split].
  - unfold previousSlide. rewrite Hdb, Hi.
    rewrite (updateSession_store_fails _ _ _ e Hne1 Hne2) by apply Hf.
    simpl. auto.
  - intros targetIndex Hrange. unfold selectSlideByIndex. rewrite Hdb.
    destruct (Z.ltb_spec targetIndex 0); [lia|].
    destruct (Z.leb_spec (slides_length gameStructure 0) targetIndex); [lia|].
    simpl. rewrite (updateSession_store_fails _ _ _ e Hne1 Hne2) by apply Hf.
    simpl. auto.
  - intros slide Hslide Hlt Hfin. unfold nextSlide.
    rewrite Hdb, Hi, Hslide.
    assert (Hnav : ∀ w0, World.db w0 = World.db w →
              let cw' := navigateNext gameStructure dbSession i c w0 in
              Controller.dbSession cw'.1 = Controller.dbSession c
              ∧ Controller.allTeamsAlertDismissed cw'.1
                = Controller.allTeamsAlertDismissed c
              ∧ World.db cw'.2 = World.db w
              ∧ Controller.currentHostAlertState cw'.1
                = Some (HostAlert.mk "Navigation Error"
                          ("Failed to save session progress: " ++
                           formatSupabaseError e))).
    { intros w0 Hw0. unfold navigateNext.
      destruct (Z.leb_spec (i + 1) (slides_length gameStructure 1 - 1)); [|lia].
      rewrite (updateSession_store_fails _ _ _ e Hne1 Hne2) by apply Hf.
      simpl. auto. }
    rewrite <- Hdb.
    destruct (truthy (Slide.interactive_data_key slide)
              && String.prefix "interactive_" (Slide.type slide)).
    + unfold issue. simpl World.calls. rewrite (Hfin eq_refl).
      by apply Hnav.
    + by apply Hnav.
Qed.

(** X4. Dismissing the all-submitted alert advances without finalizing:
    with the store accepting the update, [clearHostAlert] sends exactly one
    call, the update to index [min (i + 1) (last index)] (sent even on the
    last slide, and with no call to the interactive-slide finalizer even
    when the current slide is interactive), moves the cached index there,
    clears the alert and sets the dismissal flag. *)
Theorem clearHostAlert_advances_without_finalizing
    (gameStructure : option GameStructure.t) (c : Controller.t) (w : World.t)
    (alert : HostAlert.t) (dbSession s : GameSession.t) :
  Controller.currentHostAlertState c = Some alert →
  HostAlert.title alert = ALL_SUBMIT_ALERT_TITLE →
  Controller.dbSession c = Some dbSession →
  GameSession.id dbSession ≠ "" → GameSession.id dbSession ≠ "new" →
  Db.sessions (World.db w) !! GameSession.id dbSession = Some s →
  let next := Z.min (default 0 (GameSession.current_slide_index dbSession) + 1)
                    (slides_length gameStructure 1 - 1) in
  failure (World.calls w
           ++ [SessionsUpdate (GameSession.id dbSession)
                 (Updates.only_index next)]) = None →
  let cw' := clearHostAlert gameStructure c w in
  World.calls cw'.2
  = (World.calls w
     ++ [SessionsUpdate (GameSession.id dbSession) (Updates.only_index next)])%list
  ∧ currentSlideIndex cw'.1 = Some next
  ∧ Db.sessions (World.db cw'.2) !! GameSession.id dbSession
    = Some (GameSession.with_current_slide_index (Some next) s)
  ∧ Controller.currentHostAlertState cw'.1 = None
  ∧ Controller.allTeamsAlertDismissed cw'.1 = true.
Proof.
  intros Halert Htitle Hdb Hne1 Hne2 Hs next Hf. unfold clearHostAlert.
  rewrite Halert, Hdb, Htitle. rewrite String.eqb_refl.
  fold next. rewrite (updateSession_succeeds _ _ _ _ Hne1 Hne2 Hs Hf). simpl.
  unfold currentSlideIndex. simpl. rewrite ?Hdb. simpl.
  repeat split; auto. by rewrite lookup_insert_eq.
Qed.

(** X5. A dismissed all-submitted alert does not come back by itself:
    right after [clearHostAlert] has handled that alert, whatever the store
    answered, the effect that raises the alert changes nothing, for any
    slide and even with all teams still reported as submitted. *)
Theorem dismissed_alert_does_not_reappear
    (gameStructure gameStructure' : option GameStructure.t)
    (c : Controller.t) (w : World.t) (alert : HostAlert.t) :
  Controller.currentHostAlertState c = Some alert →
  HostAlert.title alert = ALL_SUBMIT_ALERT_TITLE →
  let c' := (clearHostAlert gameStructure c w).1 in
  showAllSubmittedAlert gameStructure' c' = c'.
Proof.
  intros Halert Htitle c'. subst c'. unfold clearHostAlert.
  rewrite Halert.
  destruct (Controller.dbSession c) as [dbSession|] eqn:Hdb.
  - rewrite Htitle, String.eqb_refl.
    destruct (updateSession _ _ w) as [w1 [s'|e]]; simpl;
      unfold showAllSubmittedAlert; simpl;
      by rewrite ?andb_false_r.
  - simpl. unfold showAllSubmittedAlert. rewrite Halert. simpl.
    by rewrite ?andb_false_r.
Qed.

(** ** Host notes *)

(** X6. Host notes are optimistic and per slide: after
    [updateHostNotesForCurrentSlide notes], whatever the store answers,
    [hostNotes] for the current slide is [notes] and the notes kept for
    every other slide index are unchanged; the store receives at most one
    call, an update naming [host_notes] only, carrying the whole updated
    notes object. *)
Theorem host_notes_round_trip
    (notes : string) (hostNotesState : JsonObject)
    (c : Controller.t) (w : World.t) (dbSession : GameSession.t) (i : Z) :
  Controller.dbSession c = Some dbSession →
  GameSession.current_slide_index dbSession = Some i →
  let r := updateHostNotesForCurrentSlide notes hostNotesState c w in
  r.1 = <[toString i := notes]> hostNotesState
  ∧ hostNotes r.1 c = notes
  ∧ (∀ j, j ≠ i → r.1 !! toString j = hostNotesState !! toString j)
  ∧ (World.calls r.2 = World.calls w
     ∨ World.calls r.2
       = (World.calls w
          ++ [SessionsUpdate (GameSession.id dbSession)
                (Updates.mk None None None None None None (Some r.1)
                   None None None)])%list).
Proof.
  intros Hdb Hi r. subst r. unfold updateHostNotesForCurrentSlide, hostNotes.
  unfold currentSlideIndex. rewrite Hdb. simpl. rewrite Hi.
  set (updated := <[toString i := notes]> hostNotesState).
  set (u := Updates.mk _ _ _ _ _ _ _ _ _ _).
  assert (Hfst : (if negb (String.eqb (GameSession.id dbSession) "")
                  then (updated, (updateSession (GameSession.id dbSession) u w).1)
                  else (updated, w)).1 = updated)
    by (by destruct (negb _)).
  rewrite Hfst. split; [done|]. split; [|split].
  - subst updated. rewrite lookup_insert_eq. simpl.
    unfold or_else. by destruct (String.eqb notes "") eqn:E;
      [apply String.eqb_eq in E|].
  - intros j Hj. subst updated. rewrite lookup_insert_ne; [done|].
    intros Heq. apply Hj. symmetry. by apply (inj pretty).
  - destruct (negb _); simpl; [|by left].
    destruct (updateSession (GameSession.id dbSession) u w) as [w1 [s'|e]] eqn:E;
      simpl.
    + apply updateSession_Ok in E as (s & _ & _ & ->). by right.
    + apply updateSession_Throw in E as [_ [-> | ->]]; [by left | by right].
Qed.

(** ** Calls in flight *)

Lemma list_remove_one_subset x y l :
  x ∈ list_remove_one y l → x ∈ l.
Proof.
  induction l as [|z l IH]; simpl; [done|].
  destruct (decide (y = z)); [by right|].
  intros [->|Hin]%elem_of_cons; [by left | right; auto].
Qed.

Lemma list_remove_one_NoDup y l :
  NoDup l → NoDup (list_remove_one y l) ∧ y ∉ list_remove_one y l.
Proof.
  induction 1 as [|z l Hz Hnd [IH1 IH2]]; simpl.
  - split; [constructor | by apply not_elem_of_nil].
  - destruct (decide (y = z)) as [->|Hne]; [done|].
    split.
    + constructor; [|done]. intros Hin. by apply Hz, (list_remove_one_subset _ y).
    + intros [->|Hin]%elem_of_cons; [done | by apply IH2].
Qed.

Lemma step_one_in_flight sessionId ev cw :
  keeps_session sessionId ev →
  GameSession.id <$> Controller.dbSession cw.1 = sessionId →
  one_in_flight cw →
  GameSession.id <$> Controller.dbSession (step ev cw).1 = sessionId
  ∧ one_in_flight (step ev cw).
Proof.
  destruct cw as [c w]. unfold one_in_flight. simpl.
  intros Hev Hid [Hnd Hsub].
  destruct ev as [cs gs | sl o | init | op gs]; simpl in *.
  - unfold processConsequenceSlideAuto_begin.
    destruct cs as [slide|]; [|done]. destruct gs as [g|]; [|done].
    destruct (String.eqb (Slide.type slide) "consequence_reveal"); [|done].
    destruct (decide (Slide.id slide ∈ Controller.processedConsequenceSlidesRef c))
      as [Hproc|Hfresh]; [done|]. simpl.
    split; [done|]. split.
    + constructor; [|done]. intros Hin. by apply Hfresh, Hsub.
    + intros x [->|Hin]%elem_of_cons; [apply marked|].
      apply elem_of_union. right. by apply Hsub.
  - unfold processConsequenceSlideAuto_settle.
    destruct (decide (sl ∈ Controller.awaiting c)); [|done].
    destruct (list_remove_one_NoDup sl _ Hnd) as [Hnd' Hout].
    destruct o as [|error]; simpl.
    + split; [done|]. split; [done|].
      intros x Hin. by apply Hsub, (list_remove_one_subset _ sl).
    + split; [done|]. split; [done|].
      intros x Hin. apply elem_of_difference. split.
      * by apply Hsub, (list_remove_one_subset _ sl).
      * intros ->%elem_of_singleton. by apply Hout.
  - unfold resetProcessedOnSessionChange, adoptInitialSession.
    destruct (decide (GameSession.id <$> init ≠ GameSession.id <$> Controller.dbSession c))
      as [Hdiff|Hsame]; [congruence|].
    destruct init as [s0|]; [|done].
    destruct (Controller.dbSession c) eqn:Hdb; [by rewrite Hdb|].
    exfalso. by apply Hsame.
  - destruct (navigate_keeps_guard_state op gs c w) as (Hp & Ha & _ & Hi).
    rewrite Hp, Ha, Hi. done.
Qed.

(** X7. Within one session load, whatever succeeds or fails, no slide ever
    has two consequence-processor calls in flight at once, and a slide
    with a call in flight is marked as processed: the invariant holds
    after any sequence of evaluations, settlements (of either outcome),
    navigations and renders that keep the session identity. *)
Theorem one_call_in_flight_per_slide
    (evs : list Event) (c0 : Controller.t) (w0 : World.t) :
  one_in_flight (c0, w0) →
  Forall (keeps_session (GameSession.id <$> Controller.dbSession c0)) evs →
  one_in_flight (run evs (c0, w0)).
Proof.
  intros Hinv Hevs.
  assert (H : ∀ cw,
            GameSession.id <$> Controller.dbSession cw.1
            = GameSession.id <$> Controller.dbSession c0 →
            one_in_flight cw → one_in_flight (run evs cw)).
  { induction Hevs as [|ev evs Hev _ IH]; intros cw Hid Hcw; simpl; [done|].
    destruct (step_one_in_flight _ ev cw Hev Hid Hcw) as [Hid' Hcw'].
    by apply IH. }
  by apply H.
Qed.

(** ** Further properties of the round-data feed *)

Lemma nonempty_default `{Countable K} {V : Type} (x : gmap K V) :
  default ∅ (nonempty x) = x.
Proof. unfold nonempty. by destruct (decide (x = ∅)) as [->|]. Qed.

Lemma nonempty_lookup `{Countable K} {V : Type} (x : gmap K V) (k : K) :
  nonempty x ≫= (fun inner => inner !! k) = x !! k.
Proof.
  unfold nonempty. destruct (decide (x = ∅)) as [->|]; simpl; [|done].
  by rewrite lookup_empty.
Qed.

Lemma default_lookup `{Countable K} {V : Type}
    (o : option (gmap K V)) (k : K) :
  default ∅ o !! k = o ≫= (fun inner => inner !! k).
Proof. destruct o; simpl; [done | by rewrite lookup_empty]. Qed.

Lemma nonempty_insert `{Countable K} {V : Type} (x : gmap K V) k v :
  nonempty (<[k := v]> x) = Some (<[k := v]> x).
Proof.
  unfold nonempty. destruct (decide _) as [He|]; [|done].
  by apply insert_non_empty in He.
Qed.

(** "Create the entry if missing, write the key" in normal form. *)
Lemma ensure_then_alter_normal `{Countable K} {V : Type}
    (m : gmap string (gmap K V)) (t : string) (k : K) (v : V) :
  alter (insert k v) t
    (match m !! t with Some _ => m | None => <[t := ∅]> m end)
  = partial_alter (fun o => nonempty (<[k := v]> (default ∅ o))) t m.
Proof.
  rewrite ensure_then_alter. apply map_eq. intros j.
  rewrite lookup_insert, lookup_partial_alter.
  destruct (decide (t = j)); [|done]. by rewrite nonempty_insert.
Qed.

(** "If the entry exists, delete the key and drop the entry once empty"
    in normal form. *)
Lemma delete_then_prune_normal `{Countable K} {V : Type}
    (m : gmap string (gmap K V)) (t : string) (k : K) :
  match m !! t with
  | Some _ =>
      let m1 := alter (delete k) t m in
      if decide (size (default ∅ (m1 !! t)) = 0%nat) then delete t m1 else m1
  | None => m
  end
  = partial_alter (fun o => nonempty (delete k (default ∅ o))) t m.
Proof.
  apply map_eq. intros j. rewrite lookup_partial_alter.
  destruct (m !! t) as [inner|] eqn:E; simpl.
  - rewrite lookup_alter_eq, E. simpl. unfold nonempty.
    destruct (decide (size (delete k inner) = 0%nat)) as [Hz|Hnz].
    + apply map_size_empty_iff in Hz.
      rewrite lookup_delete. destruct (decide (t = j)).
      * by rewrite decide_True.
      * by rewrite lookup_alter_ne.
    + rewrite lookup_alter. destruct (decide (t = j)); [|done].
      rewrite E. simpl. rewrite decide_False; [done|].
      intros He. apply Hnz. by apply map_size_empty_iff.
  - destruct (decide (t = j)) as [<-|]; [|done].
    rewrite E. unfold nonempty. rewrite delete_empty. by rewrite decide_True.
Qed.

(** The handler in normal form: an event with a slot rewrites the entry of
    its team; an event without one changes nothing. *)
Lemma onRoundDataChange_normal payload prev :
  onRoundDataChange payload prev
  = match slot_of payload with
    | Some (t, _) =>
        partial_alter
          (fun o => nonempty (inner_change payload (default ∅ o))) t prev
    | None => prev
    end.
Proof.
  destruct payload as [n | n old | old]; simpl.
  - apply ensure_then_alter_normal.
  - apply ensure_then_alter_normal.
  - unfold deep_clone.
    destruct (PartialRoundData.team_id old) as [t|]; [|done].
    destruct (PartialRoundData.round_number old) as [r|]; [|done].
    destruct (negb (String.eqb t "") && negb (r =? 0)); [|done].
    apply (delete_then_prune_normal prev t r).
Qed.

Lemma slot_of_round payload t r :
  slot_of payload = Some (t, r) →
  (∀ inner k, k ≠ r → inner_change payload inner !! k = inner !! k)
  ∧ (∀ inner inner', inner_change payload inner !! r
                     = inner_change payload inner' !! r).
Proof.
  destruct payload as [n | n old | old]; simpl.
  - intros [= <- <-]. split.
    + intros inner k Hk. by rewrite lookup_insert_ne.
    + intros inner inner'. by rewrite !lookup_insert_eq.
  - intros [= <- <-]. split.
    + intros inner k Hk. by rewrite lookup_insert_ne.
    + intros inner inner'. by rewrite !lookup_insert_eq.
  - destruct (PartialRoundData.team_id old) as [t0|]; [|done].
    destruct (PartialRoundData.round_number old) as [r0|]; [|done].
    destruct (negb (String.eqb t0 "") && negb (r0 =? 0)); [|done].
    intros [= <- <-]. split.
    + intros inner k Hk. by rewrite lookup_delete_ne.
    + intros inner inner'. by rewrite !lookup_delete_eq.
Qed.

(** Two changes to one key: the later one decides. *)
Lemma inner_change_same p1 p2 t r inner :
  slot_of p1 = Some (t, r) → slot_of p2 = Some (t, r) →
  inner_change p2 (inner_change p1 inner) = inner_change p2 inner.
Proof.
  intros H1 H2. apply map_eq. intros k.
  destruct (slot_of_round _ _ _ H1) as [Hne1 _].
  destruct (slot_of_round _ _ _ H2) as [Hne2 Heq2].
  destruct (decide (k = r)) as [->|Hk].
  - apply Heq2.
  - by rewrite !Hne2, Hne1.
Qed.

(** Changes to two keys commute. *)
Lemma inner_change_comm p1 p2 t r1 r2 inner :
  slot_of p1 = Some (t, r1) → slot_of p2 = Some (t, r2) → r1 ≠ r2 →
  inner_change p1 (inner_change p2 inner)
  = inner_change p2 (inner_change p1 inner).
Proof.
  intros H1 H2 Hr. apply map_eq. intros k.
  destruct (slot_of_round _ _ _ H1) as [Hne1 Heq1].
  destruct (slot_of_round _ _ _ H2) as [Hne2 Heq2].
  destruct (decide (k = r1)) as [->|Hk1].
  - rewrite (Hne2 _ r1) by done. apply Heq1.
  - rewrite (Hne1 _ k) by done.
    destruct (decide (k = r2)) as [->|Hk2].
    + apply Heq2.
    + by rewrite !Hne2, Hne1.
Qed.

Lemma onRoundDataChange_comm p1 p2 prev :
  slot_of p1 ≠ slot_of p2 ∨ slot_of p1 = None →
  onRoundDataChange p1 (onRoundDataChange p2 prev)
  = onRoundDataChange p2 (onRoundDataChange p1 prev).
Proof.
  intros Hslots. rewrite !onRoundDataChange_normal.
  destruct (slot_of p1) as [[t1 r1]|] eqn:H1; [|done].
  destruct (slot_of p2) as [[t2 r2]|] eqn:H2; [|done].
  destruct Hslots as [Hne|]; [|done].
  destruct (decide (t1 = t2)) as [->|Ht].
  - rewrite !partial_alter_partial_alter_eq.
    apply partial_alter_ext. intros o _. simpl.
    rewrite !nonempty_default. f_equal.
    apply (inner_change_comm p1 p2 t2 r1 r2); [done | done | congruence].
  - by apply partial_alter_partial_alter_ne.
Qed.

(** X8. A delete event of the round-data feed whose old row carries a
    non-empty team and a non-zero round removes exactly that (team, round)
    slot: every other slot reads as before, and the team's entry
    disappears exactly when no other round of the team is left. *)
Theorem feed_delete_removes_its_slot
    (old : PartialRoundData.t) (t : string) (r : Z)
    (prev : gmap string (gmap Z TeamRoundData.t)) :
  PartialRoundData.team_id old = Some t →
  PartialRoundData.round_number old = Some r →
  t ≠ "" → r ≠ 0 →
  let updated := onRoundDataChange (DELETE old) prev in
  (∀ t' r', at_key updated t' r'
            = if decide ((t', r') = (t, r)) then None else at_key prev t' r')
  ∧ (updated !! t = None ↔ ∀ r', r' ≠ r → at_key prev t r' = None).
Proof.
  intros Ht Hr Hne Hr0 updated. subst updated.
  assert (Hslot : slot_of (DELETE old) = Some (t, r)).
  { simpl. rewrite Ht, Hr.
    apply String.eqb_neq in Hne. apply Z.eqb_neq in Hr0.
    by rewrite Hne, Hr0. }
  rewrite onRoundDataChange_normal, Hslot. simpl. rewrite Hr. split.
  - intros t' r'. unfold at_key. rewrite lookup_partial_alter.
    destruct (decide (t = t')) as [<-|Hneq].
    + rewrite nonempty_lookup, lookup_delete.
      destruct (decide (r = r')) as [<-|Hrr].
      * by rewrite decide_True.
      * rewrite decide_False by congruence. apply default_lookup.
    + by rewrite decide_False by congruence.
  - rewrite lookup_partial_alter_eq. unfold nonempty, at_key.
    destruct (decide (delete r (default ∅ (prev !! t)) = ∅)) as [He|Hn].
    + split; [|done]. intros _ r' Hr'.
      rewrite <- default_lookup, <- (lookup_delete_ne _ r r') by done.
      by rewrite He, lookup_empty.
    + split; [done|]. intros Hall. exfalso. apply Hn.
      apply map_eq. intros k. rewrite lookup_empty, lookup_delete.
      destruct (decide (r = k)); [done|].
      rewrite default_lookup. by apply Hall.
Qed.

(** X9. A delete event whose old row lacks the team or the round, or
    carries the empty team name or round 0 (falsy in the handler's test),
    is ignored: the projection is returned as it was, even when it holds a
    row in that very slot. *)
Theorem feed_delete_without_truthy_key_is_ignored
    (old : PartialRoundData.t)
    (prev : gmap string (gmap Z TeamRoundData.t)) :
  truthy (PartialRoundData.team_id old) = false
  ∨ PartialRoundData.round_number old = None
  ∨ PartialRoundData.round_number old = Some 0 →
  onRoundDataChange (DELETE old) prev = prev.
Proof.
  intros Hfalsy. simpl. unfold deep_clone.
  destruct (PartialRoundData.team_id old) as [t|]; [|done].
  destruct (PartialRoundData.round_number old) as [r|]; [|done].
  destruct Hfalsy as [Ht | [Hr | Hr]].
  - simpl in Ht. apply negb_false_iff in Ht. by rewrite Ht.
  - discriminate.
  - injection Hr as ->. by rewrite andb_false_r.
Qed.

(** X10. Last write wins on a slot: of two feed events addressing the same
    slot (or both ignored), the later one alone determines the projection;
    in particular a duplicated delivery of any event changes nothing. *)
Theorem feed_later_event_on_slot_wins
    (p1 p2 : RoundDataPayload)
    (prev : gmap string (gmap Z TeamRoundData.t)) :
  slot_of p1 = slot_of p2 →
  onRoundDataChange p2 (onRoundDataChange p1 prev) = onRoundDataChange p2 prev
  ∧ onRoundDataChange p2 (onRoundDataChange p2 prev) = onRoundDataChange p2 prev.
Proof.
  assert (Hgen : ∀ q1 q2, slot_of q1 = slot_of q2 →
            onRoundDataChange q2 (onRoundDataChange q1 prev)
            = onRoundDataChange q2 prev).
  { intros q1 q2 Hs. rewrite !onRoundDataChange_normal. rewrite Hs.
    destruct (slot_of q2) as [[t r]|] eqn:H2; [|done].
    rewrite partial_alter_partial_alter_eq. apply partial_alter_ext.
    intros o _. simpl. rewrite nonempty_default. f_equal.
    by apply (inner_change_same q1 q2 t r). }
  intros Hs. split; [by apply Hgen | by apply Hgen].
Qed.

(** X11. Feed events on distinct slots commute, whatever their kinds
    (insert, update or delete), and an ignored event commutes with every
    event. *)
Theorem feed_events_on_distinct_slots_commute
    (p1 p2 : RoundDataPayload)
    (prev : gmap string (gmap Z TeamRoundData.t)) :
  slot_of p1 ≠ slot_of p2 ∨ slot_of p1 = None ∨ slot_of p2 = None →
  onRoundDataChange p1 (onRoundDataChange p2 prev)
  = onRoundDataChange p2 (onRoundDataChange p1 prev).
Proof.
  intros [Hne | [H1 | H2]].
  - apply onRoundDataChange_comm. by left.
  - apply onRoundDataChange_comm. by right.
  - symmetry. apply onRoundDataChange_comm. by right.
Qed.

Lemma replay_app evs1 evs2 prev :
  replay (evs1 ++ evs2) prev = replay evs2 (replay evs1 prev).
Proof. apply fold_left_app. Qed.

(** X12. Delivery order does not matter across slots: two sequences of
    feed events that are permutations of each other, with no slot
    addressed twice, lead from the same projection to the same
    projection. *)
Theorem feed_replay_order_independent
    (evs evs' : list RoundDataPayload)
    (prev : gmap string (gmap Z TeamRoundData.t)) :
  evs ≡ₚ evs' →
  NoDup (omap slot_of evs) →
  replay evs prev = replay evs' prev.
Proof.
  intros Hperm. revert prev.
  induction Hperm as [|p l l' Hp IH|p1 p2 l|l l' l'' Hp1 IH1 Hp2 IH2];
    intros prev Hnd.
  - done.
  - simpl. apply IH. simpl in Hnd.
    destruct (slot_of p); [by apply NoDup_cons in Hnd as [_ ?] | done].
  - simpl. f_equal. apply onRoundDataChange_comm.
    simpl in Hnd.
    destruct (slot_of p1) as [s1|] eqn:H1; [|by right].
    destruct (slot_of p2) as [s2|] eqn:H2; [|by left].
    left. intros [= ->].
    apply NoDup_cons in Hnd as [Hnotin _]. apply Hnotin. by left.
  - rewrite IH1 by done. apply IH2.
    by rewrite <- (omap_Permutation slot_of _ _ Hp1).
Qed.

(** X13. Undo: on a projection without empty team entry, an insert into a
    free slot (non-empty team, non-zero round) followed by the delete of
    that slot gives the projection back. *)
Theorem feed_insert_then_delete_restores
    (new : TeamRoundData.t) (old : PartialRoundData.t)
    (prev : gmap string (gmap Z TeamRoundData.t)) :
  PartialRoundData.team_id old = Some (TeamRoundData.team_id new) →
  PartialRoundData.round_number old = Some (TeamRoundData.round_number new) →
  TeamRoundData.team_id new ≠ "" → TeamRoundData.round_number new ≠ 0 →
  at_key prev (TeamRoundData.team_id new) (TeamRoundData.round_number new) = None →
  no_empty_entry prev →
  onRoundDataChange (DELETE old) (onRoundDataChange (INSERT new) prev) = prev.
Proof.
  intros Ht Hr Hne Hr0 Hfree Hinv.
  assert (Hslot : slot_of (DELETE old) = Some (slot new)).
  { simpl. rewrite Ht, Hr.
    apply String.eqb_neq in Hne. apply Z.eqb_neq in Hr0.
    by rewrite Hne, Hr0. }
  rewrite !onRoundDataChange_normal, Hslot. simpl. rewrite Hr.
  rewrite partial_alter_partial_alter_eq. apply partial_alter_id. simpl.
  rewrite nonempty_default, delete_insert_eq.
  unfold at_key in Hfree.
  destruct (prev !! TeamRoundData.team_id new) as [inner|] eqn:E; simpl in *.
  - rewrite delete_id by done. unfold nonempty.
    rewrite decide_False; [done|]. intros ->. by apply (Hinv _ E).
  - rewrite delete_empty. unfold nonempty. by rewrite decide_True.
Qed.

Lemma addRoundData_upsert acc rd : addRoundData acc rd = upsertRoundData rd acc.
Proof. reflexivity. Qed.

(** X14. A reload and a replay agree: the projection
    [fetchTeamRoundDataForSession] builds from a list of rows is the one
    the feed handler reaches from the empty projection on the insert
    events of those rows, in the same order. *)
Theorem round_data_reload_is_replay_of_inserts (data : list TeamRoundData.t) :
  structureRoundData data = replay (INSERT <$> data) ∅.
Proof.
  unfold structureRoundData, replay.
  generalize (∅ : gmap string (gmap Z TeamRoundData.t)).
  induction data as [|rd data IH]; intros acc; simpl; [done|].
  rewrite IH. f_equal.
Qed.

(** ** Invariant: no empty team entry *)

Lemma partial_alter_nonempty_no_empty `{Countable K} {V : Type}
    (h : gmap K V → gmap K V) (t : string) (m : gmap string (gmap K V)) :
  no_empty_entry m →
  no_empty_entry (partial_alter (fun o => nonempty (h (default ∅ o))) t m).
Proof.
  intros Hinv t'. rewrite lookup_partial_alter.
  destruct (decide (t = t')); [|apply Hinv].
  unfold nonempty. destruct (decide _); [done|]. congruence.
Qed.

Lemma removeDecision_normal teamId phaseId prev :
  removeDecision teamId phaseId prev
  = if decide (is_Some (at_key prev teamId phaseId))
    then partial_alter
           (fun o => nonempty (delete phaseId (default ∅ o))) teamId prev
    else prev.
Proof.
  unfold removeDecision, deep_clone, at_key.
  destruct (prev !! teamId) as [phases|] eqn:Hp; simpl.
  - destruct (phases !! phaseId) as [d|] eqn:Hd.
    + rewrite (decide_True (P := is_Some (Some d))) by eauto.
      rewrite <- delete_then_prune_normal. by rewrite Hp.
    + rewrite decide_False; [done|]. by intros [? ?].
  - done.
Qed.

Lemma addDecision_normal acc d :
  addDecision acc d
  = partial_alter
      (fun o => nonempty (<[TeamDecision.phase_id d := d]> (default ∅ o)))
      (TeamDecision.team_id d) acc.
Proof. apply ensure_then_alter_normal. Qed.

Lemma no_empty_entry_empty `{Countable K} {V : Type} :
  no_empty_entry (∅ : gmap string (gmap K V)).
Proof. intros t. by rewrite lookup_empty. Qed.

Lemma onRoundDataChange_no_empty payload prev :
  no_empty_entry prev → no_empty_entry (onRoundDataChange payload prev).
Proof.
  intros Hinv. rewrite onRoundDataChange_normal.
  destruct (slot_of payload) as [[t r]|]; [|done].
  by apply (partial_alter_nonempty_no_empty (inner_change payload)).
Qed.

(** ** The reset of one phase, from end to end *)

(** Two projections without empty team entry that show the same record
    under every (team, key) are the same projection. *)
Lemma no_empty_entry_ext `{Countable K} {V : Type}
    (m1 m2 : gmap string (gmap K V)) :
  no_empty_entry m1 → no_empty_entry m2 →
  (∀ t k, at_key m1 t k = at_key m2 t k) → m1 = m2.
Proof.
  intros H1 H2 Hk. apply map_eq. intros t.
  specialize (H1 t). specialize (H2 t). pose proof (Hk t) as Ht.
  unfold at_key in Ht.
  destruct (m1 !! t) as [i1|] eqn:E1, (m2 !! t) as [i2|] eqn:E2; simpl in Ht.
  - f_equal. apply map_eq. exact Ht.
  - destruct (decide (i1 = ∅)) as [->|Hne]; [done|].
    apply map_choose in Hne as (k & v & Hkv). specialize (Ht k). congruence.
  - destruct (decide (i2 = ∅)) as [->|Hne]; [done|].
    apply map_choose in Hne as (k & v & Hkv). specialize (Ht k). congruence.
  - done.
Qed.

Lemma structureDecisions_no_empty data : no_empty_entry (structureDecisions data).
Proof.
  unfold structureDecisions.
  assert (H : ∀ acc, no_empty_entry acc →
            no_empty_entry (fold_left addDecision data acc)).
  { induction data as [|d data IH]; intros acc Hacc; simpl; [done|].
    apply IH. rewrite addDecision_normal.
    by apply (partial_alter_nonempty_no_empty
                (insert (TeamDecision.phase_id d) d)). }
  apply H, no_empty_entry_empty.
Qed.

Lemma removeDecision_no_empty teamId phaseId prev :
  no_empty_entry prev → no_empty_entry (removeDecision teamId phaseId prev).
Proof.
  intros Hinv. rewrite removeDecision_normal.
  destruct (decide _); [|done].
  by apply (partial_alter_nonempty_no_empty (delete phaseId)).
Qed.

(** Reloading after the phase-scoped delete shows what the updater makes of
    a reload before it. *)
Lemma reload_after_delete_is_removeDecision sessionId teamId phaseId
    (rows : list TeamDecision.t) :
  structureDecisions
    (filter (fun d => TeamDecision.session_id d = sessionId)
       (filter (fun d => ¬ (TeamDecision.session_id d = sessionId
                            ∧ TeamDecision.team_id d = teamId
                            ∧ TeamDecision.phase_id d = phaseId)) rows))
  = removeDecision teamId phaseId
      (structureDecisions
         (filter (fun d => TeamDecision.session_id d = sessionId) rows)).
Proof.
  apply no_empty_entry_ext.
  - apply structureDecisions_no_empty.
  - apply removeDecision_no_empty, structureDecisions_no_empty.
  - intros t k. rewrite at_key_removeDecision. unfold structureDecisions.
    rewrite !at_key_fold_addDecision.
    change (at_key ∅ t k) with (@None TeamDecision.t).
    destruct (decide (t = teamId ∧ k = phaseId)) as [[-> ->]|Hne].
    + apply latest_absent. intros d Hin [Hdt Hdp].
      apply list_elem_of_filter in Hin as [Hds Hin].
      apply list_elem_of_filter in Hin as [Hkey _].
      apply Hkey. auto.
    + rewrite filter_comm. apply latest_filter.
      intros d Hdt Hdk _ (_ & Ht & Hp). apply Hne. split; congruence.
Qed.

(** C3. Resetting phase [p] of a team, with non-empty identifiers and the
    store performing the phase-scoped delete.  The local update of the
    call, shown until the reload is answered, removes from the decisions
    projection the record keyed (team, [p]) and no other: the record keyed
    (team, [q]), [q ≠ p], and the records of other teams are what they
    were, and the team's entry goes exactly when [p] was its only phase.
    The call then returns normally with the projection the reload leaves:
    when the session is not 'new' and the reload succeeds, nothing under
    (team, [p]), under (team, [q]) what the store held there before the
    reset, and the locally updated projection itself whenever the
    projection reflected the store before the reset; when the session is
    'new' or the reload fails, the empty projection. *)
Theorem resetDecision_is_phase_exact
    (sessionId teamId p q : string) (t : TeamData.t) (w : World.t) :
  p ≠ q →
  sessionId ≠ "" → teamId ≠ "" → p ≠ "" →
  failure (World.calls w ++ [DecisionsDelete sessionId teamId p]) = None →
  let prev := TeamData.teamDecisions t in
  ∃ t1 w1,
    resetTeamDecisionInDb_begin sessionId teamId p t w = (t1, w1, Ok tt)
    ∧ resetTeamDecisionInDb sessionId teamId p t w
      = (fetchTeamDecisionsForSession sessionId t1 w1, Ok tt)
    ∧ (at_key (TeamData.teamDecisions t1) teamId q = at_key prev teamId q
       ∧ at_key (TeamData.teamDecisions t1) teamId p = None
       ∧ (∀ t' k, t' ≠ teamId →
            at_key (TeamData.teamDecisions t1) t' k = at_key prev t' k)
       ∧ (∀ phases, prev !! teamId = Some phases →
            TeamData.teamDecisions t1 !! teamId
            = if decide (is_Some (phases !! p) ∧ delete p phases = ∅)
              then None
              else Some (delete p phases)))
    ∧ (sessionId ≠ "new" →
       failure (World.calls w ++ [DecisionsDelete sessionId teamId p]
                ++ [DecisionsGetBySession sessionId]) = None →
       let reloaded :=
         TeamData.teamDecisions
           (fetchTeamDecisionsForSession sessionId t1 w1).1 in
       at_key reloaded teamId p = None
       ∧ at_key reloaded teamId q
         = at_key (structureDecisions
                     (filter (fun d => TeamDecision.session_id d = sessionId)
                        (Db.decisions (World.db w)))) teamId q
       ∧ (reflects_store sessionId t w →
          reloaded = TeamData.teamDecisions t1
          ∧ at_key reloaded teamId q = at_key prev teamId q))
    ∧ (sessionId = "new"
       ∨ is_Some (failure (World.calls w ++ [DecisionsDelete sessionId teamId p]
                           ++ [DecisionsGetBySession sessionId])) →
       TeamData.teamDecisions
         (fetchTeamDecisionsForSession sessionId t1 w1).1 = ∅).
Proof.
  intros Hpq Hs Ht Hp Hdel prev.
  apply String.eqb_neq in Hs as Hs', Ht as Ht', Hp as Hp'.
  assert (Hbegin :
    resetTeamDecisionInDb_begin sessionId teamId p t w
    = (TeamData.with_teamDecisions (removeDecision teamId p prev) t,
       (db_decisions_delete sessionId teamId p w).1, Ok tt)).
  { unfold resetTeamDecisionInDb_begin. rewrite Hs', Ht', Hp'. simpl.
    unfold db_decisions_delete, issue. simpl. by rewrite Hdel. }
  eexists _, _. split; [exact Hbegin|].
  split.
  { unfold resetTeamDecisionInDb. rewrite Hbegin.
    by destruct (fetchTeamDecisionsForSession _ _ _). }
  assert (Hlocal_q :
    at_key (removeDecision teamId p prev) teamId q = at_key prev teamId q).
  { rewrite at_key_removeDecision.
    rewrite decide_False; [done|]. intros [_ ->]. by apply Hpq. }
  split; [|split].
  - simpl. split; [exact Hlocal_q|]. split; [|split].
    + rewrite at_key_removeDecision. by rewrite decide_True.
    + intros t' k Hne. rewrite at_key_removeDecision.
      rewrite decide_False; [done|]. intros [-> _]. by apply Hne.
    + intros phases Hphases. by apply removeDecision_team.
  - intros Hnew Hget. apply String.eqb_neq in Hnew as Hnew'.
    unfold fetchTeamDecisionsForSession. rewrite Hs', Hnew'. simpl.
    unfold db_decisions_delete, db_decisions_getBySession, issue. simpl.
    rewrite Hdel. simpl. rewrite <- app_assoc, Hget. simpl.
    rewrite reload_after_delete_is_removeDecision.
    split; [|split].
    + rewrite at_key_removeDecision. by rewrite decide_True.
    + rewrite at_key_removeDecision.
      rewrite decide_False; [done|]. intros [_ ->]. by apply Hpq.
    + unfold reflects_store. fold prev. intros <-. by split.
  - intros Hcause. unfold fetchTeamDecisionsForSession.
    destruct Hcause as [-> | [e He]]; [reflexivity|].
    rewrite Hs'. destruct (String.eqb sessionId "new"); [reflexivity|]. simpl.
    unfold db_decisions_delete, db_decisions_getBySession, issue. simpl.
    rewrite Hdel. simpl. rewrite <- app_assoc, He. reflexivity.
Qed.

(** X15. Neither projection ever holds a team without entries: the
    projections built by a reload have no empty team entry, and a feed
    event and the reset updater keep it that way. *)
Theorem projections_have_no_empty_entry :
  (∀ data, no_empty_entry (structureDecisions data))
  ∧ (∀ data, no_empty_entry (structureRoundData data))
  ∧ (∀ payload prev,
       no_empty_entry prev → no_empty_entry (onRoundDataChange payload prev))
  ∧ (∀ teamId phaseId prev,
       no_empty_entry prev → no_empty_entry (removeDecision teamId phaseId prev)).
Proof.
  split; [|split; [|split]].
  - intros data. unfold structureDecisions.
    assert (H : ∀ acc, no_empty_entry acc →
              no_empty_entry (fold_left addDecision data acc)).
    { induction data as [|d data IH]; intros acc Hacc; simpl; [done|].
      apply IH. rewrite addDecision_normal.
      by apply (partial_alter_nonempty_no_empty
                  (insert (TeamDecision.phase_id d) d)). }
    apply H, no_empty_entry_empty.
  - intros data. unfold structureRoundData.
    assert (H : ∀ acc, no_empty_entry acc →
              no_empty_entry (fold_left addRoundData data acc)).
    { induction data as [|rd data IH]; intros acc Hacc; simpl; [done|].
      apply IH. rewrite addRoundData_upsert.
      rewrite <- (onRoundDataChange_upsert (INSERT rd)) by done.
      by apply onRoundDataChange_no_empty. }
    apply H, no_empty_entry_empty.
  - apply onRoundDataChange_no_empty.
  - intros teamId phaseId prev Hinv. rewrite removeDecision_normal.
    destruct (decide _); [|done].
    by apply (partial_alter_nonempty_no_empty (delete phaseId)).
Qed.

(** ** Further properties of the decisions projection *)

Lemma latest_snoc t q data x r :
  latest t q (data ++ [x]) r
  = if decide (t = TeamDecision.team_id x ∧ q = TeamDecision.phase_id x)
    then Some x
    else latest t q data r.
Proof. unfold latest. by rewrite fold_left_app. Qed.

(** X16. What a reload shows: under (team, phase) the projection built by
    [fetchTeamDecisionsForSession] holds a row exactly when the fetched
    rows contain one with that team and phase; the row shown is one of
    them, and it is the last such row of the list. *)
Theorem reload_shows_last_row_of_each_key
    (data : list TeamDecision.t) (t q : string) :
  (∀ d, at_key (structureDecisions data) t q = Some d →
        d ∈ data ∧ TeamDecision.team_id d = t ∧ TeamDecision.phase_id d = q)
  ∧ (is_Some (at_key (structureDecisions data) t q)
     ↔ ∃ d, d ∈ data ∧ TeamDecision.team_id d = t ∧ TeamDecision.phase_id d = q)
  ∧ (∀ (before : list TeamDecision.t) d after,
       data = (before ++ d :: after)%list →
       TeamDecision.team_id d = t → TeamDecision.phase_id d = q →
       (∀ d', d' ∈ after →
              ¬ (TeamDecision.team_id d' = t ∧ TeamDecision.phase_id d' = q)) →
       at_key (structureDecisions data) t q = Some d).
Proof.
  unfold structureDecisions. rewrite at_key_fold_addDecision.
  change (at_key ∅ t q) with (@None TeamDecision.t).
  assert (Hsound : ∀ l d, latest t q l None = Some d →
            d ∈ l ∧ TeamDecision.team_id d = t ∧ TeamDecision.phase_id d = q).
  { induction l as [|x l IH] using rev_ind; intros d; [done|].
    rewrite latest_snoc. destruct (decide _) as [[-> ->]|_].
    - intros [= ->]. split; [|done]. apply elem_of_app. right. by left.
    - intros H. destruct (IH d H) as (Hin & ? & ?). split; [|done].
      apply elem_of_app. by left. }
  assert (Hlast : ∀ (before : list TeamDecision.t) d after,
            TeamDecision.team_id d = t → TeamDecision.phase_id d = q →
            (∀ d', d' ∈ after →
               ¬ (TeamDecision.team_id d' = t ∧ TeamDecision.phase_id d' = q)) →
            latest t q (before ++ d :: after) None = Some d).
  { intros before d after Ht Hq Hafter.
    unfold latest. rewrite fold_left_app. simpl.
    rewrite decide_True by done.
    by apply (latest_absent t q after (Some d)). }
  split; [apply Hsound|]. split.
  - split.
    + intros [d Hd]. exists d. by apply Hsound.
    + intros (d & Hin & Ht & Hq).
      induction data as [|x l IH] using rev_ind;
        [by apply not_elem_of_nil in Hin|].
      rewrite latest_snoc. destruct (decide _) as [_|Hno]; [eauto|].
      apply IH. apply elem_of_app in Hin as [Hin|Hin]; [done|].
      apply list_elem_of_singleton in Hin as ->. exfalso. by apply Hno.
  - intros before d after -> Ht Hq Hafter. by apply Hlast.
Qed.

(** X17. A reset that fails leaves everything in place: when
    [resetTeamDecisionInDb] throws (an identifier is empty, or the store's
    delete fails), the hook's state and the store are as before, the
    decisions are not reloaded, and at most the delete was issued. *)
Theorem failed_reset_changes_nothing
    (sessionId teamId phaseId : string) (t : TeamData.t) (w : World.t)
    (e : Thrown) :
  (resetTeamDecisionInDb sessionId teamId phaseId t w).2 = Throw e →
  let t' := (resetTeamDecisionInDb sessionId teamId phaseId t w).1.1 in
  let w' := (resetTeamDecisionInDb sessionId teamId phaseId t w).1.2 in
  t' = t
  ∧ World.db w' = World.db w
  ∧ (World.calls w' = World.calls w
     ∨ World.calls w'
       = (World.calls w ++ [DecisionsDelete sessionId teamId phaseId])%list)
  ∧ ((sessionId = "" ∨ teamId = "" ∨ phaseId = "") ∧
       e = ErrorObj "Missing session, team, or phase ID for reset."
     ∨ ∃ err,
         failure (World.calls w ++ [DecisionsDelete sessionId teamId phaseId])
         = Some err
         ∧ e = ErrorObj ("Failed to reset decision: " ++ formatSupabaseError err)).
Proof.
  unfold resetTeamDecisionInDb, resetTeamDecisionInDb_begin.
  destruct (String.eqb sessionId "" || String.eqb teamId ""
            || String.eqb phaseId "") eqn:Hids.
  - simpl. intros [= <-]. repeat split; auto. left. split; [|done].
    apply orb_true_iff in Hids as [Hids|Hp].
    + apply orb_true_iff in Hids as [Hs|Ht].
      * left. by apply String.eqb_eq.
      * right. left. by apply String.eqb_eq.
    + right. right. by apply String.eqb_eq.
  - unfold db_decisions_delete, issue. simpl.
    destruct (failure _) as [err|] eqn:Hf.
    + simpl. intros [= <-]. repeat split; auto. right. eauto.
    + destruct (fetchTeamDecisionsForSession _ _ _) as [t2 w2]. discriminate.
Qed.

(** X18. Resets compose: resetting the same (team, phase) twice is the
    same as once, and resets of two different keys give the same
    projection in either order. *)
Theorem removeDecision_idempotent_and_commutes
    (t1 p1 t2 p2 : string)
    (prev : gmap string (gmap string TeamDecision.t)) :
  removeDecision t1 p1 (removeDecision t1 p1 prev) = removeDecision t1 p1 prev
  ∧ ((t1, p1) ≠ (t2, p2) →
     removeDecision t1 p1 (removeDecision t2 p2 prev)
     = removeDecision t2 p2 (removeDecision t1 p1 prev)).
Proof.
  split.
  - rewrite (removeDecision_normal t1 p1 (removeDecision t1 p1 prev)).
    rewrite at_key_removeDecision.
    rewrite (decide_True (P := t1 = t1 ∧ p1 = p1)) by done.
    rewrite decide_False; [done|]. by intros [? ?].
  - intros Hne.
    rewrite (removeDecision_normal t1 p1 (removeDecision t2 p2 prev)).
    rewrite (removeDecision_normal t2 p2 (removeDecision t1 p1 prev)).
    rewrite !at_key_removeDecision.
    rewrite (decide_False (P := t1 = t2 ∧ p1 = p2)) by (intros [-> ->]; done).
    rewrite (decide_False (P := t2 = t1 ∧ p2 = p1)) by (intros [-> ->]; done).
    rewrite !removeDecision_normal.
    destruct (decide (is_Some (at_key prev t1 p1))) as [H1|H1];
      destruct (decide (is_Some (at_key prev t2 p2))) as [H2|H2]; try done.
    destruct (decide (t1 = t2)) as [->|Ht].
    + rewrite !partial_alter_partial_alter_eq. apply partial_alter_ext.
      intros o _. simpl. rewrite !nonempty_default. f_equal.
      apply delete_delete.
    + by apply partial_alter_partial_alter_ne.
Qed.

(** ** Further properties of [GameSessionManager] *)

(** The creations do not look at the draw counter. *)
Lemma create_all_draw_n rows k w :
  create_all rows (draw_n k w)
  = (draw_n k (create_all rows w).1, (create_all rows w).2).
Proof.
  revert w. induction rows as [|row rows IH]; intros w; simpl; [done|].
  unfold db_teams_create, issue. simpl.
  destruct (failure (World.calls w ++ [TeamsCreate row])); simpl.
  - change (World.log (TeamsCreate row) (draw_n k w))
      with (draw_n k (World.log (TeamsCreate row) w)).
    rewrite IH. by destruct (create_all rows _).
  - set (w1 := World.with_db _ (World.log _ w)).
    change (World.with_db _ (World.log (TeamsCreate row) (draw_n k w)))
      with (draw_n k w1).
    rewrite IH. by destruct (create_all rows _).
Qed.

(** The provisioning block shared by [finalizeDraftSession] and
    [createSession], once the session step has succeeded in world [w1]
    with session [s]: it is [create_all] on [provision_rows]. *)
Lemma provisioning_effect sessionId data w1 (s : GameSession.t)
    (wrap : Thrown → Result GameSession.t) :
  let block :=
    if 0 <? Z.of_nat (length (default [] (NewGameData.teams_config data))) then
      match create_all
              (map (fun teamConfig =>
                      TeamInsert.mk sessionId (TeamConfig.name teamConfig)
                        (TeamConfig.passcode teamConfig))
                 (default [] (NewGameData.teams_config data))) w1 with
      | (w2, Resolved) => (w2, Ok s)
      | (w2, Rejected error) => (w2, wrap error)
      end
    else if 0 <? NewGameData.num_teams data then
      match create_all
              (array_from_length_map (NewGameData.num_teams data)
                 (default_team sessionId (World.draws w1)))
              (draw_n (length (array_from_length_map (NewGameData.num_teams data)
                                 (default_team sessionId (World.draws w1)))) w1) with
      | (w2, Resolved) => (w2, Ok s)
      | (w2, Rejected error) => (w2, wrap error)
      end
    else (w1, Ok s) in
  let done_ := create_all (provision_rows sessionId data (World.draws w1)) w1 in
  World.calls block.1 = World.calls done_.1
  ∧ World.db block.1 = World.db done_.1
  ∧ block.2 = match done_.2 with Resolved => Ok s | Rejected e => wrap e end.
Proof.
  intros block done_. subst block done_.
  unfold provision_rows, configured_teams.
  destruct (0 <? Z.of_nat (length (default [] (NewGameData.teams_config data)))).
  - by destruct (create_all _ w1) as [w2 [|e]].
  - destruct (0 <? NewGameData.num_teams data); [|done].
    rewrite create_all_draw_n.
    by destruct (create_all _ w1) as [w2 [|e]].
Qed.

Lemma finalizeDraftSession_after_update sessionId data w s :
  sessionId ≠ "" → sessionId ≠ "new" →
  Db.sessions (World.db w) !! sessionId = Some s →
  failure (World.calls w ++ [SessionsUpdate sessionId (finalize_updates data)])
  = None →
  let s' := apply_updates (finalize_updates data) s in
  let w1 := World.with_db
              (Db.with_sessions (<[sessionId := s']> (Db.sessions (World.db w)))
                 (World.db w))
              (World.log (SessionsUpdate sessionId (finalize_updates data)) w) in
  let done_ := create_all (provision_rows sessionId data (World.draws w)) w1 in
  let r := finalizeDraftSession sessionId data w in
  World.calls r.1 = World.calls done_.1
  ∧ World.db r.1 = World.db done_.1
  ∧ r.2 = match done_.2 with
          | Resolved => Ok s'
          | Rejected e => Throw (finalize_error e)
          end.
Proof.
  intros Hne1 Hne2 Hs Hf s' w1 done_ r. subst r.
  unfold finalizeDraftSession. fold (finalize_updates data).
  rewrite (updateSession_succeeds _ _ _ _ Hne1 Hne2 Hs Hf).
  apply (provisioning_effect sessionId data w1 s'
           (fun e => Throw (finalize_error e))).
Qed.

Lemma array_from_length_map_lookup {A} (n : Z) (f : Z → A) (i : nat) :
  (i < Z.to_nat n)%nat →
  array_from_length_map n f !! i = Some (f (Z.of_nat i)).
Proof.
  intros Hi. unfold array_from_length_map.
  change (map ?g ?l) with (g <$> l).
  by rewrite list_lookup_fmap, lookup_seq_lt.
Qed.

Lemma array_from_length_map_length {A} (n : Z) (f : Z → A) :
  length (array_from_length_map n f) = Z.to_nat n.
Proof. unfold array_from_length_map. by rewrite length_map, length_seq. Qed.

Lemma updateSession_fails sessionId updates w :
  sessionId = "" ∨ sessionId = "new"
  ∨ Db.sessions (World.db w) !! sessionId = None
  ∨ is_Some (failure (World.calls w ++ [SessionsUpdate sessionId updates])) →
  ∃ e, (updateSession sessionId updates w).2 = Throw e.
Proof.
  intros [-> | [-> | [Hnone | [e He]]]]; unfold updateSession;
    [simpl; eauto | simpl; eauto | |];
    destruct (String.eqb sessionId "" || String.eqb sessionId "new")%bool;
    simpl; eauto; unfold db_sessions_update, issue; simpl.
  - destruct (failure _); simpl; eauto. rewrite Hnone. simpl. eauto.
  - rewrite He. simpl. eauto.
Qed.

(** X19. An explicit team list wins: when [teams_config] is a non-empty
    list and the session update succeeds, [finalizeDraftSession] issues one
    creation per listed team, in list order, with the name and passcode
    given (whatever [num_teams] says); the session is stored active with
    its wizard state cleared, and when no creation fails the session is
    returned and the rows are in the team table. *)
Theorem finalizeDraftSession_explicit_teams
    (sessionId : string) (data : NewGameData.t) (w : World.t)
    (s : GameSession.t) (config : list TeamConfig.t) :
  NewGameData.teams_config data = Some config → config ≠ [] →
  sessionId ≠ "" → sessionId ≠ "new" →
  Db.sessions (World.db w) !! sessionId = Some s →
  failure (World.calls w ++ [SessionsUpdate sessionId (finalize_updates data)])
  = None →
  let r := finalizeDraftSession sessionId data w in
  let rows := configured_teams sessionId config in
  team_creations (World.calls r.1)
  = (team_creations (World.calls w) ++ rows)%list
  ∧ (∃ s', Db.sessions (World.db r.1) !! sessionId = Some s'
           ∧ GameSession.status s' = active
           ∧ GameSession.wizard_state s' = None)
  ∧ ((∀ calls row, failure (calls ++ [TeamsCreate row]) = None) →
     r.2 = Ok (apply_updates (finalize_updates data) s)
     ∧ Db.teams (World.db r.1) = (Db.teams (World.db w) ++ rows)%list).
Proof.
  intros Hcfg Hne Hne1 Hne2 Hs Hf r rows. subst r rows.
  destruct (finalizeDraftSession_after_update sessionId data w s Hne1 Hne2 Hs Hf)
    as (Hc & Hdb & Hr).
  assert (Hrows : provision_rows sessionId data (World.draws w)
                  = configured_teams sessionId config).
  { unfold provision_rows. rewrite Hcfg. simpl.
    destruct config; [done|]. reflexivity. }
  rewrite Hrows in *. set (w1 := World.with_db _ _) in *.
  destruct (create_all_effect (configured_teams sessionId config) w1)
    as (Hc1 & Hs1 & _).
  rewrite Hc, Hdb, Hc1, Hs1. split; [|split].
  - subst w1. simpl. rewrite !team_creations_app, team_creations_map. simpl.
    by rewrite app_nil_r.
  - exists (apply_updates (finalize_updates data) s). subst w1. simpl.
    by rewrite lookup_insert_eq.
  - intros Hcreate.
    destruct (create_all_resolves (configured_teams sessionId config) w1)
      as [Ho Ht].
    { intros done_ _ Hd. destruct done_ as [|x done_] using rev_ind; [done|].
      rewrite map_app, app_assoc. simpl. apply Hcreate. }
    rewrite Hr, Ho, Ht. by subst w1.
Qed.

(** X20. Synthesized teams, for any count: with no explicit list and
    [num_teams = n > 0], on a session the store updates,
    [finalizeDraftSession] issues exactly [n] creations, all for this
    session; the [i]-th carries a four-digit passcode made from the [i]-th
    random draw of the call and, while [65 + i] is a code unit below 256,
    is named 'Team ' followed by the character of code [65 + i] (a letter
    only for the first 26 teams). *)
Theorem finalizeDraftSession_default_teams
    (sessionId : string) (data : NewGameData.t) (w : World.t)
    (s : GameSession.t) :
  default [] (NewGameData.teams_config data) = [] →
  0 < NewGameData.num_teams data →
  sessionId ≠ "" → sessionId ≠ "new" →
  Db.sessions (World.db w) !! sessionId = Some s →
  failure (World.calls w ++ [SessionsUpdate sessionId (finalize_updates data)])
  = None →
  (∀ i, (0 <= random i)%Q ∧ (random i < 1)%Q) →
  let r := finalizeDraftSession sessionId data w in
  ∃ rows,
    team_creations (World.calls r.1)
    = (team_creations (World.calls w) ++ rows)%list
    ∧ Z.of_nat (length rows) = NewGameData.num_teams data
    ∧ ∀ i : nat, Z.of_nat i < NewGameData.num_teams data →
        ∃ row,
          rows !! i = Some row
          ∧ TeamInsert.session_id row = sessionId
          ∧ (65 + Z.of_nat i < 256 →
             TeamInsert.name row = "Team " ++ fromCharCode (65 + Z.of_nat i))
          ∧ TeamInsert.passcode row
            = random_passcode (random (World.draws w + i))
          ∧ four_digit_passcode (TeamInsert.passcode row).
Proof.
  intros Hcfg Hn Hne1 Hne2 Hs Hf Hrand r. subst r.
  destruct (finalizeDraftSession_after_update sessionId data w s Hne1 Hne2 Hs Hf)
    as (Hc & _ & _).
  assert (Hrows : provision_rows sessionId data (World.draws w)
                  = array_from_length_map (NewGameData.num_teams data)
                      (default_team sessionId (World.draws w))).
  { unfold provision_rows. rewrite Hcfg. simpl.
    destruct (Z.ltb_spec 0 (NewGameData.num_teams data)); [done | lia]. }
  rewrite Hrows in *. set (rows := array_from_length_map _ _) in *.
  set (w1 := World.with_db _ _) in *.
  destruct (create_all_effect rows w1) as (Hc1 & _ & _).
  exists rows. split; [|split].
  - rewrite Hc, Hc1. subst w1. simpl.
    rewrite !team_creations_app, team_creations_map. simpl.
    by rewrite app_nil_r.
  - subst rows. rewrite array_from_length_map_length. lia.
  - intros i Hi. exists (default_team sessionId (World.draws w) (Z.of_nat i)).
    split; [subst rows; apply array_from_length_map_lookup; lia|].
    unfold default_team. simpl. rewrite Nat2Z.id.
    repeat split; auto. apply random_passcode_four_digit; apply Hrand.
Qed.

(** X21. No teams asked for: with no explicit list and [num_teams ≤ 0],
    [finalizeDraftSession] updates the session and creates no team; its
    only call is the session update and it returns the updated session. *)
Theorem finalizeDraftSession_without_teams
    (sessionId : string) (data : NewGameData.t) (w : World.t)
    (s : GameSession.t) :
  default [] (NewGameData.teams_config data) = [] →
  NewGameData.num_teams data ≤ 0 →
  sessionId ≠ "" → sessionId ≠ "new" →
  Db.sessions (World.db w) !! sessionId = Some s →
  failure (World.calls w ++ [SessionsUpdate sessionId (finalize_updates data)])
  = None →
  let r := finalizeDraftSession sessionId data w in
  World.calls r.1
  = (World.calls w ++ [SessionsUpdate sessionId (finalize_updates data)])%list
  ∧ Db.teams (World.db r.1) = Db.teams (World.db w)
  ∧ r.2 = Ok (apply_updates (finalize_updates data) s).
Proof.
  intros Hcfg Hn Hne1 Hne2 Hs Hf r. subst r.
  destruct (finalizeDraftSession_after_update sessionId data w s Hne1 Hne2 Hs Hf)
    as (Hc & Hdb & Hr).
  assert (Hrows : provision_rows sessionId data (World.draws w) = []).
  { unfold provision_rows. rewrite Hcfg. simpl.
    destruct (Z.ltb_spec 0 (NewGameData.num_teams data)); [lia | done]. }
  rewrite Hrows in *. simpl in *. by rewrite Hc, Hdb, Hr.
Qed.

(** X22. When the session update itself fails (sentinel identifier,
    missing session row, or a store failure), [finalizeDraftSession]
    throws an error wrapping that failure, creates no team and leaves the
    store as it was. *)
Theorem finalizeDraftSession_update_failure
    (sessionId : string) (data : NewGameData.t) (w : World.t) :
  sessionId = "" ∨ sessionId = "new"
  ∨ Db.sessions (World.db w) !! sessionId = None
  ∨ is_Some (failure (World.calls w
                      ++ [SessionsUpdate sessionId (finalize_updates data)])) →
  let r := finalizeDraftSession sessionId data w in
  (∃ e, r.2 = Throw (finalize_error e))
  ∧ World.db r.1 = World.db w
  ∧ team_creations (World.calls r.1) = team_creations (World.calls w).
Proof.
  intros Hcause r. subst r.
  unfold finalizeDraftSession. fold (finalize_updates data).
  destruct (updateSession_fails sessionId (finalize_updates data) w Hcause)
    as [e He].
  destruct (updateSession sessionId (finalize_updates data) w)
    as [w1 res] eqn:E.
  simpl in He. subst res. simpl.
  apply updateSession_Throw in E as [Hdb Hw]. split; [eauto|].
  split; [done|].
  destruct Hw as [-> | ->]; [done|]. simpl.
  rewrite team_creations_app. simpl. by rewrite app_nil_r.
Qed.

(** A batch in which some creation fails rejects. *)
Lemma create_all_rejects rows w done_ e :
  done_ `prefix_of` rows → done_ ≠ [] →
  failure (World.calls w ++ map TeamsCreate done_) = Some e →
  ∃ e', (create_all rows w).2 = Rejected e'.
Proof.
  revert w done_. induction rows as [|row rows IH]; intros w done_ Hp Hne Hf.
  - apply prefix_nil_inv in Hp. done.
  - destruct done_ as [|row' done_]; [done|].
    pose proof (prefix_cons_inv_1 _ _ _ _ Hp) as ->.
    apply prefix_cons_inv_2 in Hp. simpl.
    destruct done_ as [|row2 done_].
    + unfold db_teams_create, issue. simpl in *. rewrite Hf.
      destruct (create_all rows _). simpl. eauto.
    + destruct (db_teams_create_effect row w) as (Hc & _ & _).
      destruct (db_teams_create row w) as [w1 o]. simpl in Hc.
      destruct (IH w1 (row2 :: done_) Hp ltac:(done)) as [e' He'].
      { rewrite Hc, <- app_assoc. exact Hf. }
      destruct (create_all rows w1) as [w2 o']. simpl in *. subst o'.
      destruct o; eauto.
Qed.

(** X23. Finalizing is not transactional: when the session update has
    succeeded and some team creation then fails, [finalizeDraftSession]
    throws, yet the session stays stored as active with its wizard state
    cleared, and every creation of the batch has been issued. *)
Theorem finalizeDraftSession_not_transactional
    (sessionId : string) (data : NewGameData.t) (w : World.t)
    (s : GameSession.t) (done_ : list TeamInsert.t) (e : Thrown) :
  sessionId ≠ "" → sessionId ≠ "new" →
  Db.sessions (World.db w) !! sessionId = Some s →
  failure (World.calls w ++ [SessionsUpdate sessionId (finalize_updates data)])
  = None →
  done_ `prefix_of` provision_rows sessionId data (World.draws w) →
  done_ ≠ [] →
  failure (World.calls w
           ++ SessionsUpdate sessionId (finalize_updates data)
              :: map TeamsCreate done_) = Some e →
  let r := finalizeDraftSession sessionId data w in
  (∃ e', r.2 = Throw (finalize_error e'))
  ∧ (∃ s', Db.sessions (World.db r.1) !! sessionId = Some s'
           ∧ GameSession.status s' = active
           ∧ GameSession.wizard_state s' = None)
  ∧ team_creations (World.calls r.1)
    = (team_creations (World.calls w)
       ++ provision_rows sessionId data (World.draws w))%list.
Proof.
  intros Hne1 Hne2 Hs Hf Hp Hne Hfail r. subst r.
  destruct (finalizeDraftSession_after_update sessionId data w s Hne1 Hne2 Hs Hf)
    as (Hc & Hdb & Hr).
  set (rows := provision_rows sessionId data (World.draws w)) in *.
  set (w1 := World.with_db _ _) in *.
  destruct (create_all_effect rows w1) as (Hc1 & Hs1 & _).
  destruct (create_all_rejects rows w1 done_ e Hp Hne) as [e' He'].
  { subst w1. simpl. rewrite <- app_assoc. exact Hfail. }
  rewrite Hr, He', Hdb, Hs1, Hc, Hc1. split; [eauto|]. split.
  - exists (apply_updates (finalize_updates data) s). subst w1. simpl.
    by rewrite lookup_insert_eq.
  - subst w1. simpl. rewrite !team_creations_app, team_creations_map. simpl.
    by rewrite app_nil_r.
Qed.

Lemma Db_ext (a b : Db.t) :
  Db.sessions a = Db.sessions b → Db.teams a = Db.teams b →
  Db.decisions a = Db.decisions b → a = b.
Proof. destruct a, b. simpl. congruence. Qed.

(** X24. Resetting undoes completion: [completeSession] stores the
    session as complete, completed and not playing; a following
    [resetSessionProgress] returns the same session and leaves the same
    store as a reset of the original session. *)
Theorem reset_after_complete_is_reset
    (sessionId : string) (w : World.t) (s : GameSession.t) :
  sessionId ≠ "" → sessionId ≠ "new" →
  Db.sessions (World.db w) !! sessionId = Some s →
  (∀ calls u, failure (calls ++ [SessionsUpdate sessionId u]) = None) →
  let finished := completeSession sessionId w in
  let r := resetSessionProgress sessionId finished.1 in
  (∃ c, finished.2 = Ok c
        ∧ Db.sessions (World.db finished.1) !! sessionId = Some c
        ∧ GameSession.is_complete c = true
        ∧ GameSession.status c = completed
        ∧ GameSession.is_playing c = false)
  ∧ r.2 = (resetSessionProgress sessionId w).2
  ∧ World.db r.1 = World.db (resetSessionProgress sessionId w).1.
Proof.
  intros Hne1 Hne2 Hs Hf finished r. subst finished r.
  unfold completeSession, resetSessionProgress.
  set (uc := Updates.mk None (Some completed) _ _ _ _ _ _ _ _).
  set (ur := Updates.mk None (Some active) _ _ _ _ _ _ _ _).
  rewrite (updateSession_succeeds _ uc _ _ Hne1 Hne2 Hs (Hf _ _)).
  rewrite (updateSession_succeeds _ ur w _ Hne1 Hne2 Hs (Hf _ _)).
  simpl. split.
  { exists (apply_updates uc s). by rewrite lookup_insert_eq. }
  erewrite (updateSession_succeeds _ ur _ (apply_updates uc s) Hne1 Hne2);
    [| simpl; by rewrite lookup_insert_eq | apply Hf].
  simpl. split; [done|]. by rewrite insert_insert_eq.
Qed.

(** X25. The three lists of [getCategorizedSessionsForHost]: every session
    of the host (its status being 'draft', 'active' or 'completed') is in
    at least one of them and each list keeps the store's order; an active
    session is in no other list, but the lists are not a partition: a
    draft is also listed as completed exactly when its [is_complete] flag
    is set. *)
Theorem categorized_sessions_cover_and_overlap (allSessions : list SessionRow.t) :
  ∃ c, getCategorizedSessionsForHost (Ok allSessions) = Ok c
    ∧ (∀ s, s ∈ allSessions
            ↔ s ∈ Categorized.draft c ∨ s ∈ Categorized.active c
              ∨ s ∈ Categorized.completed c)
    ∧ (∀ s, s ∈ Categorized.active c
            → (s ∉ Categorized.draft c) ∧ (s ∉ Categorized.completed c))
    ∧ (∀ s, s ∈ Categorized.draft c
            → ((s ∈ Categorized.completed c)
               ↔ GameSession.is_complete (SessionRow.session s) = true))
    ∧ Categorized.draft c `sublist_of` allSessions
    ∧ Categorized.active c `sublist_of` allSessions
    ∧ Categorized.completed c `sublist_of` allSessions.
Proof.
  eexists. split; [reflexivity|]. simpl.
  split; [|split; [|split; [|split; [|split]]]]; try apply sublist_filter.
  - intros s. rewrite !list_elem_of_filter. split; [|tauto].
    intros Hin.
    destruct (GameSession.status (SessionRow.session s)) eqn:Hst;
      destruct (GameSession.is_complete (SessionRow.session s)) eqn:Hc; auto 10.
  - intros s. rewrite !list_elem_of_filter. intros [[Hst Hc] _].
    split; intros [H _]; [congruence|]. destruct H; congruence.
  - intros s. rewrite !list_elem_of_filter. intros [Hst Hin]. split.
    + intros [[H | H] _]; [congruence | done].
    + auto.
Qed.

Lemma head_js_sort_cons {A} (cmp : A → A → Z) x l :
  head (js_sort cmp (x :: l))
  = match head (js_sort cmp l) with
    | None => Some x
    | Some y => if cmp x y <=? 0 then Some x else Some y
    end.
Proof.
  unfold js_sort. simpl. destruct (foldr _ _ l) as [|y l']; [done|]. simpl.
  by destruct (cmp x y <=? 0).
Qed.

(** The head of a list sorted by descending key is an element of the list
    with the greatest key. *)
Lemma head_js_sort_descending {A} (key : A → Z) (l : list A) :
  match head (js_sort (fun a b => key b - key a) l) with
  | None => l = []
  | Some d => d ∈ l ∧ ∀ s, s ∈ l → key s ≤ key d
  end.
Proof.
  induction l as [|x l IH]; [done|].
  rewrite head_js_sort_cons.
  destruct (head (js_sort _ l)) as [y|].
  - destruct IH as [Hy Hmax].
    destruct (Z.leb_spec (key y - key x) 0).
    + split; [left|]. intros s [->|Hs]%elem_of_cons; [lia|].
      specialize (Hmax s Hs). lia.
    + split; [by right|]. intros s [->|Hs]%elem_of_cons; [lia | auto].
  - subst l. split; [left|]. by intros s ->%list_elem_of_singleton.
Qed.

(** X26. [getLatestDraftForHost] answers [null] exactly when the host has
    no draft; otherwise it answers a draft of the host whose creation time
    is not earlier than that of any other draft (time stamps that
    [Date] can read). *)
Theorem getLatestDraftForHost_newest_draft
    (getTime : string → Z) (sessions : list SessionRow.t) :
  ∃ r, getLatestDraftForHost getTime (Ok sessions) = Ok r
    ∧ (r = None
       ↔ ∀ s, s ∈ sessions → GameSession.status (SessionRow.session s) ≠ draft)
    ∧ (∀ d, r = Some d →
         d ∈ sessions
         ∧ GameSession.status (SessionRow.session d) = draft
         ∧ ∀ s, s ∈ sessions →
             GameSession.status (SessionRow.session s) = draft →
             getTime (SessionRow.created_at s)
             ≤ getTime (SessionRow.created_at d)).
Proof.
  eexists. split; [reflexivity|].
  pose proof (head_js_sort_descending
                (fun a => getTime (SessionRow.created_at a))
                (filter (fun s => GameSession.status (SessionRow.session s) = draft)
                   sessions)) as H.
  simpl in H.
  destruct (head _) as [d|].
  - destruct H as [Hd Hmax]. apply list_elem_of_filter in Hd as [Hst Hin].
    split.
    + split; [done|]. intros Hno. by destruct (Hno d Hin).
    + intros d' [= <-]. repeat split; auto.
      intros s Hs Hdraft. apply Hmax. by apply list_elem_of_filter.
  - split; [|done]. split; [|done]. intros _ s Hs Hst.
    assert (Hin : s ∈ filter
              (fun s => GameSession.status (SessionRow.session s) = draft)
              sessions) by by apply list_elem_of_filter.
    rewrite H in Hin. by apply elem_of_nil in Hin.
Qed.

(** X27. [checkForExistingDraft] answers [null] exactly when the host has
    no draft; otherwise it answers the first draft in the store's order,
    whatever the creation times. *)
Theorem checkForExistingDraft_first_draft (sessions : list SessionRow.t) :
  ∃ r, checkForExistingDraft (Ok sessions) = Ok r
    ∧ (r = None
       ↔ ∀ s, s ∈ sessions → GameSession.status (SessionRow.session s) ≠ draft)
    ∧ (∀ d, r = Some d →
         GameSession.status (SessionRow.session d) = draft
         ∧ ∃ before after,
             sessions = (before ++ d :: after)%list
             ∧ ∀ s, s ∈ before →
                 GameSession.status (SessionRow.session s) ≠ draft).
Proof.
  eexists. split; [reflexivity|]. split.
  - rewrite head_None. split.
    + intros Hnil s Hs Hst.
      by apply (filter_nil_not_elem_of _ _ s Hnil Hst).
    + intros Hno.
      destruct (filter _ sessions) as [|d l] eqn:E; [done|].
      assert (Hd : d ∈ filter
                (fun s => GameSession.status (SessionRow.session s) = draft)
                sessions) by (rewrite E; left).
      apply list_elem_of_filter in Hd as [Hst Hin]. by destruct (Hno d Hin).
  - intros d Hd. split.
    + assert (Hin : d ∈ filter
                (fun s => GameSession.status (SessionRow.session s) = draft)
                sessions).
      { destruct (filter _ sessions) as [|d' l]; [done|].
        simpl in Hd. injection Hd as ->. left. }
      by apply list_elem_of_filter in Hin as [Hst _].
    + apply head_filter_Some in Hd as (l1 & l2 & -> & Hall).
      exists l1, l2. split; [done|]. by apply Forall_forall.
Qed.

(** X28. The wizard path and the direct path agree: on a structure with
    slides, for the identifier the store chose, when the finalizing update
    and every team creation are accepted, [createDraftSession] followed by
    [finalizeDraftSession] returns the same session and leaves the same
    store (sessions, teams, decisions) as [createSession] with the same
    data. *)
Theorem wizard_path_equals_createSession
    (newId hostId : string) (data : NewGameData.t) (g : GameStructure.t)
    (w : World.t) :
  GameStructure.slides g ≠ [] →
  newId ≠ "" → newId ≠ "new" →
  failure (World.calls w ++ [SessionsUpdate newId (finalize_updates data)])
  = None →
  (∀ calls row, failure (calls ++ [TeamsCreate row]) = None) →
  let direct := createSession (Ok (Some newId)) data hostId g w in
  let drafted := createDraftSession (Ok (Some newId)) hostId g w in
  let wizard := finalizeDraftSession newId data drafted.1 in
  (∃ d, drafted.2 = Ok d ∧ GameSession.status d = draft)
  ∧ (∃ s, direct.2 = Ok s ∧ GameSession.status s = active
          ∧ GameSession.id s = newId)
  ∧ wizard.2 = direct.2
  ∧ World.db wizard.1 = World.db direct.1.
Proof.
  intros Hslides Hne1 Hne2 Hf Hcreate direct drafted wizard.
  subst direct drafted wizard.
  assert (Hall : ∀ rows w0,
            (create_all rows w0).2 = Resolved
            ∧ Db.teams (World.db (create_all rows w0).1)
              = (Db.teams (World.db w0) ++ rows)%list).
  { intros rows w0. apply create_all_resolves.
    intros done_ _ Hd. destruct done_ as [|x done_] using rev_ind; [done|].
    rewrite map_app, app_assoc. simpl. apply Hcreate. }
  unfold createDraftSession, createSession.
  destruct (GameStructure.slides g) as [|firstSlide slides]; [done|]. simpl.
  apply String.eqb_neq in Hne1 as Hne1'. rewrite Hne1'. simpl.
  split; [eauto|].
  set (rec_d := GameSession.mk newId _ hostId draft _ _ _ _ _ _ _ _).
  set (rec_c := GameSession.mk newId _ hostId active _ _ _ _ _ _ _ _).
  set (wd := World.with_db (Db.with_sessions (<[newId := rec_d]> _) _) w).
  set (wc := World.with_db (Db.with_sessions (<[newId := rec_c]> _) _) w).
  pose proof (provisioning_effect newId data wc rec_c
                (fun error => Throw (ErrorObj ("Failed to create game session: "
                                               ++ formatSupabaseError error))))
    as Hdirect.
  cbv zeta in Hdirect. destruct Hdirect as (_ & Hdb_c & Hr_c).
  destruct (finalizeDraftSession_after_update newId data wd rec_d Hne1 Hne2)
    as (_ & Hdb_w & Hr_w).
  { subst wd. simpl. by rewrite lookup_insert_eq. }
  { exact Hf. }
  change (apply_updates (finalize_updates data) rec_d) with rec_c in *.
  change (World.draws wd) with (World.draws w) in *.
  change (World.draws wc) with (World.draws w) in *.
  set (rows := provision_rows newId data (World.draws w)) in *.
  set (wf := World.with_db _ (World.log _ wd)) in *.
  destruct (Hall rows wc) as [Hoc Htc]. destruct (Hall rows wf) as [Hof Htf].
  destruct (create_all_effect rows wc) as (_ & Hsc & Hdc).
  destruct (create_all_effect rows wf) as (_ & Hsf & Hdf).
  rewrite Hoc in Hr_c. rewrite Hof in Hr_w.
  split; [|split].
  - exists rec_c. by rewrite Hr_c.
  - by rewrite Hr_w, Hr_c.
  - rewrite Hdb_w, Hdb_c. apply Db_ext.
    + rewrite Hsf, Hsc. subst wf wc wd. simpl. by rewrite insert_insert_eq.
    + by rewrite Htf, Htc.
    + by rewrite Hdf, Hdc.
Qed.

End Simulator.

(** * The properties at concrete inputs *)

(** The reveal slide is evaluated twice, its processing succeeds, the host
    steps back, and the slide is evaluated again: one invocation. *)
Lemma consequence_processor_at_most_once_witness :
  (consequence_invocations 3
     (World.calls
        (run no_failure message_format
           [Evaluate (Some reveal_slide) (Some demo_structure);
            Evaluate (Some reveal_slide) (Some demo_structure);
            Settle 3 Resolved;
            Navigate OpPreviousSlide (Some demo_structure);
            Render (Some (demo_session 0));
            Evaluate (Some reveal_slide) (Some demo_structure)]
           (Controller.init (Some (demo_session 2)), demo_world 2)).2) ≤ 1)%nat.
Proof.
  apply (consequence_processor_at_most_once_per_load no_failure message_format 3).
  - reflexivity.
  - repeat constructor.
Defined.

(** The scenario of the spec: a consequence slide never processed before
    is evaluated twice in succession; the processor is called once. *)
Example consequence_twice_in_succession :
  consequence_calls
    (World.calls
       (run no_failure message_format
          [Evaluate (Some reveal_slide) (Some demo_structure);
           Evaluate (Some reveal_slide) (Some demo_structure)]
          (Controller.init (Some (demo_session 2)), demo_world 2)).2)
  = [3].
Proof. vm_compute. reflexivity. Qed.

(** A failure in between releases the mark: the processor is called
    again. *)
Example consequence_retry_after_failure :
  consequence_calls
    (World.calls
       (run no_failure message_format
          [Evaluate (Some reveal_slide) (Some demo_structure);
           Settle 3 (Rejected (ErrorObj "timeout"));
           Evaluate (Some reveal_slide) (Some demo_structure)]
          (Controller.init (Some (demo_session 2)), demo_world 2)).2)
  = [3; 3].
Proof. vm_compute. reflexivity. Qed.

Lemma nextSlide_finalizer_failure_witness :
  currentSlideIndex
    (nextSlide finalizer_fails message_format (Some demo_structure)
       (demo_controller 1) (demo_world 1)).1 = Some 1
  ∧ Controller.currentHostAlertState
      (nextSlide finalizer_fails message_format (Some demo_structure)
         (demo_controller 1) (demo_world 1)).1
    = Some (HostAlert.mk "Processing Error"
              "Failed to process slide: scoring failed").
Proof.
  destruct (nextSlide_finalizer_failure_aborts finalizer_fails message_format
              (Some demo_structure) (demo_controller 1) (demo_world 1)
              invest_slide (ErrorObj "scoring failed"))
    as (_ & Hidx & _ & _ & Halert); try reflexivity.
  split; [exact Hidx | exact Halert].
Defined.

(** The scenario of the spec: a team with an 'rd1-invest' decision and an
    'rd1-invest-immediate' record, both in the store; the reset of
    'rd1-invest' runs to its end and the immediate purchase is still
    shown. *)
Lemma resetDecision_is_phase_exact_witness :
  (resetTeamDecisionInDb no_failure message_format "s1" "team-a" "rd1-invest"
     demo_team_data (demo_world 0)).2 = Ok tt
  ∧ at_key
      (TeamData.teamDecisions
         (resetTeamDecisionInDb no_failure message_format "s1" "team-a"
            "rd1-invest" demo_team_data (demo_world 0)).1.1)
      "team-a" "rd1-invest-immediate" = Some immediate_decision
  ∧ at_key
      (TeamData.teamDecisions
         (resetTeamDecisionInDb no_failure message_format "s1" "team-a"
            "rd1-invest" demo_team_data (demo_world 0)).1.1)
      "team-a" "rd1-invest" = None.
Proof.
  destruct (resetDecision_is_phase_exact no_failure message_format
              "s1" "team-a" "rd1-invest" "rd1-invest-immediate"
              demo_team_data (demo_world 0))
    as (t1 & w1 & _ & Hrun & _ & Hreload & _).
  - discriminate.
  - discriminate.
  - discriminate.
  - discriminate.
  - reflexivity.
  - destruct (Hreload ltac:(discriminate) eq_refl) as (Hp & Hq & _).
    rewrite Hrun. split; [reflexivity|]. split.
    + exact (eq_trans Hq eq_refl).
    + exact Hp.
Defined.

(** When the reload fails the call still returns normally, and the
    projection it leaves is empty: the immediate purchase, untouched in
    the store, is no longer shown.  Read on the projection the call
    leaves, the claim as worded fails there. *)
Lemma resetDecision_reload_failure_counterexample :
  let r := resetTeamDecisionInDb reload_fails message_format "s1" "team-a"
             "rd1-invest" demo_team_data (demo_world 0) in
  r.2 = Ok tt
  ∧ at_key (TeamData.teamDecisions demo_team_data)
      "team-a" "rd1-invest-immediate" = Some immediate_decision
  ∧ at_key (TeamData.teamDecisions r.1.1) "team-a" "rd1-invest-immediate"
    = None
  ∧ Db.decisions (World.db r.1.2) = [immediate_decision]
  ∧ ¬ reset_keeps_other_phases reload_fails message_format
        "s1" "team-a" "rd1-invest" "rd1-invest-immediate"
        demo_team_data (demo_world 0).
Proof.
  split; [reflexivity|]. split; [reflexivity|]. split; [reflexivity|].
  split; [reflexivity|].
  intros Hclaim.
  destruct (Hclaim ltac:(discriminate) eq_refl) as [Hq _].
  vm_compute in Hq. discriminate Hq.
Qed.

(** The same on the sentinel session 'new': the delete is issued, the
    reload returns at once with the empty projection. *)
Example resetDecision_on_new_session_clears :
  let r := resetTeamDecisionInDb no_failure message_format "new" "team-a"
             "rd1-invest" demo_team_data (demo_world 0) in
  r.2 = Ok tt
  ∧ TeamData.teamDecisions r.1.1 = ∅
  ∧ World.calls r.1.2 = [DecisionsDelete "new" "team-a" "rd1-invest"].
Proof. repeat split. Qed.

Lemma consequence_failure_releases_mark_witness :
  3 ∉ Controller.processedConsequenceSlidesRef
        (step no_failure message_format
           (Settle 3 (Rejected (ErrorObj "timeout")))
           (step no_failure message_format
              (Evaluate (Some reveal_slide) (Some demo_structure))
              (demo_controller 2, demo_world 2))).1.
Proof.
  destruct (consequence_failure_releases_mark no_failure message_format
              reveal_slide demo_structure (demo_controller 2) (demo_world 2))
    as (_ & _ & Hfail & _).
  - reflexivity.
  - vm_compute. discriminate.
  - exact (proj1 (Hfail (ErrorObj "timeout"))).
Defined.

Lemma resetSessionProgress_resets_witness :
  ∃ s', (resetSessionProgress no_failure message_format "s1" (demo_world 2)).2
        = Ok s'.
Proof.
  apply (proj2 (proj2 (resetSessionProgress_resets no_failure message_format
                         "s1" (demo_world 2))) (demo_session 2)).
  - discriminate.
  - discriminate.
  - reflexivity.
  - intros u. reflexivity.
Defined.

Lemma finalizeDraftSession_three_default_teams_witness :
  ∃ p0 p1 p2,
    team_creations
      (World.calls
         (finalizeDraftSession no_failure message_format draw_half "11/2/2026"
            "d1" three_teams draft_world).1)
    = [TeamInsert.mk "d1" "Team A" p0;
       TeamInsert.mk "d1" "Team B" p1;
       TeamInsert.mk "d1" "Team C" p2]
    ∧ four_digit_passcode p0 ∧ four_digit_passcode p1 ∧ four_digit_passcode p2.
Proof.
  destruct (finalizeDraftSession_three_default_teams no_failure message_format
              draw_half "11/2/2026" "d1" three_teams draft_world draft_session)
    as (p0 & p1 & p2 & s' & Hcalls & H0 & H1 & H2 & _).
  - reflexivity.
  - reflexivity.
  - discriminate.
  - discriminate.
  - reflexivity.
  - intros u. reflexivity.
  - intros i. split; [discriminate | reflexivity].
  - exists p0, p1, p2. split; [exact Hcalls | auto].
Defined.

(** With every draw one half, the passcodes are all "5500"; the session
    is stored active, named by the trimmed name, without wizard state. *)
Example finalizeDraftSession_three_teams_run :
  let w' := (finalizeDraftSession no_failure message_format draw_half
               "11/2/2026" "d1" three_teams draft_world).1 in
  Db.teams (World.db w')
  = [TeamInsert.mk "d1" "Team A" "5500";
     TeamInsert.mk "d1" "Team B" "5500";
     TeamInsert.mk "d1" "Team C" "5500"]
  ∧ (GameSession.status <$> Db.sessions (World.db w') !! "d1") = Some active
  ∧ (GameSession.wizard_state <$> Db.sessions (World.db w') !! "d1") = Some None
  ∧ (GameSession.name <$> Db.sessions (World.db w') !! "d1") = Some "Period 3".
Proof. vm_compute. repeat split. Qed.

(** The extreme draws give the extreme passcodes. *)
Example random_passcode_bounds :
  random_passcode 0 = "1000"
  ∧ random_passcode (9999 # 10000) = "9999"
  ∧ random_passcode (8999 # 9000) = "9999".
Proof. vm_compute. repeat split. Qed.

(** On the first of three slides, [nextSlide] moves to the second. *)
Lemma nextSlide_advances_below_last_witness :
  currentSlideIndex
    (nextSlide no_failure message_format (Some demo_structure)
       (demo_controller 0) (demo_world 0)).1 = Some 1
  ∧ Controller.allTeamsAlertDismissed
      (nextSlide no_failure message_format (Some demo_structure)
         (demo_controller 0) (demo_world 0)).1 = false.
Proof.
  destruct (proj1 (nextSlide_advances_below_last no_failure message_format
                     (Some demo_structure) (demo_controller 0) (demo_world 0)
                     (demo_session 0) 0 intro_slide
                     eq_refl eq_refl eq_refl (fun _ => eq_refl))
              ltac:(vm_compute; discriminate) (demo_session 0)
              ltac:(discriminate) ltac:(discriminate) eq_refl
              (fun _ _ => eq_refl))
    as (Hidx & _ & _ & Hflag).
  split; [exact Hidx | exact Hflag].
Defined.

(** On the last of three slides, none of them interactive at that index
    and with the dismissal flag set, [nextSlide] issues no session update
    and leaves the flag set: the claim as worded fails there. *)
Lemma nextSlide_at_last_slide_counterexample :
  nextSlide no_failure message_format (Some demo_structure)
    (demo_controller 2) (demo_world 2)
  = (demo_controller 2, demo_world 2)
  ∧ Controller.allTeamsAlertDismissed (demo_controller 2) = true
  ∧ session_updates (World.calls (demo_world 2)) = []
  ∧ ¬ advance_persists_and_clears no_failure message_format
        (Some demo_structure) (demo_controller 2) (demo_world 2).
Proof.
  split; [reflexivity|]. split; [reflexivity|]. split; [reflexivity|].
  intros Hclaim.
  destruct (Hclaim (demo_session 2) 2 reveal_slide eq_refl eq_refl eq_refl
              (fun _ => eq_refl)) as (_ & _ & Hflag).
  vm_compute in Hflag. discriminate Hflag.
Qed.

(** How the hook gets to the last slide with the dismissal flag set: on
    the interactive slide before it all teams submit, the alert shows, the
    host dismisses it, and the dismissal advances.  A [nextSlide] there
    leaves the flag set. *)
Example dismissed_flag_reaches_last_slide :
  let c0 := Controller.with_submitted true
              (Controller.init (Some (demo_session 1))) in
  let c1 := showAllSubmittedAlert (Some demo_structure) c0 in
  let cw2 := clearHostAlert no_failure message_format (Some demo_structure)
               c1 (demo_world 1) in
  let cw3 := nextSlide no_failure message_format (Some demo_structure)
               cw2.1 cw2.2 in
  Controller.currentHostAlertState c1
  = Some (HostAlert.mk ALL_SUBMIT_ALERT_TITLE ALL_SUBMIT_ALERT_MESSAGE)
  ∧ cw2.1 = Controller.with_submitted true (demo_controller 2)
  ∧ session_updates (World.calls cw2.2) = [("s1", Updates.only_index 2)]
  ∧ cw3 = cw2.
Proof. vm_compute. repeat split. Qed.

Lemma round_data_upserts_commute_witness :
  let x := TeamRoundData.mk "team-a" 1 "capacity=10" in
  let y := TeamRoundData.mk "team-a" 2 "capacity=12" in
  onRoundDataChange (INSERT x)
    (onRoundDataChange (UPDATE y (PartialRoundData.mk None None)) ∅)
  = onRoundDataChange (UPDATE y (PartialRoundData.mk None None))
      (onRoundDataChange (INSERT x) ∅).
Proof.
  intros x y.
  apply (proj1 (round_data_upserts_commute (INSERT x)
                  (UPDATE y (PartialRoundData.mk None None)) x y ∅
                  eq_refl eq_refl ltac:(discriminate))).
Defined.

Lemma selectSlideByIndex_rejects_out_of_range_witness :
  selectSlideByIndex no_failure message_format (Some demo_structure) (-1)
    (demo_controller 1) (demo_world 1)
  = (demo_controller 1, demo_world 1)
  ∧ selectSlideByIndex no_failure message_format (Some demo_structure) 3
      (demo_controller 1) (demo_world 1)
    = (demo_controller 1, demo_world 1).
Proof.
  split.
  - apply selectSlideByIndex_rejects_out_of_range. left. lia.
  - apply selectSlideByIndex_rejects_out_of_range. right. simpl. lia.
Defined.

Lemma previousSlide_steps_back_witness :
  currentSlideIndex
    (previousSlide no_failure message_format
       (demo_controller 0) (demo_world 0)).1 = Some 0
  ∧ World.calls
      (previousSlide no_failure message_format
         (demo_controller 0) (demo_world 0)).2
    = [SessionsUpdate "s1" (Updates.only_index 0)].
Proof.
  pose proof (previousSlide_steps_back no_failure message_format
                (demo_controller 0) (demo_world 0) (demo_session 0)
                (demo_session 0) 0
                eq_refl eq_refl ltac:(discriminate) ltac:(discriminate)
                eq_refl eq_refl) as (Hidx & Hcalls & _).
  split; [exact Hidx | exact Hcalls].
Defined.

Lemma selectSlideByIndex_jumps_in_range_witness :
  currentSlideIndex
    (selectSlideByIndex no_failure message_format (Some demo_structure) 2
       (demo_controller 1) (demo_world 1)).1 = Some 2.
Proof.
  exact (proj1 (selectSlideByIndex_jumps_in_range no_failure message_format
                  (Some demo_structure) 2 (demo_controller 1) (demo_world 1)
                  (demo_session 1) (demo_session 1)
                  eq_refl ltac:(simpl; lia) ltac:(discriminate)
                  ltac:(discriminate) eq_refl eq_refl)).
Defined.

Lemma navigation_store_failure_keeps_position_witness :
  Controller.dbSession
    (previousSlide store_down message_format
       (demo_controller 1) (demo_world 1)).1 = Some (demo_session 1)
  ∧ Controller.currentHostAlertState
      (previousSlide store_down message_format
         (demo_controller 1) (demo_world 1)).1
    = Some (HostAlert.mk "Navigation Error"
              "Failed to save session progress: offline").
Proof.
  assert (Hdown : ∀ (calls : list Call) k,
            store_down (calls ++ [SessionsUpdate "s1" (Updates.only_index k)])
            = Some (ErrorObj "offline")).
  { intros calls k. unfold store_down. by rewrite last_snoc. }
  pose proof (navigation_store_failure_keeps_position store_down message_format
                (Some demo_structure) (demo_controller 1) (demo_world 1)
                (demo_session 1) 1 (ErrorObj "offline")
                eq_refl eq_refl ltac:(discriminate) ltac:(discriminate) Hdown)
    as ((Hsess & _ & _ & Halert) & _).
  split; [exact Hsess | exact Halert].
Defined.

(** On the interactive slide, the dismissal moves to the last slide and
    the log holds the index update only. *)
Lemma clearHostAlert_advances_without_finalizing_witness :
  let c := Controller.with_alert
             (Some (HostAlert.mk ALL_SUBMIT_ALERT_TITLE ALL_SUBMIT_ALERT_MESSAGE))
             (Controller.init (Some (demo_session 1))) in
  World.calls
    (clearHostAlert no_failure message_format (Some demo_structure)
       c (demo_world 1)).2
  = [SessionsUpdate "s1" (Updates.only_index 2)].
Proof.
  intros c.
  exact (proj1 (clearHostAlert_advances_without_finalizing no_failure
                  message_format (Some demo_structure) c (demo_world 1)
                  (HostAlert.mk ALL_SUBMIT_ALERT_TITLE ALL_SUBMIT_ALERT_MESSAGE)
                  (demo_session 1) (demo_session 1)
                  eq_refl eq_refl eq_refl ltac:(discriminate)
                  ltac:(discriminate) eq_refl eq_refl)).
Defined.

Lemma dismissed_alert_does_not_reappear_witness :
  let c := Controller.with_submitted true
             (Controller.with_alert
                (Some (HostAlert.mk ALL_SUBMIT_ALERT_TITLE ALL_SUBMIT_ALERT_MESSAGE))
                (Controller.init (Some (demo_session 0)))) in
  let c' := (clearHostAlert no_failure message_format (Some demo_structure)
               c (demo_world 0)).1 in
  showAllSubmittedAlert (Some demo_structure) c' = c'.
Proof.
  intros c.
  exact (dismissed_alert_does_not_reappear no_failure message_format
           (Some demo_structure) (Some demo_structure) c (demo_world 0)
           (HostAlert.mk ALL_SUBMIT_ALERT_TITLE ALL_SUBMIT_ALERT_MESSAGE)
           eq_refl eq_refl).
Defined.

Lemma host_notes_round_trip_witness :
  hostNotes
    (updateHostNotesForCurrentSlide no_failure message_format "ask about ASP"
       {["0" := "welcome"]} (demo_controller 1) (demo_world 1)).1
    (demo_controller 1)
  = "ask about ASP".
Proof.
  exact (proj1 (proj2 (host_notes_round_trip no_failure message_format
                         "ask about ASP" {["0" := "welcome"]}
                         (demo_controller 1) (demo_world 1)
                         (demo_session 1) 1 eq_refl eq_refl))).
Defined.

Lemma one_call_in_flight_per_slide_witness :
  one_in_flight
    (run no_failure message_format
       [Evaluate (Some reveal_slide) (Some demo_structure);
        Settle 3 (Rejected (ErrorObj "timeout"));
        Evaluate (Some reveal_slide) (Some demo_structure);
        Evaluate (Some reveal_slide) (Some demo_structure);
        Navigate OpPreviousSlide (Some demo_structure)]
       (Controller.init (Some (demo_session 2)), demo_world 2)).
Proof.
  apply (one_call_in_flight_per_slide no_failure message_format).
  - split; [constructor | intros x Hx; by apply not_elem_of_nil in Hx].
  - repeat constructor.
Defined.

Lemma feed_delete_removes_its_slot_witness :
  let x := TeamRoundData.mk "team-a" 1 "capacity=10" in
  let y := TeamRoundData.mk "team-a" 2 "capacity=12" in
  let prev := replay [INSERT x; INSERT y] ∅ in
  let updated :=
    onRoundDataChange
      (DELETE (PartialRoundData.mk (Some "team-a") (Some 1))) prev in
  at_key updated "team-a" 1 = None ∧ at_key updated "team-a" 2 = Some y.
Proof.
  intros x y prev updated.
  pose proof (proj1 (feed_delete_removes_its_slot
                       (PartialRoundData.mk (Some "team-a") (Some 1))
                       "team-a" 1 prev eq_refl eq_refl
                       ltac:(discriminate) ltac:(discriminate))) as H.
  split; [exact (H "team-a" 1) | exact (H "team-a" 2)].
Defined.

(** A row stored for round 0 survives its own delete event. *)
Lemma feed_delete_without_truthy_key_is_ignored_witness :
  let z := TeamRoundData.mk "team-a" 0 "baseline" in
  let prev := replay [INSERT z] ∅ in
  onRoundDataChange (DELETE (PartialRoundData.mk (Some "team-a") (Some 0))) prev
  = prev.
Proof.
  intros z prev.
  apply feed_delete_without_truthy_key_is_ignored. right. right. reflexivity.
Defined.

Lemma feed_later_event_on_slot_wins_witness :
  let x := TeamRoundData.mk "team-a" 1 "capacity=10" in
  let x' := TeamRoundData.mk "team-a" 1 "capacity=11" in
  onRoundDataChange (UPDATE x' (PartialRoundData.mk None None))
    (onRoundDataChange (INSERT x) ∅)
  = onRoundDataChange (UPDATE x' (PartialRoundData.mk None None)) ∅.
Proof.
  intros x x'.
  exact (proj1 (feed_later_event_on_slot_wins (INSERT x)
                  (UPDATE x' (PartialRoundData.mk None None)) ∅ eq_refl)).
Defined.

Lemma feed_events_on_distinct_slots_commute_witness :
  let x := TeamRoundData.mk "team-a" 1 "capacity=10" in
  let gone := DELETE (PartialRoundData.mk (Some "team-a") (Some 2)) in
  let prev := replay [INSERT (TeamRoundData.mk "team-a" 2 "capacity=12")] ∅ in
  onRoundDataChange (INSERT x) (onRoundDataChange gone prev)
  = onRoundDataChange gone (onRoundDataChange (INSERT x) prev).
Proof.
  intros x gone prev.
  apply feed_events_on_distinct_slots_commute. left. discriminate.
Defined.

Lemma feed_replay_order_independent_witness :
  let x := INSERT (TeamRoundData.mk "team-a" 1 "capacity=10") in
  let y := INSERT (TeamRoundData.mk "team-b" 1 "capacity=9") in
  let gone := DELETE (PartialRoundData.mk (Some "team-a") (Some 2)) in
  let prev := replay [INSERT (TeamRoundData.mk "team-a" 2 "capacity=12")] ∅ in
  replay [x; y; gone] prev = replay [gone; x; y] prev.
Proof.
  intros x y gone prev.
  apply feed_replay_order_independent.
  - symmetry. apply (Permutation_cons_append [x; y] gone).
  - vm_compute. repeat constructor; vm_compute; intros H;
      repeat (apply elem_of_cons in H as [H|H]; [discriminate H|]);
      by apply not_elem_of_nil in H.
Defined.

Lemma feed_insert_then_delete_restores_witness :
  let y := TeamRoundData.mk "team-a" 2 "capacity=12" in
  let prev := replay [INSERT (TeamRoundData.mk "team-a" 1 "capacity=10")] ∅ in
  onRoundDataChange (DELETE (PartialRoundData.mk (Some "team-a") (Some 2)))
    (onRoundDataChange (INSERT y) prev)
  = prev.
Proof.
  intros y prev.
  apply feed_insert_then_delete_restores;
    try reflexivity; try discriminate.
  apply (onRoundDataChange_no_empty (INSERT _) ∅), no_empty_entry_empty.
Defined.

Lemma failed_reset_changes_nothing_witness :
  (resetTeamDecisionInDb no_failure message_format "s1" "" "rd1-invest"
     (TeamData.mk demo_decisions ∅ false None) (demo_world 0)).1.1
  = TeamData.mk demo_decisions ∅ false None.
Proof.
  exact (proj1 (failed_reset_changes_nothing no_failure message_format
                  "s1" "" "rd1-invest"
                  (TeamData.mk demo_decisions ∅ false None) (demo_world 0)
                  (ErrorObj "Missing session, team, or phase ID for reset.")
                  eq_refl)).
Defined.

Lemma removeDecision_idempotent_and_commutes_witness :
  removeDecision "team-a" "rd1-invest"
    (removeDecision "team-a" "rd1-invest-immediate" demo_decisions)
  = removeDecision "team-a" "rd1-invest-immediate"
      (removeDecision "team-a" "rd1-invest" demo_decisions).
Proof.
  apply (proj2 (removeDecision_idempotent_and_commutes
                  "team-a" "rd1-invest" "team-a" "rd1-invest-immediate"
                  demo_decisions)).
  discriminate.
Defined.

(** ** [GameSessionManager]: the further properties at concrete inputs *)

Lemma finalizeDraftSession_explicit_teams_witness :
  team_creations
    (World.calls
       (finalizeDraftSession no_failure message_format draw_half "11/2/2026"
          "d1" explicit_teams draft_world).1)
  = [TeamInsert.mk "d1" "Red" "1234"; TeamInsert.mk "d1" "Blue" "5678"].
Proof.
  exact (proj1 (finalizeDraftSession_explicit_teams no_failure message_format
                  draw_half "11/2/2026" "d1" explicit_teams draft_world
                  draft_session
                  [TeamConfig.mk "Red" "1234"; TeamConfig.mk "Blue" "5678"]
                  eq_refl ltac:(discriminate) ltac:(discriminate)
                  ltac:(discriminate) eq_refl eq_refl)).
Defined.

Lemma finalizeDraftSession_default_teams_witness :
  ∃ rows,
    team_creations
      (World.calls
         (finalizeDraftSession no_failure message_format draw_half "11/2/2026"
            "d1" three_teams draft_world).1)
    = rows
    ∧ Z.of_nat (length rows) = 3.
Proof.
  destruct (finalizeDraftSession_default_teams no_failure message_format
              draw_half "11/2/2026" "d1" three_teams draft_world draft_session)
    as (rows & Hc & Hlen & _).
  - reflexivity.
  - reflexivity.
  - discriminate.
  - discriminate.
  - reflexivity.
  - reflexivity.
  - intros i. split; [discriminate | reflexivity].
  - exists rows. split; [exact Hc | exact Hlen].
Defined.

Lemma finalizeDraftSession_without_teams_witness :
  Db.teams
    (World.db
       (finalizeDraftSession no_failure message_format draw_half "11/2/2026"
          "d1" no_teams draft_world).1)
  = [].
Proof.
  exact (proj1 (proj2 (finalizeDraftSession_without_teams no_failure
                         message_format draw_half "11/2/2026" "d1" no_teams
                         draft_world draft_session
                         eq_refl ltac:(simpl; lia) ltac:(discriminate)
                         ltac:(discriminate) eq_refl eq_refl))).
Defined.

Lemma finalizeDraftSession_update_failure_witness :
  World.db
    (finalizeDraftSession no_failure message_format draw_half "11/2/2026"
       "new" three_teams draft_world).1
  = World.db draft_world.
Proof.
  exact (proj1 (proj2 (finalizeDraftSession_update_failure no_failure
                         message_format draw_half "11/2/2026" "new" three_teams
                         draft_world (or_intror (or_introl eq_refl))))).
Defined.

Lemma finalizeDraftSession_not_transactional_witness :
  (∃ e', (finalizeDraftSession team_b_fails message_format draw_half
            "11/2/2026" "d1" three_teams draft_world).2
         = Throw (finalize_error message_format e'))
  ∧ ∃ s', Db.sessions
            (World.db
               (finalizeDraftSession team_b_fails message_format draw_half
                  "11/2/2026" "d1" three_teams draft_world).1) !! "d1"
          = Some s'
          ∧ GameSession.status s' = active.
Proof.
  destruct (finalizeDraftSession_not_transactional team_b_fails message_format
              draw_half "11/2/2026" "d1" three_teams draft_world draft_session
              [default_team draw_half "d1" 0 0; default_team draw_half "d1" 0 1]
              (ErrorObj "duplicate key"))
    as (Hthrow & (s' & Hs' & Hactive & _) & _).
  - discriminate.
  - discriminate.
  - reflexivity.
  - reflexivity.
  - exists [default_team draw_half "d1" 0 2]. reflexivity.
  - discriminate.
  - reflexivity.
  - split; [exact Hthrow | exists s'; split; [exact Hs' | exact Hactive]].
Defined.

Lemma reset_after_complete_is_reset_witness :
  World.db
    (resetSessionProgress no_failure message_format "s1"
       (completeSession no_failure message_format "s1" (demo_world 2)).1).1
  = World.db (resetSessionProgress no_failure message_format "s1" (demo_world 2)).1.
Proof.
  exact (proj2 (proj2 (reset_after_complete_is_reset no_failure message_format
                         "s1" (demo_world 2) (demo_session 2)
                         ltac:(discriminate) ltac:(discriminate) eq_refl
                         (fun _ _ => eq_refl)))).
Defined.

Lemma wizard_path_equals_createSession_witness :
  World.db
    (finalizeDraftSession no_failure message_format draw_half "11/2/2026"
       "n1" three_teams
       (createDraftSession message_format "11/2/2026" (Ok (Some "n1"))
          "host-1" demo_structure draft_world).1).1
  = World.db
      (createSession no_failure message_format draw_half "11/2/2026"
         (Ok (Some "n1")) three_teams "host-1" demo_structure draft_world).1.
Proof.
  exact (proj2 (proj2 (proj2
           (wizard_path_equals_createSession no_failure message_format
              draw_half "11/2/2026" "n1" "host-1" three_teams demo_structure
              draft_world
              ltac:(discriminate) ltac:(discriminate) ltac:(discriminate)
              eq_refl (fun _ _ => eq_refl))))).
Defined.
